(** * Foris configuration handlers: a shallow embedding of
      [foris/config_handlers/base.py]

    The handlers build a form, validate the submitted data and, when the
    form is valid, run their save callbacks.  A callback builds a patch (a
    tree of [Uci] / [Config] / [Section] / [Option] / [List] / [Value]
    objects carrying an operation mark) and hands it back together with an
    action tag.

    Python values are an inductive type, dictionaries are [gmap string],
    the objects of a patch live in a heap so that [uci.add(network)]
    followed by [network.add(wan)] behaves as it does in Python, and
    exceptions are explicit outcomes. *)

From Stdlib Require Import ZArith Lia Ascii String.
From stdpp Require Import base option list gmap strings pretty.

Set Warnings "-register-all".


(** ** Python values *)

Inductive PyVal : Type :=
  | VNone
  | VBool (b : bool)
  | VInt (z : Z)
  | VStr (s : string)
  | VList (l : list string)
  | VFile (content : string).

#[global] Instance PyVal_eq_dec : EqDecision PyVal.
Proof. solve_decision. Defined.

(** The submitted (cleaned) form data: a dictionary from field names to
    values. *)
Abbreviation Data := (gmap string PyVal).

Inductive exn : Type :=
  | KeyError (key : string)
  | AttributeError (attr : string)
  | TypeError (what : string)
  | ValueError (what : string)
  | NotImplementedError.

Inductive outcome (A : Type) : Type :=
  | Ok (a : A)
  | Raise (e : exn).
Arguments Ok {A} a.
Arguments Raise {A} e.

(** Truth value testing ([if v:], [not v], [a and b]). *)
Definition py_bool (v : PyVal) : bool :=
  match v with
  | VNone => false
  | VBool b => b
  | VInt z => negb (z =? 0)%Z
  | VStr s => negb (String.eqb s "")
  | VList l => negb (Nat.eqb (length l) 0)
  | VFile _ => true
  end.

(** [v is True]. *)
Definition py_is_True (v : PyVal) : bool :=
  match v with
  | VBool true => true
  | _ => false
  end.

(** [v == s] for a string constant [s]. *)
Definition py_eq_str (v : PyVal) (s : string) : bool :=
  match v with
  | VStr t => String.eqb t s
  | _ => false
  end.

(** ** Strings *)

Module Str.

(** [s.startswith(p)] *)
Fixpoint startswith (p s : string) : bool :=
  match p with
  | EmptyString => true
  | String a p' =>
      match s with
      | EmptyString => false
      | String b s' => if Ascii.eqb a b then startswith p' s' else false
      end
  end.

(** [s[n:]] *)
Fixpoint drop (n : nat) (s : string) : string :=
  match n with
  | O => s
  | S n' => match s with
            | EmptyString => EmptyString
            | String _ s' => drop n' s'
            end
  end.

Fixpoint lstrip (s : string) : string :=
  match s with
  | EmptyString => EmptyString
  | String a s' => if Ascii.is_space a then lstrip s' else s
  end.

(** [s.strip()] *)
Definition strip (s : string) : string :=
  String.rev (lstrip (String.rev (lstrip s))).

(** [sep.join(l)] *)
Fixpoint join (sep : string) (l : list string) : string :=
  match l with
  | [] => ""
  | [x] => x
  | x :: rest => x +:+ sep +:+ join sep rest
  end.

(** [s.split(sep)] for a one-character separator: split at every
    occurrence, keeping empty pieces. *)
Fixpoint split_go (sep : ascii) (cur : string) (s : string) : list string :=
  match s with
  | EmptyString => [String.rev cur]
  | String a s' =>
      if Ascii.eqb a sep
      then String.rev cur :: split_go sep "" s'
      else split_go sep (String a cur) s'
  end.
Definition split (sep : ascii) (s : string) : list string := split_go sep "" s.

(** [p in s] for strings. *)
Fixpoint contains (p s : string) : bool :=
  startswith p s ||
  match s with
  | EmptyString => false
  | String _ s' => contains p s'
  end.

End Str.

(** [str(v)], as used by ["%s" % v].  Elements of a list are shown between
    quotes without escaping, an uploaded file by a fixed tag. *)
Definition py_str (v : PyVal) : string :=
  match v with
  | VNone => "None"
  | VBool true => "True"
  | VBool false => "False"
  | VInt z => pretty z
  | VStr s => s
  | VList l => "[" +:+ Str.join ", " ((fun x => "'" +:+ x +:+ "'") <$> l) +:+ "]"
  | VFile _ => "<FileUpload>"
  end.

(** ** A state monad with exceptions *)

Definition M (S A : Type) : Type := S -> outcome A * S.

Definition ret {S A} (a : A) : M S A := fun s => (Ok a, s).

Definition raise {S A} (e : exn) : M S A := fun s => (Raise e, s).

Definition bind {S A B} (m : M S A) (k : A -> M S B) : M S B :=
  fun s =>
    match m s with
    | (Ok a, s') => k a s'
    | (Raise e, s') => (Raise e, s')
    end.

Definition gets {S A} (f : S -> A) : M S A := fun s => (Ok (f s), s).

Definition modify {S} (f : S -> S) : M S unit := fun s => (Ok tt, f s).

Definition lift_outcome {S A} (o : outcome A) : M S A := fun s => (o, s).

Declare Scope py_scope.
Delimit Scope py_scope with py.
Notation "'let!' x ':=' c 'in' k" := (bind c (fun x => k))
  (at level 10, x pattern, c at level 100, k at level 200) : py_scope.
Notation "c '>>' k" := (bind c (fun _ => k))
  (at level 100, k at level 200, right associativity) : py_scope.
Open Scope py_scope.

(** [when b m]: [if b: m]. *)
Definition when {S} (b : bool) (m : M S unit) : M S unit :=
  if b then m else ret tt.

(** [d[k]]: raises [KeyError] when the key is missing. *)
Definition getitem {S} (d : Data) (k : string) : M S PyVal :=
  match d !! k with
  | Some v => ret v
  | None => raise (KeyError k)
  end.

(** [d.get(k)] and [d.get(k, default)]. *)
Definition dict_get (d : Data) (k : string) (default : PyVal) : PyVal :=
  match d !! k with
  | Some v => v
  | None => default
  end.

(** [" ".join([a, b])]: every item must be a string. *)
Definition join_vals {S} (sep : string) (l : list PyVal) : M S string :=
  match mapM (fun v => match v with VStr s => Some s | _ => None end) l with
  | Some ss => ret (Str.join sep ss)
  | None => raise (TypeError "sequence item: expected string")
  end.

(** ["lit" + v]: string concatenation. *)
Definition str_add {S} (lit : string) (v : PyVal) : M S string :=
  match v with
  | VStr s => ret (lit +:+ s)
  | _ => raise (TypeError "cannot concatenate 'str' and other objects")
  end.

(** ** Configuration trees and patches ([foris.nuci.modules.uci_raw]) *)

Inductive Operation : Type := OpRemove | OpReplace.

(** Modelled from the spec: the node classes of [uci_raw], which this
    module only imports.  [Uci()], [Config(name)], [Section(name, type,
    anonymous)], [Option(name, value)], [List(name)] and [Value(index,
    content)] with the attributes the handlers read and write. *)
Inductive NodeKind : Type :=
  | KUci
  | KConfig (name : string)
  | KSection (name : PyVal) (type_ : string) (anonymous : bool)
  | KOption (name : string) (value : PyVal)
  | KList (name : string)
  | KValue (index : Z) (content : string).

(** Modelled from the spec: a tree of nodes, each with the operation the
    store is to perform on it ([None]: set/merge, the default of [add]).
    The same shape serves for the fetched configuration snapshot. *)
Inductive UciTree : Type :=
  | UNode (kind : NodeKind) (operation : option Operation) (children : list UciTree).

Definition kind (t : UciTree) : NodeKind := let 'UNode k _ _ := t in k.
Definition operation (t : UciTree) : option Operation := let 'UNode _ o _ := t in o.
Definition children (t : UciTree) : list UciTree := let 'UNode _ _ c := t in c.

(** An object of a patch under construction: children are references. *)
Record Obj : Type := mkObj {
  o_kind : NodeKind;
  o_operation : option Operation;
  o_children : list nat
}.

Abbreviation Heap := (list Obj).

Definition alloc (k : NodeKind) (h : Heap) : nat * Heap :=
  (length h, h ++ [mkObj k None []]).

Definition append_child (parent child : nat) (h : Heap) : Heap :=
  alter (fun o => mkObj (o_kind o) (o_operation o) (o_children o ++ [child])) parent h.

Definition set_operation (i : nat) (op : Operation) (h : Heap) : Heap :=
  alter (fun o => mkObj (o_kind o) (Some op) (o_children o)) i h.

(** The tree reachable from a reference; [fuel] bounds the depth. *)
Fixpoint reify (fuel : nat) (h : Heap) (i : nat) : option UciTree :=
  match fuel with
  | O => None
  | S fuel' =>
      match h !! i with
      | None => None
      | Some o =>
          match mapM (reify fuel' h) (o_children o) with
          | None => None
          | Some cs => Some (UNode (o_kind o) (o_operation o) cs)
          end
      end
  end.

(** *** Path lookup *)

Definition node_key (t : UciTree) : option string :=
  match kind t with
  | KUci => Some "uci"
  | KConfig n => Some n
  | KSection (VStr n) _ _ => Some n
  | KSection _ _ _ => None
  | KOption n _ => Some n
  | KList n => Some n
  | KValue i _ => Some (pretty i)
  end.

Definition section_type (t : UciTree) : option string :=
  match kind t with
  | KSection _ ty _ => Some ty
  | _ => None
  end.

Fixpoint digits_to_nat (acc : nat) (s : string) : option nat :=
  match s with
  | EmptyString => Some acc
  | String a s' =>
      match Ascii.is_nat a with
      | Some d => digits_to_nat (10 * acc + d) s'
      | None => None
      end
  end.

(** ["@type[n]"] gives [(type, n)]. *)
Definition parse_indexed (seg : string) : option (string * nat) :=
  match seg with
  | String "@" rest =>
      match Str.split "[" rest with
      | [ty; idx] =>
          match Str.split "]" idx with
          | [ds; ""] =>
              if String.eqb ds "" then None
              else match digits_to_nat 0 ds with
                   | Some n => Some (ty, n)
                   | None => None
                   end
          | _ => None
          end
      | _ => None
      end
  | _ => None
  end.

Definition has_key (seg : string) (t : UciTree) : bool :=
  match node_key t with
  | Some k => String.eqb k seg
  | None => false
  end.

Definition has_type (ty : string) (t : UciTree) : bool :=
  match section_type t with
  | Some k => String.eqb k ty
  | None => false
  end.

Definition select_child (seg : string) (cs : list UciTree) : option UciTree :=
  match parse_indexed seg with
  | Some (ty, n) => List.filter (has_type ty) cs !! n
  | None => List.find (has_key seg) cs
  end.

Fixpoint descend (segs : list string) (t : UciTree) : option UciTree :=
  match segs with
  | [] => Some t
  | seg :: rest =>
      match select_child seg (children t) with
      | Some c => descend rest c
      | None => None
      end
  end.

(** Modelled from the spec: [find_child(path)] of a fetched document, for
    the paths under ["uci"].  Dotted segments name the nested nodes, a
    segment ["@type[n]"] addresses the [n]-th section of that type; a
    missing path gives [None] and never raises. *)
Definition find_child (doc : UciTree) (path : string) : option UciTree :=
  match Str.split "." path with
  | first :: rest => if has_key first doc then descend rest doc else None
  | [] => None
  end.

(** ** The backend ([foris.nuci.client]) *)

Record Channel : Type := mkChannel {
  ch_number : Z;
  ch_frequency : Z;
  ch_disabled : bool
}.

Record Card : Type := mkCard { card_channels : list Channel }.

Record PkgItem : Type := mkPkg {
  pkg_name : string;
  pkg_title : string;
  pkg_description : string
}.

(** The side-effecting calls a callback can make. *)
Inductive Event : Type :=
  | EvSetPassword (user : string) (password : PyVal)
  | EvSetTime (value : PyVal)
  | EvCheckUpdates
  | EvLoadConfigBackup (content : string)
  | EvEditConfig (patch : option UciTree).

(** Modelled from the spec: what the external store answers and what has
    been asked of it.  [w_uci] is the configuration tree, [w_stats] the
    wireless cards of the ["stats"] element and [w_updater] the package
    lists of the ["updater"] element (absent when the element is),
    [w_restore] the answer of [load_config_backup], [w_seed] the entropy
    consumed by salt generation. *)
Record World : Type := mkWorld {
  w_uci : UciTree;
  w_stats : option (list Card);
  w_updater : option (list PkgItem);
  w_restore : string -> PyVal;
  w_seed : nat;
  w_events : list Event
}.

Definition emit (e : Event) (w : World) : World :=
  mkWorld (w_uci w) (w_stats w) (w_updater w) (w_restore w) (w_seed w)
          (w_events w ++ [e]).

Definition next_seed (w : World) : World :=
  mkWorld (w_uci w) (w_stats w) (w_updater w) (w_restore w) (S (w_seed w))
          (w_events w).

Definition is_config_in (names : list string) (t : UciTree) : bool :=
  match kind t with
  | KConfig n => bool_decide (n ∈ names)
  | _ => false
  end.

(** Modelled from the spec: [client.get(filter=create_config_filter(names))]
    fetches the tree narrowed to the named configs; without a filter the
    whole tree is fetched. *)
Definition client_get (filter : option (list string)) (w : World) : UciTree :=
  match filter with
  | None => w_uci w
  | Some names =>
      UNode (kind (w_uci w)) (operation (w_uci w))
            (List.filter (is_config_in names) (children (w_uci w)))
  end.

Definition create_config_filter (names : list string) : option (list string) :=
  Some names.

(** [filters.foris_config] *)
Definition foris_config : option (list string) := create_config_filter ["foris"].

(** ** Callback results *)

Inductive Payload : Type :=
  | PNone
  | PDict (items : list (string * PyVal))
  | PPatch (h : Heap) (root : nat).

(** The patch a payload denotes, read off the object graph. *)
Definition patch_view (p : Payload) : option UciTree :=
  match p with
  | PPatch h root => reify (S (length h)) h root
  | _ => None
  end.

Definition CbResult : Type := string * Payload.

(** The state a callback runs in: its objects and the backend. *)
Record CbState : Type := mkCbState {
  cs_heap : Heap;
  cs_world : World
}.

Definition on_heap (f : Heap -> Heap) (s : CbState) : CbState :=
  mkCbState (f (cs_heap s)) (cs_world s).

Definition on_world (f : World -> World) (s : CbState) : CbState :=
  mkCbState (cs_heap s) (f (cs_world s)).

Definition new (k : NodeKind) : M CbState nat :=
  fun s => let '(i, h) := alloc k (cs_heap s) in (Ok i, mkCbState h (cs_world s)).

(** The constructors of [uci_raw]. *)
Definition new_Uci : M CbState nat := new KUci.
Definition new_Config (name : string) : M CbState nat := new (KConfig name).
Definition new_Section (name : PyVal) (type_ : string) (anonymous : bool) : M CbState nat :=
  new (KSection name type_ anonymous).
Definition new_Option (name : string) (value : PyVal) : M CbState nat :=
  new (KOption name value).
Definition new_List (name : string) : M CbState nat := new (KList name).
Definition new_Value (index : Z) (content : string) : M CbState nat :=
  new (KValue index content).

(** Modelled from the spec: [parent.add(child)] appends the child, which
    the store will set; [add_removal] and [add_replace] first mark it for
    removal, or for replacement of the whole list. *)
Definition add (parent child : nat) : M CbState unit :=
  modify (on_heap (append_child parent child)).

Definition add_removal (parent child : nat) : M CbState unit :=
  modify (on_heap (fun h => append_child parent child (set_operation child OpRemove h))).

Definition add_replace (parent child : nat) : M CbState unit :=
  modify (on_heap (fun h => append_child parent child (set_operation child OpReplace h))).

(** [return "edit_config", uci] *)
Definition return_patch (action : string) (root : nat) : M CbState CbResult :=
  fun s => (Ok (action, PPatch (cs_heap s) root), s).

Definition client_set_password (user : string) (password : PyVal) : M CbState unit :=
  modify (on_world (emit (EvSetPassword user password))).

Definition client_set_time (value : PyVal) : M CbState unit :=
  modify (on_world (emit (EvSetTime value))).

Definition client_check_updates : M CbState unit :=
  modify (on_world (emit EvCheckUpdates)).

Definition client_load_config_backup (content : string) : M CbState PyVal :=
  fun s => (Ok (w_restore (cs_world s) content),
            on_world (emit (EvLoadConfigBackup content)) s).

(** [node.value], [node.name] on the result of a lookup. *)
Definition attr_value {S} (n : option UciTree) : M S PyVal :=
  match n with
  | Some (UNode (KOption _ v) _ _) => ret v
  | _ => raise (AttributeError "value")
  end.

Definition attr_name {S} (n : option UciTree) : M S PyVal :=
  match n with
  | Some (UNode (KConfig s) _ _) => ret (VStr s)
  | Some (UNode (KSection v _ _) _ _) => ret v
  | Some (UNode (KOption s _) _ _) => ret (VStr s)
  | Some (UNode (KList s) _ _) => ret (VStr s)
  | _ => raise (AttributeError "name")
  end.

(** [x in v] *)
Definition py_in {S} (x : string) (v : PyVal) : M S bool :=
  match v with
  | VList l => ret (bool_decide (x ∈ l))
  | VStr s => ret (Str.contains x s)
  | _ => raise (TypeError "argument is not iterable")
  end.

(** [for x in l: body] and a loop that carries a value. *)
Fixpoint for_each {S A} (l : list A) (body : A -> M S unit) : M S unit :=
  match l with
  | [] => ret tt
  | x :: rest => body x >> for_each rest body
  end.

Fixpoint for_fold {S A B} (l : list A) (acc : B) (body : B -> A -> M S B) : M S B :=
  match l with
  | [] => ret acc
  | x :: rest => let! acc' := body acc x in for_fold rest acc' body
  end.

(** [enumerate(l)] *)
Definition enumerate {A} (l : list A) : list (Z * A) :=
  imap (fun i x => (Z.of_nat i, x)) l.

(** [parent.add(Cls(...))], [parent.add_removal(Cls(...))]: the argument
    is constructed first, then attached. *)
Definition add_new (parent : nat) (mk : M CbState nat) : M CbState unit :=
  let! c := mk in add parent c.

Definition add_removal_new (parent : nat) (mk : M CbState nat) : M CbState unit :=
  let! c := mk in add_removal parent c.

(** ** Forms ([foris.fapi], [foris.form], [foris.validators]) *)

(** The widget classes imported from [foris.form], by name. *)
Inductive Widget : Type :=
  | WFile | WPassword | WTextbox | WDropdown | WCheckbox | WHidden
  | WRadio | WNumber | WEmail | WTime | WMultiCheckbox.

(** The validators of [foris.validators] that the forms use, by
    constructor call; what they accept is the parameter [check] below. *)
Inductive Validator : Type :=
  | LenRange (lo hi : Z)
  | ByteLenRange (lo hi : Z)
  | EqualTo (field1 field2 : string)
  | IPv4
  | IPv4Netmask
  | AnyIP
  | IPv6
  | IPv6Prefix
  | MacAddress
  | PositiveInteger
  | InRange (lo hi : Z)
  | RequiredWithOtherFields (fields : list string)
  | RegExp (pattern : string)
  | TimeOfDay.

(** Modelled from the spec: a Field is a named datum bound to one tree
    path, with a default, validators, and visibility preconditions on
    sibling fields.  Labels, hints and the pre-fill transform are left out. *)
Record Field : Type := mkField {
  f_widget : Widget;
  f_name : string;
  f_required : bool;
  f_default : PyVal;
  f_nuci_path : option string;
  f_validators : list Validator;
  f_args : list PyVal;
  f_requires : list (string * PyVal)
}.

(** Modelled from the spec: a Section is a named, ordered group of
    Fields (title and description are left out). *)
Record FormSection : Type := mkSection {
  sec_name : string;
  sec_fields : list Field
}.

(** A save callback as the form holds it: the function and its name. *)
Record Callback : Type := mkCallback {
  cb_name : string;
  cb_run : Data -> M World CbResult
}.

(** Modelled from the spec: a Form has a name, the submitted input (or
    none), the snapshot of the configuration it was built from, an ordered
    list of Sections, an ordered list of callbacks, the validity flag and
    the per-field errors. *)
Record Form : Type := mkForm {
  form_name : string;
  form_data : option Data;
  form_nuci_config : UciTree;
  form_sections : list FormSection;
  form_callbacks : list Callback;
  form_valid : bool;
  form_errors : list (string * string)
}.

(** Modelled from the spec: [fapi.ForisForm(name, data, filter=...)]. *)
Definition ForisForm (name : string) (data : option Data)
    (filter : option (list string)) (w : World) : Form :=
  mkForm name data (client_get filter w) [] [] false [].

(** Modelled from the spec: [form.add_section(name=...)] appends a section
    and returns it (here: its position). *)
Definition add_section (name : string) : M Form nat :=
  fun f => (Ok (length (form_sections f)),
            mkForm (form_name f) (form_data f) (form_nuci_config f)
                   (form_sections f ++ [mkSection name []])
                   (form_callbacks f) (form_valid f) (form_errors f)).

Definition on_section (sec : nat) (g : FormSection -> FormSection) (f : Form) : Form :=
  mkForm (form_name f) (form_data f) (form_nuci_config f)
         (alter g sec (form_sections f))
         (form_callbacks f) (form_valid f) (form_errors f).

(** Keyword arguments of [add_field]. *)
Definition required (fld : Field) : Field :=
  mkField (f_widget fld) (f_name fld) true (f_default fld) (f_nuci_path fld)
          (f_validators fld) (f_args fld) (f_requires fld).
Definition default_ (v : PyVal) (fld : Field) : Field :=
  mkField (f_widget fld) (f_name fld) (f_required fld) v (f_nuci_path fld)
          (f_validators fld) (f_args fld) (f_requires fld).
Definition nuci_path (path : string) (fld : Field) : Field :=
  mkField (f_widget fld) (f_name fld) (f_required fld) (f_default fld) (Some path)
          (f_validators fld) (f_args fld) (f_requires fld).
Definition validators (vs : list Validator) (fld : Field) : Field :=
  mkField (f_widget fld) (f_name fld) (f_required fld) (f_default fld) (f_nuci_path fld)
          vs (f_args fld) (f_requires fld).
Definition args (choices : list PyVal) (fld : Field) : Field :=
  mkField (f_widget fld) (f_name fld) (f_required fld) (f_default fld) (f_nuci_path fld)
          (f_validators fld) choices (f_requires fld).
Definition add_requirement (name : string) (v : PyVal) (fld : Field) : Field :=
  mkField (f_widget fld) (f_name fld) (f_required fld) (f_default fld) (f_nuci_path fld)
          (f_validators fld) (f_args fld) (f_requires fld ++ [(name, v)]).

(** Modelled from the spec: [section.add_field(Widget, name=..., ...)]
    appends the field and returns it (here: section and position). *)
Definition add_field (sec : nat) (w : Widget) (name : string)
    (kwargs : list (Field -> Field)) : M Form (nat * nat) :=
  fun f =>
    let fld := foldl (fun x kw => kw x) (mkField w name false VNone None [] [] []) kwargs in
    let pos := match form_sections f !! sec with
               | Some s => length (sec_fields s)
               | None => 0
               end in
    (Ok (sec, pos),
     on_section sec (fun s => mkSection (sec_name s) (sec_fields s ++ [fld])) f).

(** Modelled from the spec: [field.requires(name, value)] adds a visibility
    precondition to the field and returns the field. *)
Definition requires (name : string) (v : PyVal) (ref : nat * nat) : M Form (nat * nat) :=
  fun f =>
    (Ok ref,
     on_section (fst ref)
       (fun s => mkSection (sec_name s)
                   (alter (add_requirement name v) (snd ref) (sec_fields s))) f).

(** Modelled from the spec: [form.add_callback(cb)] registers a callback
    after those already registered. *)
Definition add_callback (cb : Callback) (f : Form) : Form :=
  mkForm (form_name f) (form_data f) (form_nuci_config f) (form_sections f)
         (form_callbacks f ++ [cb]) (form_valid f) (form_errors f).

(** [add_field(...).requires(name, value)] *)
Definition requiring (m : M Form (nat * nat)) (name : string) (v : PyVal)
  : M Form (nat * nat) :=
  let! ref := m in requires name v ref.

(** The form a builder leaves behind, as [get_form] returns it. *)
Definition build (form : Form) (m : M Form unit) : outcome (option Form) :=
  match m form with
  | (Ok _, f) => Ok (Some f)
  | (Raise e, _) => Raise e
  end.

(** A callback of a handler, run on a fresh object heap. *)
Definition as_callback (name : string) (body : Data -> M CbState CbResult) : Callback :=
  mkCallback name
    (fun data w =>
       let '(r, s) := body data (mkCbState [] w) in (r, cs_world s)).

(** ** The handlers *)

Inductive HandlerClass : Type :=
  | BaseConfigHandler
  | PasswordHandler
  | WanHandler
  | DNSHandler
  | TimeHandler
  | LanHandler
  | WifiHandler
  | SystemPasswordHandler
  | MaintenanceHandler
  | NotificationsHandler
  | UpdaterHandler
  | UcollectHandler.

(** An instance: its class, [self.data], [self.change] (PasswordHandler
    only) and the cached form. *)
Record Handler : Type := mkHandler {
  h_class : HandlerClass;
  h_data : option Data;
  h_change : bool;
  h_form_cache : option Form
}.

(** [Handler(data=None)] and [PasswordHandler(data, change=...)] *)
Definition new_handler (c : HandlerClass) (data : option Data) (change : bool) : Handler :=
  mkHandler c data change None.

Section Handlers.

(** What this module takes from elsewhere.  [node_bool] is the truth
    value Python gives a node object in [if node:] (the node classes
    decide it); [crypt_salted word salt] and [crypt_fresh word iterations
    seed] are [beaker]'s [pbkdf2.crypt] with a given salt and with a
    generated one. *)
Variable node_bool : UciTree -> bool.
Variable crypt_salted : string -> string -> outcome string.
Variable crypt_fresh : string -> Z -> nat -> string.

(** [if x:] for the result of [find_child]. *)
Definition truth (n : option UciTree) : bool :=
  match n with
  | None => false
  | Some t => node_bool t
  end.

(** [pbkdf2.crypt(word, salt=None, iterations=None)] *)
Definition pbkdf2_crypt (word salt : PyVal) (iterations : option Z) : M CbState string :=
  match salt with
  | VNone =>
      match word with
      | VStr w =>
          fun s => (Ok (crypt_fresh w (default 400%Z iterations) (w_seed (cs_world s))),
                    on_world next_seed s)
      | _ => raise (TypeError "word must be a string or unicode")
      end
  | VStr sl =>
      match word with
      | VStr w => lift_outcome (crypt_salted w sl)
      | _ => raise (TypeError "word must be a string or unicode")
      end
  | _ => raise (TypeError "salt must be a string")
  end.

(** *** PasswordHandler *)

Definition pw_form_cb (change : bool) (data : Data) : M CbState CbResult :=
  let! wrong_old_password :=
    if change then
      (* if changing password, check the old pw is right first *)
      let! uci_data := gets (fun s => client_get foris_config (cs_world s)) in
      let password_hash := find_child uci_data "uci.foris.auth.password" in
      (* allow changing the password if password_hash is empty *)
      if truth password_hash then
        let! password_hash := attr_value password_hash in
        let! old_password := getitem data "old_password" in
        let! crypted := pbkdf2_crypt old_password password_hash None in
        ret (negb (py_eq_str password_hash crypted))
      else ret false
    else ret false in
  if wrong_old_password
  then ret ("save_result", PDict [("wrong_old_password", VBool true)])
  else
    let! uci := new_Uci in
    let! foris := new_Config "foris" in
    add uci foris >>
    let! auth := new_Section (VStr "auth") "config" false in
    add foris auth >>
    let! password := getitem data "password" in
    let! new_password_hash := pbkdf2_crypt password VNone (Some 1000%Z) in
    add_new auth (new_Option "password" (VStr new_password_hash)) >>
    let! set_system_pw := getitem data "set_system_pw" in
    when (py_is_True set_system_pw)
         (let! password := getitem data "password" in
          client_set_password "root" password) >>
    return_patch "edit_config" uci.

(** *** WanHandler *)

Definition WAN_DHCP : string := "dhcp".
Definition WAN_STATIC : string := "static".
Definition WAN_PPPOE : string := "pppoe".

Definition wan_form_cb (has_smrtd : bool) (nuci_config : UciTree) (data : Data)
  : M CbState CbResult :=
  let! uci := new_Uci in
  let! network := new_Config "network" in
  add uci network >>
  let! wan := new_Section (VStr "wan") "interface" false in
  add network wan >>
  let! proto := getitem data "proto" in
  add_new wan (new_Option "proto" proto) >>
  let! custom_mac := getitem data "custom_mac" in
  (if py_is_True custom_mac
   then let! macaddr := getitem data "macaddr" in
        add_new wan (new_Option "macaddr" macaddr)
   else add_removal_new wan (new_Option "macaddr" VNone)) >>
  let! proto := getitem data "proto" in
  let! ucollect_ifname :=
    if py_eq_str proto WAN_PPPOE then
      let! username := getitem data "username" in
      add_new wan (new_Option "username" username) >>
      let! password := getitem data "password" in
      add_new wan (new_Option "password" password) >>
      let! ppp_ipv6 := getitem data "ppp_ipv6" in
      add_new wan (new_Option "ipv6" ppp_ipv6) >>
      ret "pppoe-wan"
    else
      let! proto := getitem data "proto" in
      (if py_eq_str proto WAN_STATIC then
         let! ipaddr := getitem data "ipaddr" in
         add_new wan (new_Option "ipaddr" ipaddr) >>
         let! netmask := getitem data "netmask" in
         add_new wan (new_Option "netmask" netmask) >>
         let! gateway := getitem data "gateway" in
         add_new wan (new_Option "gateway" gateway) >>
         let! joined := join_vals " " [dict_get data "dns1" (VStr "");
                                       dict_get data "dns2" (VStr "")] in
         let dns_string := Str.strip joined in
         add_new wan (new_Option "dns" (VStr dns_string)) >>
         if py_is_True (dict_get data "static_ipv6" VNone) then
           let! ip6addr := getitem data "ip6addr" in
           add_new wan (new_Option "ip6addr" ip6addr) >>
           let! ip6gw := getitem data "ip6gw" in
           add_new wan (new_Option "ip6gw" ip6gw) >>
           let! ip6prefix := getitem data "ip6prefix" in
           add_new wan (new_Option "ip6prefix" ip6prefix)
         else
           add_removal_new wan (new_Option "ip6addr" VNone) >>
           add_removal_new wan (new_Option "ip6gw" VNone) >>
           add_removal_new wan (new_Option "ip6prefix" VNone)
       else ret tt) >>
      ret "eth2" in
  when has_smrtd
    (let! smrtd := new_Config "smrtd" in
     add uci smrtd >>
     let smrt_vlan := dict_get data "smrt_vlan" VNone in
     let use_smrt := dict_get data "use_smrt" (VBool false) in
     let wan_ifname := "eth2" in
     let! eth2 := new_Section (VStr "eth2") "interface" false in
     add smrtd eth2 >>
     add_new eth2 (new_Option "name" (VStr "eth2")) >>
     (* "proprietary" number - and also a common VLAN ID in CZ *)
     let smrt_vlan :=
       if py_bool use_smrt && negb (py_bool smrt_vlan) then VStr "848" else smrt_vlan in
     let wan_ifname :=
       if py_bool use_smrt then wan_ifname +:+ "." +:+ py_str smrt_vlan else wan_ifname in
     let vpi := dict_get data "smrt_vpi" VNone in
     let vci := dict_get data "smrt_vci" VNone in
     let! connections := new_List "connections" in
     (if py_bool vpi && py_bool vci then
        add eth2 connections >>
        add_new connections
          (new_Value 1 (py_str smrt_vlan +:+ " " +:+ py_str vpi +:+ " " +:+ py_str vci))
      else if py_bool use_smrt then add_removal eth2 connections
      else ret tt) >>
     let! smrtd_global := new_Section (VStr "global") "global" false in
     add smrtd smrtd_global >>
     add_new smrtd_global (new_Option "enabled" use_smrt) >>
     (* set correct ifname for WAN - must be changed when disabling SMRT *)
     add_new wan (new_Option "ifname" (VStr wan_ifname))) >>
  (* set interface for ucollect to listen on *)
  let ucollect_interface0 := find_child nuci_config "uci.ucollect.@interface[0]" in
  let! interface_if_name :=
    if truth ucollect_interface0 then attr_name ucollect_interface0 else ret VNone in
  let! ucollect := new_Config "ucollect" in
  add uci ucollect >>
  let! interface := new_Section interface_if_name "interface" true in
  add ucollect interface >>
  add_new interface (new_Option "ifname" (VStr ucollect_ifname)) >>
  return_patch "edit_config" uci.

(** *** DNSHandler *)

Definition dns_form_cb (data : Data) : M CbState CbResult :=
  let! uci := new_Uci in
  let! unbound := new_Config "unbound" in
  add uci unbound >>
  let! server := new_Section (VStr "server") "unbound" false in
  add unbound server >>
  let! forward_upstream := getitem data "forward_upstream" in
  add_new server (new_Option "forward_upstream" forward_upstream) >>
  return_patch "edit_config" uci.

(** *** TimeHandler *)

Definition time_form_cb (data : Data) : M CbState CbResult :=
  let! time := getitem data "time" in
  client_set_time time >>
  ret ("none", PNone).

(** *** LanHandler *)

Definition lan_form_cb (data : Data) : M CbState CbResult :=
  let! uci := new_Uci in
  let! config := new_Config "dhcp" in
  add uci config >>
  let! dhcp := new_Section (VStr "lan") "dhcp" false in
  add config dhcp >>
  let! options := new_List "dhcp_option" in
  let! lan_ipaddr := getitem data "lan_ipaddr" in
  let! content := str_add "6," lan_ipaddr in
  add_new options (new_Value 0 content) >>
  add_replace dhcp options >>
  let! network := new_Config "network" in
  add uci network >>
  let! interface := new_Section (VStr "lan") "interface" false in
  add network interface >>
  let! lan_ipaddr := getitem data "lan_ipaddr" in
  add_new interface (new_Option "ipaddr" lan_ipaddr) >>
  let! dhcp_enabled := getitem data "dhcp_enabled" in
  (if py_bool dhcp_enabled then
     add_new dhcp (new_Option "ignore" (VStr "0")) >>
     let! dhcp_min := getitem data "dhcp_min" in
     add_new dhcp (new_Option "start" dhcp_min) >>
     let! dhcp_max := getitem data "dhcp_max" in
     add_new dhcp (new_Option "limit" dhcp_max)
   else
     add_new dhcp (new_Option "ignore" (VStr "1"))) >>
  return_patch "edit_config" uci.

(** *** WifiHandler *)

Definition wifi_form_cb (data : Data) : M CbState CbResult :=
  let! uci := new_Uci in
  let! wireless := new_Config "wireless" in
  add uci wireless >>
  let! iface_section := getitem data "iface_section" in
  let! iface := new_Section iface_section "wifi-iface" false in
  add wireless iface >>
  let! device := new_Section (VStr "radio0") "wifi-device" false in
  add wireless device >>
  (* we must toggle both wifi-iface and device *)
  let! wifi_enabled := getitem data "wifi_enabled" in
  add_new iface (new_Option "disabled" (VBool (negb (py_bool wifi_enabled)))) >>
  let! wifi_enabled := getitem data "wifi_enabled" in
  add_new device (new_Option "disabled" (VBool (negb (py_bool wifi_enabled)))) >>
  let! wifi_enabled := getitem data "wifi_enabled" in
  (if py_bool wifi_enabled then
     let! ssid := getitem data "ssid" in
     add_new iface (new_Option "ssid" ssid) >>
     let! ssid_hidden := getitem data "ssid_hidden" in
     add_new iface (new_Option "hidden" ssid_hidden) >>
     add_new iface (new_Option "encryption" (VStr "psk2+tkip+aes")) >>
     let! key := getitem data "key" in
     add_new iface (new_Option "key" key) >>
     let! channel :=
       if py_bool (dict_get data "channel2g4" VNone) then getitem data "channel2g4"
       else if py_bool (dict_get data "channel5g" VNone) then getitem data "channel5g"
       else ret (VStr "auto") in
     let hwmode := dict_get data "hwmode" VNone in
     (* change hwmode only if we had the choice *)
     when (py_bool hwmode) (add_new device (new_Option "hwmode" hwmode)) >>
     let! htmode := getitem data "htmode" in
     add_new device (new_Option "htmode" htmode) >>
     (* channel is in wifi-device section *)
     add_new device (new_Option "channel" channel)
   else ret tt (* wifi disabled *)) >>
  return_patch "edit_config" uci.

(** *** SystemPasswordHandler *)

Definition system_pw_form_cb (data : Data) : M CbState CbResult :=
  let! password := getitem data "password" in
  client_set_password "root" password >>
  ret ("none", PNone).

(** *** MaintenanceHandler *)

(** [upload.file] *)
Definition attr_file {S} (v : PyVal) : M S string :=
  match v with
  | VFile content => ret content
  | _ => raise (AttributeError "file")
  end.

Definition maintenance_form_cb (data : Data) : M CbState CbResult :=
  let! backup_file := getitem data "backup_file" in
  let! fileobj := attr_file backup_file in
  let! result := client_load_config_backup fileobj in
  ret ("save_result", PDict [("new_ip", result)]).

(** *** NotificationsHandler *)

(** [v.split(" ")] *)
Definition py_split_space {S} (v : PyVal) : M S (list string) :=
  match v with
  | VStr s => ret (Str.split " " s)
  | _ => raise (AttributeError "split")
  end.

Definition notifications_form_cb (data : Data) : M CbState CbResult :=
  let! uci := new_Uci in
  let! user_notify := new_Config "user_notify" in
  add uci user_notify >>
  let! smtp := new_Section (VStr "smtp") "smtp" false in
  add user_notify smtp >>
  let! enable_smtp := getitem data "enable_smtp" in
  add_new smtp (new_Option "enable" enable_smtp) >>
  let! reboot := new_Section (VStr "reboot") "reboot" false in
  add user_notify reboot >>
  let! reboot_time := getitem data "reboot_time" in
  add_new reboot (new_Option "time" reboot_time) >>
  let! delay := getitem data "delay" in
  add_new reboot (new_Option "delay" delay) >>
  let! enable_smtp := getitem data "enable_smtp" in
  (if py_bool enable_smtp then
     let! use_turris_smtp := getitem data "use_turris_smtp" in
     add_new smtp (new_Option "use_turris_smtp" use_turris_smtp) >>
     let! use_turris_smtp := getitem data "use_turris_smtp" in
     (if py_eq_str use_turris_smtp "0" then
        let! server := getitem data "server" in
        add_new smtp (new_Option "server" server) >>
        let! port := getitem data "port" in
        add_new smtp (new_Option "port" port) >>
        let! username := getitem data "username" in
        add_new smtp (new_Option "username" username) >>
        let! password := getitem data "password" in
        add_new smtp (new_Option "password" password) >>
        let! security := getitem data "security" in
        add_new smtp (new_Option "security" security) >>
        let! from := getitem data "from" in
        add_new smtp (new_Option "from" from)
      else
        let! sender_name := getitem data "sender_name" in
        add_new smtp (new_Option "sender_name" sender_name)) >>
     let! to := new_List "to" in
     let! recipients := getitem data "to" in
     let! items := py_split_space recipients in
     for_each (enumerate items)
       (fun '(i, to_item) =>
          when (negb (String.eqb to_item "")) (add_new to (new_Value i to_item))) >>
     add_replace smtp to >>
     (* notifications section *)
     let! notifications := new_Section (VStr "notifications") "notifications" false in
     add user_notify notifications >>
     let! severity := getitem data "severity" in
     add_new notifications (new_Option "severity" severity) >>
     let! news := getitem data "news" in
     add_new notifications (new_Option "news" news)
   else ret tt) >>
  return_patch "edit_config" uci.

(** *** UpdaterHandler *)

(** [data.iteritems()]: the items of the dictionary.  Python leaves the
    order of a dictionary unspecified; the model takes the order of
    [map_to_list]. *)
Definition iteritems (data : Data) : list (string * PyVal) := map_to_list data.

Definition package_lists_form_cb (data : Data) : M CbState CbResult :=
  let! uci := new_Uci in
  let! updater := new_Config "updater" in
  add uci updater >>
  let! pkglists := new_Section (VStr "pkglists") "pkglists" false in
  add updater pkglists >>
  let! lists := new_List "lists" in
  (* create List with selected packages *)
  let! i :=
    for_fold (iteritems data) 0%Z
      (fun i '(k, v) =>
         if py_bool v && Str.startswith "install_" k then
           add_new lists (new_Value i (Str.drop 8 k)) >>
           ret (i + 1)%Z
         else ret i) in
  (if (i =? 0)%Z
   then add_removal pkglists lists
   else add_replace pkglists lists) >>
  return_patch "edit_config" uci.

Definition package_lists_run_updater_cb (data : Data) : M CbState CbResult :=
  client_check_updates >>
  ret ("none", PNone).

(** *** UcollectHandler *)

Definition SERVICES_OPTIONS : list string := ["23tcp"].

(** [[x for x in l if x not in v]] *)
Fixpoint not_in_filter {S} (l : list string) (v : PyVal) : M S (list string) :=
  match l with
  | [] => ret []
  | x :: rest =>
      let! b := py_in x v in
      let! tail := not_in_filter rest v in
      ret (if b then tail else x :: tail)
  end.

Definition ucollect_form_cb (nuci_config : UciTree) (data : Data) : M CbState CbResult :=
  let! uci := new_Uci in
  let! ucollect := new_Config "ucollect" in
  add uci ucollect >>
  let! fakes := new_Section (VStr "fakes") "fakes" false in
  add ucollect fakes >>
  let! disable := new_List "disable" in
  let! services := getitem data "services" in
  let! disabled_services := not_in_filter SERVICES_OPTIONS services in
  for_each (enumerate disabled_services)
    (fun '(i, service) => add_new disable (new_Value i service)) >>
  (if negb (Nat.eqb (length disabled_services) 0) then
     add_replace fakes disable
   else
     (* workaround for Nuci bug #3984 *)
     let fakes_section := find_child nuci_config "uci.ucollect.fakes" in
     when (truth fakes_section) (add_removal fakes disable)) >>
  let! log_credentials := getitem data "log_credentials" in
  add_new fakes (new_Option "log_credentials" log_credentials) >>
  return_patch "edit_config" uci.

(** ** Building the forms *)

Definition password_get_form (change : bool) (data : option Data) (w : World)
  : outcome (option Form) :=
  let pw_form := ForisForm "password" data None w in
  build pw_form
    (let! pw_main := add_section "set_password" in
     (if change
      then add_field pw_main WPassword "old_password" [] >> ret tt
      else ret tt) >>
     add_field pw_main WPassword "password"
       [required; validators [LenRange 6 128]] >>
     add_field pw_main WPassword "password_validation"
       [required; validators [EqualTo "password" "password_validation"]] >>
     add_field pw_main WCheckbox "set_system_pw" [] >>
     modify (add_callback (as_callback "pw_form_cb" (pw_form_cb change)))).

Definition wan_get_form (data : option Data) (w : World) : outcome (option Form) :=
  let wan_form :=
    ForisForm "wan" data (create_config_filter ["network"; "smrtd"; "ucollect"]) w in
  (* enable SMRT settings only if smrtd config is present *)
  let has_smrtd := bool_decide (is_Some (find_child (form_nuci_config wan_form) "uci.smrtd")) in
  build wan_form
    (let! wan_main := add_section "set_wan" in
     (* protocol *)
     add_field wan_main WDropdown "proto"
       [nuci_path "uci.network.wan.proto";
        args [VStr WAN_DHCP; VStr WAN_STATIC; VStr WAN_PPPOE]; default_ (VStr WAN_DHCP)] >>
     (* static ipv4 *)
     requiring (add_field wan_main WTextbox "ipaddr"
       [nuci_path "uci.network.wan.ipaddr"; required; validators [IPv4]])
       "proto" (VStr WAN_STATIC) >>
     requiring (add_field wan_main WTextbox "netmask"
       [nuci_path "uci.network.wan.netmask"; required; validators [IPv4Netmask]])
       "proto" (VStr WAN_STATIC) >>
     requiring (add_field wan_main WTextbox "gateway"
       [nuci_path "uci.network.wan.gateway"; validators [IPv4]; required])
       "proto" (VStr WAN_STATIC) >>
     (* DNS servers *)
     requiring (add_field wan_main WTextbox "dns1"
       [nuci_path "uci.network.wan.dns"; validators [AnyIP]])
       "proto" (VStr WAN_STATIC) >>
     requiring (add_field wan_main WTextbox "dns2"
       [nuci_path "uci.network.wan.dns"; validators [AnyIP]])
       "proto" (VStr WAN_STATIC) >>
     (* static ipv6 *)
     requiring (add_field wan_main WCheckbox "static_ipv6"
       [nuci_path "uci.network.wan.ip6addr"])
       "proto" (VStr WAN_STATIC) >>
     requiring (requiring (add_field wan_main WTextbox "ip6addr"
       [nuci_path "uci.network.wan.ip6addr"; validators [IPv6Prefix]; required])
       "proto" (VStr WAN_STATIC)) "static_ipv6" (VBool true) >>
     requiring (requiring (add_field wan_main WTextbox "ip6gw"
       [validators [IPv6]; nuci_path "uci.network.wan.ip6gw"])
       "proto" (VStr WAN_STATIC)) "static_ipv6" (VBool true) >>
     requiring (requiring (add_field wan_main WTextbox "ip6prefix"
       [validators [IPv6Prefix]; nuci_path "uci.network.wan.ip6prefix"])
       "proto" (VStr WAN_STATIC)) "static_ipv6" (VBool true) >>
     (* xDSL settings *)
     requiring (add_field wan_main WTextbox "username"
       [nuci_path "uci.network.wan.username"]) "proto" (VStr WAN_PPPOE) >>
     requiring (add_field wan_main WTextbox "password"
       [nuci_path "uci.network.wan.password"]) "proto" (VStr WAN_PPPOE) >>
     requiring (add_field wan_main WCheckbox "ppp_ipv6"
       [nuci_path "uci.network.wan.ipv6"]) "proto" (VStr WAN_PPPOE) >>
     (if has_smrtd then
        add_field wan_main WHidden "has_smrtd" [default_ (VStr "1")] >>
        requiring (add_field wan_main WCheckbox "use_smrt"
          [nuci_path "uci.smrtd.global.enabled"]) "proto" (VStr WAN_PPPOE) >>
        (* 802.1Q VLAN number is 12-bit, 0x0 and 0xFFF reserved *)
        requiring (add_field wan_main WTextbox "smrt_vlan"
          [validators [PositiveInteger; InRange 1 4095]]) "use_smrt" (VBool true) >>
        let vpi_vci_validator := RequiredWithOtherFields ["smrt_vpi"; "smrt_vci"] in
        requiring (add_field wan_main WTextbox "smrt_vpi"
          [nuci_path "uci.smrtd.eth2.connections";
           validators [PositiveInteger; InRange 0 255; vpi_vci_validator]])
          "use_smrt" (VBool true) >>
        requiring (add_field wan_main WTextbox "smrt_vci"
          [nuci_path "uci.smrtd.eth2.connections";
           validators [PositiveInteger; InRange 32 65535; vpi_vci_validator]])
          "use_smrt" (VBool true) >>
        ret tt
      else ret tt) >>
     (* custom MAC *)
     add_field wan_main WCheckbox "custom_mac" [nuci_path "uci.network.wan.macaddr"] >>
     requiring (add_field wan_main WTextbox "macaddr"
       [nuci_path "uci.network.wan.macaddr"; validators [MacAddress]; required])
       "custom_mac" (VBool true) >>
     modify (add_callback
               (as_callback "wan_form_cb"
                  (wan_form_cb has_smrtd (form_nuci_config wan_form))))).

Definition dns_get_form (data : option Data) (w : World) : outcome (option Form) :=
  let dns_form := ForisForm "dns" data (create_config_filter ["unbound"]) w in
  build dns_form
    (let! dns_main := add_section "set_dns" in
     add_field dns_main WCheckbox "forward_upstream"
       [nuci_path "uci.unbound.server.forward_upstream"; default_ (VBool true)] >>
     modify (add_callback (as_callback "dns_form_cb" dns_form_cb))).

(** [filters.time] fetches the time element, no configuration. *)
Definition filters_time : option (list string) := Some [].

Definition time_get_form (data : option Data) (w : World) : outcome (option Form) :=
  let time_form := ForisForm "time" data filters_time w in
  build time_form
    (let! time_main := add_section "set_time" in
     add_field time_main WTextbox "time" [nuci_path "time"] >>
     modify (add_callback (as_callback "time_form_cb" time_form_cb))).

Definition lan_get_form (data : option Data) (w : World) : outcome (option Form) :=
  let lan_form := ForisForm "lan" data (create_config_filter ["dhcp"; "network"]) w in
  build lan_form
    (let! lan_main := add_section "set_lan" in
     add_field lan_main WTextbox "lan_ipaddr"
       [nuci_path "uci.network.lan.ipaddr"; validators [IPv4]] >>
     add_field lan_main WCheckbox "dhcp_enabled"
       [nuci_path "uci.dhcp.lan.ignore"; default_ (VBool true)] >>
     requiring (add_field lan_main WTextbox "dhcp_min"
       [nuci_path "uci.dhcp.lan.start"]) "dhcp_enabled" (VBool true) >>
     requiring (add_field lan_main WTextbox "dhcp_max"
       [nuci_path "uci.dhcp.lan.limit"]) "dhcp_enabled" (VBool true) >>
     modify (add_callback (as_callback "lan_form_cb" lan_form_cb))).

(** The channel lists of the first card: the enabled channels below
    2500 MHz follow ["auto"], the others are the 5 GHz ones. *)
Fixpoint split_channels (channels : list Channel) (channels_2g4 channels_5g : list PyVal)
  : list PyVal * list PyVal :=
  match channels with
  | [] => (channels_2g4, channels_5g)
  | channel :: rest =>
      if ch_disabled channel then split_channels rest channels_2g4 channels_5g
      else if (ch_frequency channel <? 2500)%Z
      then split_channels rest (channels_2g4 ++ [VStr (pretty (ch_number channel))]) channels_5g
      else split_channels rest channels_2g4 (channels_5g ++ [VStr (pretty (ch_number channel))])
  end.

Definition wifi_get_form (data : option Data) (w : World) : outcome (option Form) :=
  match w_stats w with
  | None => Raise (AttributeError "data")
  | Some wireless_cards =>
      if (length wireless_cards <? 1)%nat then Ok None
      else
        let wifi_form := ForisForm "wifi" data (create_config_filter ["wireless"]) w in
        let '(channels_2g4, channels_5g) :=
          split_channels
            (match wireless_cards with
             | card :: _ => card_channels card
             | [] => []
             end) [VStr "auto"] [] in
        (* hwmode choice for dual band devices *)
        let is_dual_band :=
          (1 <? length channels_2g4)%nat && (1 <? length channels_5g)%nat in
        build wifi_form
          (let! wifi_main := add_section "set_wifi" in
           add_field wifi_main WHidden "iface_section"
             [nuci_path "uci.wireless.@wifi-iface[0]"] >>
           add_field wifi_main WCheckbox "wifi_enabled"
             [default_ (VBool true); nuci_path "uci.wireless.@wifi-iface[0].disabled"] >>
           requiring (add_field wifi_main WTextbox "ssid"
             [nuci_path "uci.wireless.@wifi-iface[0].ssid"; required;
              validators [ByteLenRange 1 32]]) "wifi_enabled" (VBool true) >>
           requiring (add_field wifi_main WCheckbox "ssid_hidden"
             [default_ (VBool false); nuci_path "uci.wireless.@wifi-iface[0].hidden"])
             "wifi_enabled" (VBool true) >>
           (if is_dual_band then
              requiring (add_field wifi_main WRadio "hwmode"
                [default_ (VStr "11ng"); args [VStr "11g"; VStr "11a"];
                 nuci_path "uci.wireless.radio0.hwmode"]) "wifi_enabled" (VBool true) >>
              ret tt
            else ret tt) >>
           requiring (add_field wifi_main WDropdown "htmode"
             [args [VStr "NOHT"; VStr "HT20"; VStr "HT40"];
              nuci_path "uci.wireless.radio0.htmode"]) "wifi_enabled" (VBool true) >>
           (* 2.4 GHz channels *)
           (if (1 <? length channels_2g4)%nat then
              let! field_2g4 :=
                add_field wifi_main WDropdown "channel2g4"
                  [default_ (List.hd VNone channels_2g4); args channels_2g4;
                   nuci_path "uci.wireless.radio0.channel"] in
              if is_dual_band
              then requires "hwmode" (VStr "11g") field_2g4 >> ret tt
              else ret tt
            else ret tt) >>
           (* 5 GHz channels *)
           (if (1 <? length channels_5g)%nat then
              let! field_5g :=
                add_field wifi_main WDropdown "channel5g"
                  [default_ (List.hd VNone channels_5g); args channels_5g;
                   nuci_path "uci.wireless.radio0.channel"] in
              if is_dual_band
              then requires "hwmode" (VStr "11a") field_5g >> ret tt
              else ret tt
            else ret tt) >>
           requiring (add_field wifi_main WPassword "key"
             [nuci_path "uci.wireless.@wifi-iface[0].key"; required;
              validators [ByteLenRange 8 63]]) "wifi_enabled" (VBool true) >>
           modify (add_callback (as_callback "wifi_form_cb" wifi_form_cb)))
  end.

Definition system_password_get_form (data : option Data) (w : World)
  : outcome (option Form) :=
  let system_pw_form := ForisForm "system_password" data None w in
  build system_pw_form
    (let! system_pw_main := add_section "set_password" in
     add_field system_pw_main WPassword "password"
       [required; validators [LenRange 6 128]] >>
     add_field system_pw_main WPassword "password_validation"
       [required; validators [EqualTo "password" "password_validation"]] >>
     modify (add_callback (as_callback "system_pw_form_cb" system_pw_form_cb))).

Definition maintenance_get_form (data : option Data) (w : World) : outcome (option Form) :=
  let maintenance_form := ForisForm "maintenance" data None w in
  build maintenance_form
    (let! maintenance_main := add_section "restore_backup" in
     add_field maintenance_main WFile "backup_file" [required] >>
     modify (add_callback (as_callback "maintenance_form_cb" maintenance_form_cb))).

Definition notifications_get_form (data : option Data) (w : World)
  : outcome (option Form) :=
  let notifications_form :=
    ForisForm "notifications" data (create_config_filter ["user_notify"]) w in
  build notifications_form
    (let! notifications := add_section "notifications" in
     (* notifications settings *)
     add_field notifications WCheckbox "enable_smtp"
       [nuci_path "uci.user_notify.smtp.enable"; default_ (VBool false)] >>
     requiring (add_field notifications WRadio "use_turris_smtp"
       [default_ (VStr "0"); args [VStr "1"; VStr "0"];
        nuci_path "uci.user_notify.smtp.use_turris_smtp"]) "enable_smtp" (VBool true) >>
     requiring (add_field notifications WTextbox "to"
       [nuci_path "uci.user_notify.smtp.to"; required]) "enable_smtp" (VBool true) >>
     (* sender's name for CZ.NIC SMTP only *)
     requiring (requiring (add_field notifications WTextbox "sender_name"
       [nuci_path "uci.user_notify.smtp.sender_name";
        validators [RegExp "^[0-9a-zA-Z_\.-]+$"]; required])
       "enable_smtp" (VBool true)) "use_turris_smtp" (VStr "1") >>
     requiring (add_field notifications WDropdown "severity"
       [nuci_path "uci.user_notify.notifications.severity";
        args [VInt 1; VInt 2; VInt 3]; default_ (VInt 1)]) "enable_smtp" (VBool true) >>
     requiring (add_field notifications WCheckbox "news"
       [nuci_path "uci.user_notify.notifications.news"; default_ (VBool false)])
       "enable_smtp" (VBool true) >>
     (* SMTP settings (custom server) *)
     let! smtp := add_section "smtp" in
     requiring (requiring (add_field smtp WEmail "from"
       [nuci_path "uci.user_notify.smtp.from"; required])
       "enable_smtp" (VBool true)) "use_turris_smtp" (VStr "0") >>
     requiring (requiring (add_field smtp WTextbox "server"
       [nuci_path "uci.user_notify.smtp.server"; required])
       "enable_smtp" (VBool true)) "use_turris_smtp" (VStr "0") >>
     requiring (requiring (add_field smtp WNumber "port"
       [nuci_path "uci.user_notify.smtp.port"; validators [PositiveInteger]; required])
       "enable_smtp" (VBool true)) "use_turris_smtp" (VStr "0") >>
     requiring (requiring (add_field smtp WDropdown "security"
       [nuci_path "uci.user_notify.smtp.security";
        args [VStr "none"; VStr "ssl"; VStr "starttls"]; default_ (VStr "none")])
       "enable_smtp" (VBool true)) "use_turris_smtp" (VStr "0") >>
     requiring (requiring (add_field smtp WTextbox "username"
       [nuci_path "uci.user_notify.smtp.username"])
       "enable_smtp" (VBool true)) "use_turris_smtp" (VStr "0") >>
     requiring (requiring (add_field smtp WPassword "password"
       [nuci_path "uci.user_notify.smtp.password"])
       "enable_smtp" (VBool true)) "use_turris_smtp" (VStr "0") >>
     (* reboot time *)
     let! reboot := add_section "reboot" in
     add_field reboot WNumber "delay"
       [nuci_path "uci.user_notify.reboot.delay";
        validators [PositiveInteger; InRange 0 10]; required] >>
     add_field reboot WTime "reboot_time"
       [nuci_path "uci.user_notify.reboot.time"; validators [TimeOfDay]; required] >>
     modify (add_callback (as_callback "notifications_form_cb" notifications_form_cb))).

Definition updater_get_form (data : option Data) (w : World) : outcome (option Form) :=
  match w_updater w with
  | None => Raise (AttributeError "pkg_list")
  | Some pkg_list =>
      let package_lists_form :=
        ForisForm "package_lists" data (create_config_filter ["updater"]) w in
      build package_lists_form
        (let! package_lists_main := add_section "select_package_lists" in
         for_each pkg_list
           (fun pkg_list_item =>
              add_field package_lists_main WCheckbox ("install_" +:+ pkg_name pkg_list_item)
                [nuci_path "uci.updater.pkglists.lists"] >> ret tt) >>
         modify (add_callback
                   (as_callback "package_lists_form_cb" package_lists_form_cb)) >>
         modify (add_callback
                   (as_callback "package_lists_run_updater_cb" package_lists_run_updater_cb)))
  end.

Definition ucollect_get_form (data : option Data) (w : World) : outcome (option Form) :=
  let ucollect_form := ForisForm "ucollect" data (create_config_filter ["ucollect"]) w in
  build ucollect_form
    (let! fakes := add_section "fakes" in
     add_field fakes WMultiCheckbox "services"
       [args (VStr <$> SERVICES_OPTIONS); nuci_path "uci.ucollect.fakes.disable";
        default_ (VList SERVICES_OPTIONS)] >>
     add_field fakes WCheckbox "log_credentials"
       [nuci_path "uci.ucollect.fakes.log_credentials"] >>
     modify (add_callback
               (as_callback "ucollect_form_cb"
                  (ucollect_form_cb (form_nuci_config ucollect_form))))).

(** [self.get_form()], by class. *)
Definition get_form (h : Handler) (w : World) : outcome (option Form) :=
  match h_class h with
  | BaseConfigHandler => Raise NotImplementedError
  | PasswordHandler => password_get_form (h_change h) (h_data h) w
  | WanHandler => wan_get_form (h_data h) w
  | DNSHandler => dns_get_form (h_data h) w
  | TimeHandler => time_get_form (h_data h) w
  | LanHandler => lan_get_form (h_data h) w
  | WifiHandler => wifi_get_form (h_data h) w
  | SystemPasswordHandler => system_password_get_form (h_data h) w
  | MaintenanceHandler => maintenance_get_form (h_data h) w
  | NotificationsHandler => notifications_get_form (h_data h) w
  | UpdaterHandler => updater_get_form (h_data h) w
  | UcollectHandler => ucollect_get_form (h_data h) w
  end.

(** ** Validation and saving of a form ([foris.fapi]) *)

(** [check v data value]: whether [value] passes validator [v], given the
    current values of all fields ([foris.validators]). *)
Variable check : Validator -> Data -> PyVal -> bool.

Definition all_fields (f : Form) : list Field :=
  concat (sec_fields <$> form_sections f).

Definition submitted (f : Form) : Data := default ∅ (form_data f).

(** Modelled from the spec: the value currently assigned to a field, the
    submitted one if present, else the default (the pre-fill from the
    configuration tree is left out). *)
Definition current_value (f : Form) (name : string) : PyVal :=
  match submitted f !! name with
  | Some v => v
  | None =>
      match List.find (fun fld => String.eqb (f_name fld) name) (all_fields f) with
      | Some fld => f_default fld
      | None => VNone
      end
  end.

(** Modelled from the spec: the data handed to the callbacks, every
    field with its current value, and whatever else was submitted. *)
Definition validated_data (f : Form) : Data :=
  submitted f ∪ list_to_map ((fun fld => (f_name fld, f_default fld)) <$> all_fields f).

(** Modelled from the spec: a field is considered only when all its
    [requires] pairs hold for the current values. *)
Definition visible (f : Form) (fld : Field) : bool :=
  forallb (fun '(name, v) => bool_decide (current_value f name = v)) (f_requires fld).

Definition is_empty (v : PyVal) : bool :=
  match v with
  | VNone => true
  | VStr s => String.eqb s ""
  | VList l => Nat.eqb (length l) 0
  | _ => false
  end.

(** Modelled from the spec: hidden fields are exempt; a visible required
    field with an empty value has a "required" error; otherwise the
    validators run in order and the first failure is the field's error. *)
Definition field_error (f : Form) (fld : Field) : option string :=
  if visible f fld then
    let v := current_value f (f_name fld) in
    if f_required fld && is_empty v then Some "required"
    else match List.find (fun vd => negb (check vd (validated_data f) v)) (f_validators fld) with
         | Some _ => Some "invalid"
         | None => None
         end
  else None.

Definition form_field_errors (f : Form) : list (string * string) :=
  omap (fun fld => match field_error f fld with
                   | Some e => Some (f_name fld, e)
                   | None => None
                   end) (all_fields f).

(** Modelled from the spec: [form.validate()] sets the validity flag and
    the per-field errors; the form is valid iff no field has an error. *)
Definition validate (f : Form) : Form :=
  let errors := form_field_errors f in
  mkForm (form_name f) (form_data f) (form_nuci_config f) (form_sections f)
         (form_callbacks f) (Nat.eqb (length errors) 0) errors.

(** Modelled from the spec: the callbacks run in registration order on
    the validated data; the patch of an ["edit_config"] result is
    submitted to the store.  The trace records each callback called, with
    what it returned or raised; an exception ends the run. *)
Fixpoint process_callbacks (cbs : list Callback) (data : Data) (w : World)
  : list (string * outcome CbResult) * World :=
  match cbs with
  | [] => ([], w)
  | cb :: rest =>
      match cb_run cb data w with
      | (Ok (action, payload), w') =>
          let w'' := if String.eqb action "edit_config"
                     then emit (EvEditConfig (patch_view payload)) w'
                     else w' in
          let '(trace, w_end) := process_callbacks rest data w'' in
          ((cb_name cb, Ok (action, payload)) :: trace, w_end)
      | (Raise e, w') => ([(cb_name cb, Raise e)], w')
      end
  end.

(** Modelled from the spec: [form.save()]. *)
Definition form_save (f : Form) (w : World) : list (string * outcome CbResult) * World :=
  process_callbacks (form_callbacks f) (validated_data f) w.

(** The exception that ended a run, if any. *)
Fixpoint raised (trace : list (string * outcome CbResult)) : option exn :=
  match trace with
  | [] => None
  | (_, Raise e) :: _ => Some e
  | (_, Ok _) :: rest => raised rest
  end.

(** *** BaseConfigHandler *)

Definition set_form_cache (h : Handler) (f : option Form) : Handler :=
  mkHandler (h_class h) (h_data h) (h_change h) f.

(** The [form] property: [get_form] is called while the cache is [None]. *)
Definition form (h : Handler) (w : World) : outcome (option Form) * Handler :=
  match h_form_cache h with
  | Some f => (Ok (Some f), h)
  | None =>
      match get_form h w with
      | Ok f => (Ok f, set_form_cache h f)
      | Raise e => (Raise e, h)
      end
  end.

(** What a call of [save] leaves behind: what it returned or raised, the
    handler (whose cached form is the one validated and extended), the
    backend, and the callbacks that were called. *)
Record Saved : Type := mkSaved {
  sv_return : outcome bool;
  sv_handler : Handler;
  sv_world : World;
  sv_called : list (string * outcome CbResult)
}.

Definition save (h : Handler) (extra_callbacks : option (list Callback)) (w : World)
  : Saved :=
  match form h w with
  | (Raise e, h') => mkSaved (Raise e) h' w []
  | (Ok None, h') => mkSaved (Raise (AttributeError "validate")) h' w []
  | (Ok (Some f), h') =>
      let f := validate f in
      let f := match extra_callbacks with
               | Some (cb :: cbs) => foldl (fun f cb => add_callback cb f) f (cb :: cbs)
               | _ => f
               end in
      let h' := set_form_cache h' (Some f) in
      if form_valid f then
        let '(trace, w') := form_save f w in
        match raised trace with
        | Some e => mkSaved (Raise e) h' w' trace
        | None => mkSaved (Ok true) h' w' trace
        end
      else mkSaved (Ok false) h' w []
  end.

(** ** Reading patches *)

(** The names of all options a tree sets or removes. *)
Fixpoint option_names (t : UciTree) : list string :=
  match t with
  | UNode k _ cs =>
      match k with
      | KOption n _ => [n]
      | _ => []
      end ++ concat (option_names <$> cs)
  end.

(** The children of a list: [Value(i, name)], [Value(i+1, ...)], ... *)
Fixpoint value_trees (i : Z) (names : list string) : list UciTree :=
  match names with
  | [] => []
  | n :: rest => UNode (KValue i n) None [] :: value_trees (i + 1) rest
  end.

(** The patch that sets the password option of section [auth] of config
    [foris] to a hash. *)
Definition password_patch (hash : string) : UciTree :=
  UNode KUci None
    [UNode (KConfig "foris") None
       [UNode (KSection (VStr "auth") "config" false) None
          [UNode (KOption "password" (VStr hash)) None []]]].

(** What is stored at [uci.foris.auth.password], as the callback reads it. *)
Abbreviation stored_password_hash w :=
  (find_child (client_get foris_config w) "uci.foris.auth.password").

(** The patch of the ucollect callback: section [fakes] with the given
    operations on the [disable] list, then the [log_credentials] option. *)
Definition ucollect_patch (disable : list UciTree) (log_credentials : PyVal) : UciTree :=
  UNode KUci None
    [UNode (KConfig "ucollect") None
       [UNode (KSection (VStr "fakes") "fakes" false) None
          (disable ++ [UNode (KOption "log_credentials" log_credentials) None []])]].

(** The children of section [wan] that the static branch emits, after the
    [proto] option and the MAC address operation. *)
Definition wan_static_options (ipaddr netmask gateway : PyVal) : list UciTree :=
  [UNode (KOption "ipaddr" ipaddr) None [];
   UNode (KOption "netmask" netmask) None [];
   UNode (KOption "gateway" gateway) None [];
   UNode (KOption "dns" (VStr "")) None [];
   UNode (KOption "ip6addr" VNone) (Some OpRemove) [];
   UNode (KOption "ip6gw" VNone) (Some OpRemove) [];
   UNode (KOption "ip6prefix" VNone) (Some OpRemove) []].

(** The patch of the wifi callback when Wi-Fi is switched off. *)
Definition wifi_disabled_tree (iface_section : PyVal) : UciTree :=
  UNode KUci None
    [UNode (KConfig "wireless") None
       [UNode (KSection iface_section "wifi-iface" false) None
          [UNode (KOption "disabled" (VBool true)) None []];
        UNode (KSection (VStr "radio0") "wifi-device" false) None
          [UNode (KOption "disabled" (VBool true)) None []]]].

(** *** Package lists *)

(** The items of the submitted data that select a package list, and the
    names they select. *)
Definition is_selected (kv : string * PyVal) : bool :=
  py_bool (snd kv) && Str.startswith "install_" (fst kv).

Definition selected_lists (items : list (string * PyVal)) : list string :=
  (fun kv => Str.drop 8 (fst kv)) <$> List.filter is_selected items.

(** The patch of the package lists callback. *)
Definition updater_patch (op : Operation) (names : list string) : UciTree :=
  UNode KUci None
    [UNode (KConfig "updater") None
       [UNode (KSection (VStr "pkglists") "pkglists" false) None
          [UNode (KList "lists") (Some op) (value_trees 0 names)]]].

(** The objects of the callback while it collects the names: the four
    nodes of the skeleton, then one [Value] per name. *)
Fixpoint value_objs (i : Z) (names : list string) : Heap :=
  match names with
  | [] => []
  | n :: rest => mkObj (KValue i n) None [] :: value_objs (i + 1) rest
  end.

Definition lists_heap (names : list string) : Heap :=
  [mkObj KUci None [1];
   mkObj (KConfig "updater") None [2];
   mkObj (KSection (VStr "pkglists") "pkglists" false) None [];
   mkObj (KList "lists") None (seq 4 (length names))] ++ value_objs 0 names.

(** *** Forms and callbacks *)

(** How many results of a run are ["edit_config"], each a patch submitted
    to the store. *)
Definition is_edit_config (entry : string * outcome CbResult) : bool :=
  match snd entry with
  | Ok (action, _) => String.eqb action "edit_config"
  | Raise _ => false
  end.

Definition edit_configs (trace : list (string * outcome CbResult)) : nat :=
  length (List.filter is_edit_config trace).

(** Whether a callback, run on the data against a backend, returns
    ["edit_config"]. *)
Definition returns_edit_config (cb : Callback) (data : Data) (w : World) : bool :=
  match fst (cb_run cb data w) with
  | Ok (action, _) => String.eqb action "edit_config"
  | Raise _ => false
  end.

(** The callback results of a run that returned normally. *)
Definition returned (entry : string * outcome CbResult) : bool :=
  match snd entry with
  | Ok _ => true
  | Raise _ => false
  end.

(** ** Sample backends and submissions *)

(** Python's default: an object that defines neither [__nonzero__] nor
    [__len__] tests true. *)
Definition ex_node_bool (t : UciTree) : bool := true.


(** A stand-in for [pbkdf2.crypt]: hashes read ["salt$word"]. *)
Definition ex_crypt_salted (word salt : string) : outcome string :=
  Ok (List.hd "" (Str.split "$" salt) +:+ "$" +:+ word).

Definition ex_crypt_fresh (word : string) (iterations : Z) (seed : nat) : string :=
  pretty seed +:+ "$" +:+ word.

Definition ex_check (v : Validator) (data : Data) (value : PyVal) : bool := true.

Definition ex_ucollect_config : UciTree :=
  UNode (KConfig "ucollect") None
    [UNode (KSection (VStr "cfg02") "interface" true) None
       [UNode (KOption "ifname" (VStr "eth2")) None []];
     UNode (KSection (VStr "fakes") "fakes" false) None
       [UNode (KList "disable") None [UNode (KValue 0 "23tcp") None []]]].

Definition ex_foris_config (hash : string) : UciTree :=
  UNode (KConfig "foris") None
    [UNode (KSection (VStr "auth") "config" false) None
       [UNode (KOption "password" (VStr hash)) None []]].

Definition ex_uci : UciTree :=
  UNode KUci None [ex_foris_config "x1$secret"; ex_ucollect_config].

Definition ex_backend (uci : UciTree) (cards : list Card) : World :=
  mkWorld uci (Some cards)
          (Some [mkPkg "luci" "LuCI" "Web interface"; mkPkg "nas" "NAS" "Storage"])
          (fun _ => VNone) 0 [].

Definition ex_card : Card :=
  mkCard [mkChannel 1 2412 false; mkChannel 6 2437 false; mkChannel 36 5180 false].

Definition ex_world : World := ex_backend ex_uci [ex_card].

(** No password has been set yet. *)
Definition ex_world_no_hash : World :=
  ex_backend (UNode KUci None [ex_ucollect_config]) [ex_card].

(** The password option is there, with an empty value. *)
Definition ex_world_empty_hash : World :=
  ex_backend (UNode KUci None [ex_foris_config ""; ex_ucollect_config]) [ex_card].

(** A router without wireless cards. *)
Definition ex_world_no_card : World := ex_backend ex_uci [].

Definition ex_pw_data (old_password : string) : Data :=
  list_to_map [("old_password", VStr old_password); ("password", VStr "abcdef");
               ("password_validation", VStr "abcdef"); ("set_system_pw", VBool false)].


Definition ex_wan_static : Data :=
  list_to_map [("proto", VStr "static"); ("ipaddr", VStr "192.0.2.1");
               ("netmask", VStr "255.255.255.0"); ("gateway", VStr "192.0.2.254");
               ("custom_mac", VBool false)].

Definition ex_wifi_off : Data :=
  list_to_map [("iface_section", VStr "cfg033579"); ("wifi_enabled", VBool false)].

Definition ex_ucollect_all : Data :=
  list_to_map [("services", VList ["23tcp"]); ("log_credentials", VBool false)].

Definition ex_ucollect_none : Data :=
  list_to_map [("services", VList []); ("log_credentials", VBool false)].

Definition ex_packages : Data :=
  list_to_map [("install_luci", VBool true); ("install_nas", VBool false)].

Definition ex_dns_data : Data := list_to_map [("forward_upstream", VBool true)].

Definition ex_dns_form : Form :=
  match dns_get_form (Some ex_dns_data) ex_world with
  | Ok (Some f) => f
  | _ => ForisForm "dns" None None ex_world
  end.

Definition ex_updater_form : Form :=
  match updater_get_form (Some ex_packages) ex_world with
  | Ok (Some f) => f
  | _ => ForisForm "package_lists" None None ex_world
  end.

(** ** Proof automation *)

(** Hide the dictionary behind its lookup function, so that running a
    callback never looks into the representation of the map. *)
Ltac abstract_data data :=
  let get := fresh "get" in
  pose (get := fun k : string => data !! k);
  repeat match goal with
         | H : context [data !! ?k] |- _ => change (data !! k) with (get k) in H
         | |- context [data !! ?k] => change (data !! k) with (get k)
         end;
  clearbody get; try clear data.

(** Run a callback as far as it goes, leaving the tests on submitted
    values and the lookups in the configuration folded. *)
Ltac run_cb :=
  lazy -[py_bool py_is_True py_str String.append String.eqb truth find_child
         client_get bool_decide decide filter elem_of not].

(** Finish the run once every test has been decided. *)
Ltac finish_cb := lazy -[py_str String.append].

(** Build a form, leaving the callbacks and the lookups in the
    configuration folded. *)
Ltac run_form :=
  lazy -[client_get find_child bool_decide as_callback pw_form_cb wan_form_cb
         dns_form_cb time_form_cb lan_form_cb wifi_form_cb system_pw_form_cb
         maintenance_form_cb notifications_form_cb package_lists_form_cb
         package_lists_run_updater_cb ucollect_form_cb String.append pretty
         for_each List.hd].

(** [x ∉ [a; b; ...]] for distinct string constants. *)
Ltac solve_not_elem :=
  lazy -[not elem_of];
  repeat (apply not_elem_of_cons; split; [discriminate|]); apply not_elem_of_nil.

(** ** More of the callbacks: what their patches look like *)

(** A computation that leaves the backend as it found it, whether it
    returns or raises. *)
Definition leaves_backend {A} (m : M CbState A) : Prop :=
  forall s, cs_world (snd (m s)) = cs_world s.

(** The patch of the DNS callback. *)
Definition dns_patch (forward_upstream : PyVal) : UciTree :=
  UNode KUci None
    [UNode (KConfig "unbound") None
       [UNode (KSection (VStr "server") "unbound" false) None
          [UNode (KOption "forward_upstream" forward_upstream) None []]]].

(** The patch of the LAN callback: the DNS server option of DHCP is
    replaced, the DHCP options follow, and the router address is set. *)
Definition lan_patch (ip : string) (dhcp_options : list UciTree) : UciTree :=
  UNode KUci None
    [UNode (KConfig "dhcp") None
       [UNode (KSection (VStr "lan") "dhcp" false) None
          (UNode (KList "dhcp_option") (Some OpReplace)
             [UNode (KValue 0 ("6," +:+ ip)) None []] :: dhcp_options)];
     UNode (KConfig "network") None
       [UNode (KSection (VStr "lan") "interface" false) None
          [UNode (KOption "ipaddr" (VStr ip)) None []]]].

(** The channel the wifi callback writes: the 2.4 GHz choice if there is
    one, else the 5 GHz choice, else ["auto"]. *)
Definition wifi_channel (data : Data) : PyVal :=
  if py_bool (dict_get data "channel2g4" VNone) then dict_get data "channel2g4" VNone
  else if py_bool (dict_get data "channel5g" VNone) then dict_get data "channel5g" VNone
  else VStr "auto".

(** The patch of the wifi callback when Wi-Fi is switched on. *)
Definition wifi_enabled_tree (iface_section ssid ssid_hidden key : PyVal)
    (hwmode_options : list UciTree) (htmode channel : PyVal) : UciTree :=
  UNode KUci None
    [UNode (KConfig "wireless") None
       [UNode (KSection iface_section "wifi-iface" false) None
          [UNode (KOption "disabled" (VBool false)) None [];
           UNode (KOption "ssid" ssid) None [];
           UNode (KOption "hidden" ssid_hidden) None [];
           UNode (KOption "encryption" (VStr "psk2+tkip+aes")) None [];
           UNode (KOption "key" key) None []];
        UNode (KSection (VStr "radio0") "wifi-device" false) None
          (UNode (KOption "disabled" (VBool false)) None [] ::
           hwmode_options ++
           [UNode (KOption "htmode" htmode) None [];
            UNode (KOption "channel" channel) None []])]].

(** The patch of the notifications callback when notifications are off. *)
Definition notifications_off_tree (enable_smtp reboot_time delay : PyVal) : UciTree :=
  UNode KUci None
    [UNode (KConfig "user_notify") None
       [UNode (KSection (VStr "smtp") "smtp" false) None
          [UNode (KOption "enable" enable_smtp) None []];
        UNode (KSection (VStr "reboot") "reboot" false) None
          [UNode (KOption "time" reboot_time) None [];
           UNode (KOption "delay" delay) None []]]].

(** ** WanHandler: the pieces of its patch *)

(** The name the callback gives to the ucollect interface section: the
    name of the first interface section of the snapshot if that node is
    truthy, [None] otherwise. *)
Definition ucollect_interface_name (nuci_config : UciTree) : PyVal :=
  match find_child nuci_config "uci.ucollect.@interface[0]" with
  | Some (UNode (KSection name _ _) _ _ as t) => if node_bool t then name else VNone
  | _ => VNone
  end.

Definition wan_ucollect_tree (nuci_config : UciTree) (ifname : string) : UciTree :=
  UNode (KConfig "ucollect") None
    [UNode (KSection (ucollect_interface_name nuci_config) "interface" true) None
       [UNode (KOption "ifname" (VStr ifname)) None []]].

(** The MAC address operation: set it when [custom_mac] is [True], remove
    it otherwise. *)
Definition wan_mac_option (custom_mac macaddr : PyVal) : UciTree :=
  if py_is_True custom_mac
  then UNode (KOption "macaddr" macaddr) None []
  else UNode (KOption "macaddr" VNone) (Some OpRemove) [].

Definition wan_network_tree (options : list UciTree) : UciTree :=
  UNode (KConfig "network") None
    [UNode (KSection (VStr "wan") "interface" false) None options].

Definition wan_smrtd_tree (connections : list UciTree) (enabled : PyVal) : UciTree :=
  UNode (KConfig "smrtd") None
    [UNode (KSection (VStr "eth2") "interface" false) None
       (UNode (KOption "name" (VStr "eth2")) None [] :: connections);
     UNode (KSection (VStr "global") "global" false) None
       [UNode (KOption "enabled" enabled) None []]].

Definition wan_pppoe_options (custom_mac macaddr username password ppp_ipv6 : PyVal)
  : list UciTree :=
  [UNode (KOption "proto" (VStr "pppoe")) None [];
   wan_mac_option custom_mac macaddr;
   UNode (KOption "username" username) None [];
   UNode (KOption "password" password) None [];
   UNode (KOption "ipv6" ppp_ipv6) None []].

Definition wan_static_ipv6_options
    (ipaddr netmask gateway : PyVal) (dns : string) (ip6addr ip6gw ip6prefix : PyVal)
  : list UciTree :=
  [UNode (KOption "ipaddr" ipaddr) None [];
   UNode (KOption "netmask" netmask) None [];
   UNode (KOption "gateway" gateway) None [];
   UNode (KOption "dns" (VStr dns)) None [];
   UNode (KOption "ip6addr" ip6addr) None [];
   UNode (KOption "ip6gw" ip6gw) None [];
   UNode (KOption "ip6prefix" ip6prefix) None []].

(** ** The functions that read stored values back for the fields *)

(** Every character of a string satisfies a test. *)
Fixpoint str_all (p : ascii -> bool) (s : string) : bool :=
  match s with
  | EmptyString => true
  | String a s' => p a && str_all p s'
  end.

Definition no_space (s : string) : bool :=
  str_all (fun a => negb (Ascii.is_space a)) s.

(** [l[i]] on a Python list, also for negative [i]; [None] stands for
    [IndexError]. *)
Definition py_index {A} (l : list A) (i : Z) : option A :=
  if (0 <=? i)%Z then l !! Z.to_nat i
  else if (- Z.of_nat (length l) <=? i)%Z
       then l !! Z.to_nat (Z.of_nat (length l) + i)
       else None.

(** [extract_dns_item(dns_string, index, default)] of [WanHandler.get_form]. *)
Definition extract_dns_item (dns_string : string) (index : Z) (default : PyVal) : PyVal :=
  match py_index (Str.split " " dns_string) index with
  | Some item => VStr item
  | None => default
  end.

(** [lambda val: extract_dns_item(val.value, index)] *)
Definition dns_preproc (index : Z) (val : UciTree) : outcome PyVal :=
  match kind val with
  | KOption _ (VStr dns_string) => Ok (extract_dns_item dns_string index VNone)
  | KOption _ _ => Raise (AttributeError "split")
  | _ => Raise (AttributeError "value")
  end.

(** [map(lambda value: value.content, x.children)] *)
Fixpoint contents (values : list UciTree) : outcome (list string) :=
  match values with
  | [] => Ok []
  | v :: rest =>
      match kind v with
      | KValue _ content =>
          match contents rest with
          | Ok cs => Ok (content :: cs)
          | Raise e => Raise e
          end
      | _ => Raise (AttributeError "content")
      end
  end.

(** [lambda x: " ".join(map(lambda value: value.content, x.children))] of
    [NotificationsHandler.get_form]. *)
Definition to_preproc (x : UciTree) : outcome string :=
  match contents (children x) with
  | Ok cs => Ok (Str.join " " cs)
  | Raise e => Raise e
  end.

(** [make_preproc(list_name)] of [UpdaterHandler.get_form]. *)
Definition make_preproc (list_name : string) (list : UciTree) : outcome bool :=
  match contents (children list) with
  | Ok enabled_names => Ok (bool_decide (list_name ∈ enabled_names))
  | Raise e => Raise e
  end.

(** [get_enabled_services(disabled_list)] of [UcollectHandler.get_form]. *)
Definition get_enabled_services (disabled_list : UciTree) : outcome (list string) :=
  match contents (children disabled_list) with
  | Ok disabled_services =>
      Ok (List.filter (fun x => negb (bool_decide (x ∈ disabled_services)))
            SERVICES_OPTIONS)
  | Raise e => Raise e
  end.

(** What [get_smrtd_param] and [get_smrtd_vlan] can do: return, raise one
    of the exceptions of the callbacks, or raise [IndexError]. *)
Inductive indexed (A : Type) : Type :=
  | Got (o : outcome A)
  | IndexError.
#[global] Arguments Got {A} o.
#[global] Arguments IndexError {A}.

(** [get_smrtd_param(param_name)(conn_list)] of [WanHandler.get_form]: the
    first value of the list is split into VLAN, VPI and VCI. *)
Definition get_smrtd_param (param_name : string) (conn_list : option UciTree)
  : indexed PyVal :=
  let select (vlan_id vpi vci : PyVal) : indexed PyVal :=
    if String.eqb param_name "VPI" then Got (Ok vpi)
    else if String.eqb param_name "VCI" then Got (Ok vci)
    else if String.eqb param_name "VLAN" then Got (Ok vlan_id)
    else Got (Raise (ValueError "Unknown SMRTd connection parameter.")) in
  match conn_list with
  | Some t =>
      if node_bool t then
        match children t with
        | [] => IndexError
        | first :: _ =>
            match kind first with
            | KValue _ content =>
                match Str.split " " content with
                | [vlan_id; vpi; vci] => select (VStr vlan_id) (VStr vpi) (VStr vci)
                | [] | [_] | [_; _] => Got (Raise (ValueError "need more values to unpack"))
                | _ => Got (Raise (ValueError "too many values to unpack"))
                end
            | _ => Got (Raise (AttributeError "content"))
            end
        end
      else select VNone VNone VNone
  | None => select VNone VNone VNone
  end.

(** [re.match("eth2.(\d+)", ifname)] and its group 1: after ["eth2"] and
    any one character but a newline, the longest run of digits, which must
    not be empty. *)
Definition is_digit (a : ascii) : bool :=
  (48 <=? nat_of_ascii a) && (nat_of_ascii a <=? 57).

Fixpoint take_digits (s : string) : string :=
  match s with
  | EmptyString => EmptyString
  | String a s' => if is_digit a then String a (take_digits s') else EmptyString
  end.

Definition match_eth2_vlan (ifname : string) : option string :=
  if Str.startswith "eth2" ifname then
    match Str.drop 4 ifname with
    | EmptyString => None
    | String c rest =>
        if Ascii.eqb c "010" then None
        else match take_digits rest with
             | EmptyString => None
             | digits => Some digits
             end
    end
  else None.

(** [get_smrtd_vlan(data)] of [WanHandler.get_form]. *)
Definition get_smrtd_vlan (data : UciTree) : indexed PyVal :=
  let ifname := find_child data "uci.network.wan.ifname" in
  let from_connections :=
    get_smrtd_param "VLAN" (find_child data "uci.smrtd.eth2.connections") in
  match ifname with
  | Some t =>
      if node_bool t then
        match kind t with
        | KOption _ (VStr name) =>
            match match_eth2_vlan name with
            | Some digits => Got (Ok (VStr digits))
            | None => from_connections
            end
        | KOption _ _ => Got (Raise (TypeError "expected string or buffer"))
        | _ => Got (Raise (AttributeError "value"))
        end
      else from_connections
  | None => from_connections
  end.

(** ** NotificationsHandler, notifications switched on *)

Definition nonempty_items (items : list (Z * string)) : list (Z * string) :=
  List.filter (fun item => negb (String.eqb (snd item) "")) items.

Definition value_tree (item : Z * string) : UciTree :=
  UNode (KValue (fst item) (snd item)) None [].

Definition value_obj (item : Z * string) : Obj :=
  mkObj (KValue (fst item) (snd item)) None [].

(** The recipients the callback writes: one [Value] for every non-empty
    piece of the submitted string, numbered by the position of the piece
    among all pieces. *)
Definition to_values (to : string) : list UciTree :=
  value_tree <$> nonempty_items (enumerate (Str.split " " to)).

(** The server settings: those of a custom server when [use_turris_smtp]
    is the string ["0"], the sender's name otherwise. *)
Definition smtp_options
    (use_turris_smtp server port username password security from sender_name : PyVal)
  : list UciTree :=
  UNode (KOption "use_turris_smtp" use_turris_smtp) None [] ::
  if py_eq_str use_turris_smtp "0"
  then [UNode (KOption "server" server) None [];
        UNode (KOption "port" port) None [];
        UNode (KOption "username" username) None [];
        UNode (KOption "password" password) None [];
        UNode (KOption "security" security) None [];
        UNode (KOption "from" from) None []]
  else [UNode (KOption "sender_name" sender_name) None []].

Definition notifications_on_tree (enable_smtp reboot_time delay : PyVal)
    (options : list UciTree) (to : string) (severity news : PyVal) : UciTree :=
  UNode KUci None
    [UNode (KConfig "user_notify") None
       [UNode (KSection (VStr "smtp") "smtp" false) None
          (UNode (KOption "enable" enable_smtp) None [] ::
           options ++
           [UNode (KList "to") (Some OpReplace) (to_values to)]);
        UNode (KSection (VStr "reboot") "reboot" false) None
          [UNode (KOption "time" reboot_time) None [];
           UNode (KOption "delay" delay) None []];
        UNode (KSection (VStr "notifications") "notifications" false) None
          [UNode (KOption "severity" severity) None [];
           UNode (KOption "news" news) None []]]].

(** Objects of a patch under construction: more children for one. *)
Definition add_kids (kids : list nat) (o : Obj) : Obj :=
  mkObj (o_kind o) (o_operation o) (o_children o ++ kids).

(** ** The fields of the forms *)

Definition field_names (f : Form) : list string :=
  f_name <$> concat (sec_fields <$> form_sections f).

(** The field of a form with a given name, if any. *)
Definition find_field (f : Form) (name : string) : option Field :=
  List.find (fun fld => String.eqb (f_name fld) name)
    (concat (sec_fields <$> form_sections f)).

(** The channels of a card that are enabled, below and from 2500 MHz. *)
Definition enabled_2g4 (channels : list Channel) : list Channel :=
  List.filter (fun c => negb (ch_disabled c) && (ch_frequency c <? 2500)%Z) channels.

Definition enabled_5g (channels : list Channel) : list Channel :=
  List.filter (fun c => negb (ch_disabled c) && negb (ch_frequency c <? 2500)%Z) channels.

Definition channel_choice (c : Channel) : PyVal := VStr (pretty (ch_number c)).

(** ** More sample inputs *)

Definition ex_lan : Data :=
  list_to_map [("lan_ipaddr", VStr "192.168.1.1"); ("dhcp_enabled", VBool true);
               ("dhcp_min", VStr "100"); ("dhcp_max", VStr "150")].

Definition ex_lan_no_dhcp : Data :=
  list_to_map [("lan_ipaddr", VStr "192.168.1.1"); ("dhcp_enabled", VBool false)].

Definition ex_lan_bad_address : Data :=
  list_to_map [("lan_ipaddr", VInt 1); ("dhcp_enabled", VBool false)].

Definition ex_time : Data := list_to_map [("time", VStr "2014-05-06T07:08:09")].

Definition ex_system_password : Data := list_to_map [("password", VStr "abcdef")].

Definition ex_backup : Data := list_to_map [("backup_file", VFile "backup.tar.bz2")].

Definition ex_backup_no_upload : Data := list_to_map [("backup_file", VStr "")].

Definition ex_pw_system : Data :=
  list_to_map [("password", VStr "abcdef"); ("password_validation", VStr "abcdef");
               ("set_system_pw", VBool true)].

Definition ex_wifi_on : Data :=
  list_to_map [("iface_section", VStr "cfg033579"); ("wifi_enabled", VBool true);
               ("ssid", VStr "Turris"); ("ssid_hidden", VBool false);
               ("key", VStr "12345678"); ("htmode", VStr "HT20");
               ("hwmode", VStr "11a"); ("channel5g", VStr "36")].

Definition ex_notifications_off : Data :=
  list_to_map [("enable_smtp", VBool false); ("reboot_time", VStr "03:30");
               ("delay", VStr "3")].

Definition ex_notifications_on : Data :=
  list_to_map [("enable_smtp", VBool true); ("reboot_time", VStr "03:30");
               ("delay", VStr "3"); ("use_turris_smtp", VStr "1");
               ("sender_name", VStr "turris");
               ("to", VStr "a@example.org  b@example.org");
               ("severity", VInt 1); ("news", VBool false)].

Definition ex_wan_pppoe : Data :=
  list_to_map [("proto", VStr "pppoe"); ("custom_mac", VBool false);
               ("username", VStr "user"); ("password", VStr "pass");
               ("ppp_ipv6", VBool false)].

Definition ex_wan_modem : Data :=
  list_to_map [("proto", VStr "pppoe"); ("custom_mac", VBool false);
               ("username", VStr "user"); ("password", VStr "pass");
               ("ppp_ipv6", VBool false); ("use_smrt", VBool true);
               ("smrt_vlan", VStr ""); ("smrt_vpi", VStr "8"); ("smrt_vci", VStr "48")].

Definition ex_wan_dhcp : Data :=
  list_to_map [("proto", VStr "dhcp"); ("custom_mac", VBool true);
               ("macaddr", VStr "00:11:22:33:44:55")].

Definition ex_wan_static_ipv6 : Data :=
  list_to_map [("proto", VStr "static"); ("custom_mac", VBool false);
               ("ipaddr", VStr "192.0.2.1"); ("netmask", VStr "255.255.255.0");
               ("gateway", VStr "192.0.2.254");
               ("dns1", VStr ""); ("dns2", VStr "192.0.2.53");
               ("static_ipv6", VBool true); ("ip6addr", VStr "2001:db8::1/64");
               ("ip6gw", VStr "2001:db8::fe"); ("ip6prefix", VStr "2001:db8:1::/64")].

(** A card with one 2.4 GHz channel, one disabled, and a single 5 GHz one. *)
Definition ex_card_single_5g : Card :=
  mkCard [mkChannel 1 2412 false; mkChannel 13 2472 true; mkChannel 36 5180 false].

Definition ex_world_single_5g : World := ex_backend ex_uci [ex_card_single_5g].

(** A backend without updater data. *)
Definition ex_world_no_updater : World :=
  mkWorld ex_uci (Some [ex_card]) None (fun _ => VNone) 0 [].

Definition ex_extra_callback : Callback :=
  mkCallback "extra" (fun _ w => (Ok ("none", PNone), w)).

(** A submission that leaves both required password fields empty, and
    the form of PasswordHandler for it. *)
Definition ex_pw_empty : Data :=
  list_to_map [("password", VStr ""); ("password_validation", VStr "");
               ("set_system_pw", VBool false)].

Definition ex_password_form : Form :=
  match password_get_form false (Some ex_pw_empty) ex_world with
  | Ok (Some f) => f
  | _ => ForisForm "password" None None ex_world
  end.

(** * Properties *)

(** ** PasswordHandler *)

(** The tail of the callback, once the old password has been accepted or
    was not asked for. *)
Lemma pw_form_cb_sets_password (change : bool) (data : Data) (w : World)
    (password : string) (set_system_pw : PyVal) :
  data !! "password" = Some (VStr password) ->
  data !! "set_system_pw" = Some set_system_pw ->
  (change = true ->
   truth (stored_password_hash w) = true ->
   exists name hash op cs old_password,
     stored_password_hash w = Some (UNode (KOption name (VStr hash)) op cs) /\
     data !! "old_password" = Some (VStr old_password) /\
     crypt_salted old_password hash = Ok hash) ->
  exists payload s',
    pw_form_cb change data (mkCbState [] w) = (Ok ("edit_config", payload), s') /\
    patch_view payload = Some (password_patch (crypt_fresh password 1000 (w_seed w))) /\
    cs_world s' =
      next_seed (if py_is_True set_system_pw
                 then emit (EvSetPassword "root" (VStr password)) w else w).
Proof.
  intros Hp Hs Hold. unfold pw_form_cb, getitem.
  abstract_data data.
  unfold bind at 1. cbv beta.
  match goal with
  | |- context [match ?check (mkCbState [] w) with _ => _ end] =>
      assert (Hcheck : check (mkCbState [] w) = (Ok false, mkCbState [] w))
  end.
  { destruct change; [|reflexivity].
    unfold bind at 1, gets. cbv beta.
    change (cs_world (mkCbState [] w)) with w. cbv zeta.
    destruct (truth (find_child (client_get foris_config w) "uci.foris.auth.password"))
      eqn:Ht; [|reflexivity].
    destruct (Hold eq_refl eq_refl) as (name & hash & op & cs & old & Hf & Ho & Hc).
    rewrite Hf, Ho. run_cb. rewrite Hc. run_cb. by rewrite String.eqb_refl. }
  rewrite Hcheck, Hp, Hs. run_cb.
  destruct (py_is_True set_system_pw); finish_cb;
    eexists _, _; (split; [reflexivity|]); split; reflexivity.
Qed.

(** C3.  In "change" mode, with a stored hash that the callback finds and
    takes for non-empty: when the crypt of the submitted old password under
    the stored hash differs from the stored hash, the callback returns
    [("save_result", {"wrong_old_password": True})], builds no patch and
    leaves the backend untouched; when it equals the stored hash, the
    callback returns [("edit_config", p)] where [p] sets option [password]
    of section [auth] of config [foris] to the hash of the new password. *)
Theorem password_change_checks_old_password (data : Data) (w : World)
    (name hash : string) (op : option Operation) (cs : list UciTree)
    (old_password crypted : string) :
  stored_password_hash w = Some (UNode (KOption name (VStr hash)) op cs) ->
  truth (stored_password_hash w) = true ->
  data !! "old_password" = Some (VStr old_password) ->
  crypt_salted old_password hash = Ok crypted ->
  (crypted <> hash ->
   pw_form_cb true data (mkCbState [] w) =
     (Ok ("save_result", PDict [("wrong_old_password", VBool true)]), mkCbState [] w)) /\
  (crypted = hash ->
   forall (password : string) (set_system_pw : PyVal),
     data !! "password" = Some (VStr password) ->
     data !! "set_system_pw" = Some set_system_pw ->
     exists payload s',
       pw_form_cb true data (mkCbState [] w) = (Ok ("edit_config", payload), s') /\
       patch_view payload = Some (password_patch (crypt_fresh password 1000 (w_seed w)))).
Proof.
  intros Hf Ht Ho Hc. split.
  - intros Hne. unfold pw_form_cb, getitem.
    abstract_data data.
    unfold bind at 1. unfold bind at 1. unfold gets. cbv beta.
    change (cs_world (mkCbState [] w)) with w. cbv zeta.
    rewrite Ht, Hf, Ho. run_cb. rewrite Hc. run_cb.
    destruct (String.eqb hash crypted) eqn:E; [|reflexivity].
    apply String.eqb_eq in E. congruence.
  - intros -> password set_system_pw Hp Hs.
    destruct (pw_form_cb_sets_password true data w password set_system_pw Hp Hs)
      as (payload & s' & Hrun & Hview & _).
    { intros _ _. eauto 10. }
    eauto.
Qed.


(** ** WifiHandler *)

(** C5.  With [wifi_enabled] false the patch sets [disabled] to true in
    the wifi-iface section and in the [radio0] wifi-device section and has
    no other option: none of [ssid], [hidden], [encryption], [key],
    [hwmode], [htmode], [channel]. *)
Theorem wifi_disabled_patch (data : Data) (w : World) (iface_section wifi_enabled : PyVal) :
  data !! "iface_section" = Some iface_section ->
  data !! "wifi_enabled" = Some wifi_enabled ->
  py_bool wifi_enabled = false ->
  exists payload s',
    wifi_form_cb data (mkCbState [] w) = (Ok ("edit_config", payload), s') /\
    cs_world s' = w /\
    patch_view payload = Some (wifi_disabled_tree iface_section) /\
    Forall (fun n => n ∉ option_names (wifi_disabled_tree iface_section))
           ["ssid"; "hidden"; "encryption"; "key"; "hwmode"; "htmode"; "channel"].
Proof.
  intros Hs He Hb. unfold wifi_form_cb, getitem.
  abstract_data data. rewrite Hs, He. run_cb. rewrite Hb. finish_cb.
  eexists _, _. split; [reflexivity|]. split; [reflexivity|]. split; [reflexivity|].
  repeat (apply Forall_cons_2; [solve_not_elem|]). apply Forall_nil_2.
Qed.

(** ** UcollectHandler *)

(** C6.  With every available service selected and a [uci.ucollect.fakes]
    section found in the snapshot, the patch removes the [disable] list;
    with at least one service deselected, it replaces the whole list by
    the deselected names.  In neither case is an option [disable] set. *)
Theorem ucollect_disable_list_patch (nuci_config : UciTree) (data : Data) (w : World)
    (services : list string) (log_credentials : PyVal) :
  data !! "services" = Some (VList services) ->
  data !! "log_credentials" = Some log_credentials ->
  exists payload s' patch,
    ucollect_form_cb nuci_config data (mkCbState [] w) = (Ok ("edit_config", payload), s') /\
    cs_world s' = w /\
    patch_view payload = Some patch /\
    ("disable" ∉ option_names patch) /\
    (let disabled_services := filter (fun x => x ∉ services) SERVICES_OPTIONS in
     (disabled_services = [] ->
      truth (find_child nuci_config "uci.ucollect.fakes") = true ->
      patch = ucollect_patch [UNode (KList "disable") (Some OpRemove) []] log_credentials) /\
     (disabled_services <> [] ->
      patch = ucollect_patch
                [UNode (KList "disable") (Some OpReplace) (value_trees 0 disabled_services)]
                log_credentials)).
Proof.
  intros Hs Hl. unfold ucollect_form_cb, getitem.
  abstract_data data. rewrite Hs, Hl.
  unfold SERVICES_OPTIONS. rewrite filter_cons, filter_nil.
  destruct (decide ("23tcp" ∈ services)) as [Hin|Hnin].
  - rewrite decide_False by tauto. run_cb. rewrite bool_decide_true by done.
    destruct (truth (find_child nuci_config "uci.ucollect.fakes")); finish_cb;
      eexists _, _, _; (split; [reflexivity|]); (split; [reflexivity|]);
      (split; [reflexivity|]); (split; [solve_not_elem|]);
      (split; [intros _ ?; first [reflexivity | discriminate] | intros ?; congruence]).
  - rewrite decide_True by tauto. run_cb. rewrite bool_decide_false by done. finish_cb.
    eexists _, _, _; (split; [reflexivity|]); (split; [reflexivity|]);
      (split; [reflexivity|]); (split; [solve_not_elem|]);
      (split; [intros ?; discriminate | intros _; reflexivity]).
Qed.

(** ** WanHandler *)

(** A path that ends in ["@interface[0]"] can only lead to a section of
    type [interface]. *)
Lemma select_indexed_section (ty : string) (n : nat) (seg : string)
    (cs : list UciTree) (t : UciTree) :
  parse_indexed seg = Some (ty, n) ->
  select_child seg cs = Some t ->
  exists name anonymous op children,
    t = UNode (KSection name ty anonymous) op children.
Proof.
  intros Hp Hs. unfold select_child in Hs. rewrite Hp in Hs.
  apply list_elem_of_lookup_2, list_elem_of_In, filter_In in Hs as [_ Hty].
  destruct t as [k op children]. unfold has_type, section_type in Hty. cbn in Hty.
  destruct k; try discriminate.
  apply String.eqb_eq in Hty. subst. eauto.
Qed.

Lemma find_ucollect_interface0 (doc t : UciTree) :
  find_child doc "uci.ucollect.@interface[0]" = Some t ->
  exists name anonymous op children,
    t = UNode (KSection name "interface" anonymous) op children.
Proof.
  unfold find_child.
  change (Str.split "." "uci.ucollect.@interface[0]")
    with ["uci"; "ucollect"; "@interface[0]"].
  cbv beta iota.
  destruct (has_key "uci" doc); [|intros ?; discriminate].
  cbn [descend].
  destruct (select_child "ucollect" (children doc)) as [c|]; [|intros ?; discriminate].
  destruct (select_child "@interface[0]" (children c)) as [t'|] eqn:Hsel;
    [|intros ?; discriminate].
  intros [= <-].
  apply (select_indexed_section "interface" 0 "@interface[0]" _ _ eq_refl Hsel).
Qed.

(** C4.  With [proto = "static"], the addresses given, no DNS server
    given and [static_ipv6] not set, the callback returns an
    ["edit_config"] patch whose section [wan] sets [proto], then sets or
    removes the MAC address, then sets [ipaddr], [netmask], [gateway] to the
    submitted values and [dns] to the empty string, then removes [ip6addr],
    [ip6gw] and [ip6prefix]; at most the [ifname] option follows. *)
Theorem wan_static_patch (has_smrtd : bool) (nuci_config : UciTree) (data : Data)
    (w : World) (ipaddr netmask gateway custom_mac : PyVal) :
  data !! "proto" = Some (VStr "static") ->
  data !! "ipaddr" = Some ipaddr ->
  data !! "netmask" = Some netmask ->
  data !! "gateway" = Some gateway ->
  data !! "custom_mac" = Some custom_mac ->
  (custom_mac = VBool true -> is_Some (data !! "macaddr")) ->
  dict_get data "dns1" (VStr "") = VStr "" ->
  dict_get data "dns2" (VStr "") = VStr "" ->
  dict_get data "static_ipv6" VNone <> VBool true ->
  exists payload s' mac rest others,
    wan_form_cb has_smrtd nuci_config data (mkCbState [] w) = (Ok ("edit_config", payload), s') /\
    cs_world s' = w /\
    patch_view payload =
      Some (UNode KUci None
              (UNode (KConfig "network") None
                 [UNode (KSection (VStr "wan") "interface" false) None
                    (UNode (KOption "proto" (VStr "static")) None [] :: mac ::
                     wan_static_options ipaddr netmask gateway ++ rest)]
               :: others)) /\
    (exists v op, mac = UNode (KOption "macaddr" v) op []) /\
    Forall (fun t => exists v, t = UNode (KOption "ifname" v) None []) rest.
Proof.
  intros Hproto Hip Hnm Hgw Hcm Hmac Hdns1 Hdns2 Hv6.
  assert (Hv6' : py_is_True (dict_get data "static_ipv6" VNone) = false).
  { destruct (dict_get data "static_ipv6" VNone) as [|[]| | | |] eqn:E;
      cbn; congruence. }
  assert (Hmac' : py_is_True custom_mac = true -> is_Some (data !! "macaddr")).
  { intros E. apply Hmac. destruct custom_mac as [|[]| | | |]; done. }
  clear Hmac Hv6.
  unfold wan_form_cb. rewrite Hdns1, Hdns2, Hv6'. clear Hdns1 Hdns2 Hv6'.
  cbv zeta.
  generalize (dict_get data "smrt_vlan" VNone) as smrt_vlan.
  generalize (dict_get data "use_smrt" (VBool false)) as use_smrt.
  generalize (dict_get data "smrt_vpi" VNone) as vpi.
  generalize (dict_get data "smrt_vci" VNone) as vci.
  intros vci vpi use_smrt smrt_vlan.
  generalize (if py_bool use_smrt && negb (py_bool smrt_vlan)
              then VStr "848" else smrt_vlan) as vlan.
  intros vlan.
  generalize (if py_bool use_smrt then "eth2" +:+ "." +:+ py_str vlan else "eth2")
    as wan_ifname.
  generalize (py_str vlan +:+ " " +:+ py_str vpi +:+ " " +:+ py_str vci) as connection.
  generalize (py_bool vpi && py_bool vci) as has_vpi_vci.
  generalize (py_bool use_smrt) as uses_smrt.
  intros uses_smrt has_vpi_vci connection wan_ifname.
  assert (Hif : exists v,
    (if truth (find_child nuci_config "uci.ucollect.@interface[0]")
     then attr_name (find_child nuci_config "uci.ucollect.@interface[0]")
     else ret VNone) = (ret v : M CbState PyVal)).
  { destruct (find_child nuci_config "uci.ucollect.@interface[0]") as [t|] eqn:Hf.
    - destruct (find_ucollect_interface0 _ _ Hf) as (n & a & op & cs & ->).
      destruct (truth _); eauto.
    - eauto. }
  destruct Hif as (ifname & ->).
  unfold getitem. abstract_data data.
  rewrite Hproto, Hip, Hnm, Hgw, Hcm. run_cb.
  destruct (py_is_True custom_mac) eqn:Ecm.
  - destruct (Hmac' eq_refl) as [macaddr ->].
    destruct has_smrtd; [destruct has_vpi_vci; [|destruct uses_smrt]|];
      finish_cb; eexists _, _, _, _, _;
      (split; [reflexivity|]); (split; [reflexivity|]); (split; [reflexivity|]);
      (split; [eauto|]); repeat constructor; eauto.
  - destruct has_smrtd; [destruct has_vpi_vci; [|destruct uses_smrt]|];
      finish_cb; eexists _, _, _, _, _;
      (split; [reflexivity|]); (split; [reflexivity|]); (split; [reflexivity|]);
      (split; [eauto|]); repeat constructor; eauto.
Qed.

(** ** UpdaterHandler *)

Lemma bind_eval {S A B} (m : M S A) (k : A -> M S B) (s s' : S) (a : A) :
  m s = (Ok a, s') -> bind m k s = k a s'.
Proof. intros H. unfold bind. by rewrite H. Qed.

Lemma startswith_drop (p s : string) :
  Str.startswith p s = true -> s = p +:+ Str.drop (String.length p) s.
Proof.
  revert s. induction p as [|a p IH]; intros s H; [reflexivity|].
  destruct s as [|b s]; [discriminate|]. simpl in H.
  destruct (Ascii.eqb a b) eqn:E; [|discriminate].
  apply Ascii.eqb_eq in E as ->. simpl.
  change (String b p +:+ ?x) with (String b (p +:+ x)). f_equal. by apply IH.
Qed.

Lemma startswith_app (p r : string) : Str.startswith p (p +:+ r) = true.
Proof.
  induction p as [|a p IH]; [reflexivity|].
  change (String a p +:+ r) with (String a (p +:+ r)).
  simpl. by rewrite Ascii.eqb_refl.
Qed.

Lemma value_objs_length (i : Z) (names : list string) :
  length (value_objs i names) = length names.
Proof. revert i. induction names as [|n names IH]; intros i; simpl; auto. Qed.

Lemma value_objs_snoc (i : Z) (names : list string) (n : string) :
  value_objs i (names ++ [n]) =
  value_objs i names ++ [mkObj (KValue (i + Z.of_nat (length names)) n) None []].
Proof.
  revert i. induction names as [|m names IH]; intros i.
  - simpl. by rewrite Z.add_0_r.
  - change (value_objs i ((m :: names) ++ [n]))
      with (mkObj (KValue i m) None [] :: value_objs (i + 1) (names ++ [n])).
    rewrite IH.
    change (length (m :: names)) with (S (length names)).
    rewrite Nat2Z.inj_succ.
    replace (i + 1 + Z.of_nat (length names))%Z
      with (i + Z.succ (Z.of_nat (length names)))%Z by lia.
    reflexivity.
Qed.

(** One more selected name: the new [Value] goes to the end of the heap
    and of the children of [lists]. *)
Lemma lists_heap_snoc (names : list string) (n : string) :
  append_child 3 (length (lists_heap names))
    (lists_heap names ++ [mkObj (KValue (Z.of_nat (length names)) n) None []]) =
  lists_heap (names ++ [n]).
Proof.
  unfold lists_heap, append_child. simpl.
  rewrite value_objs_length, value_objs_snoc, length_app. simpl.
  do 4 f_equal. rewrite Nat.add_1_r, seq_S. simpl. reflexivity.
Qed.

Lemma selected_lists_cons (k : string) (v : PyVal) (items : list (string * PyVal)) :
  selected_lists ((k, v) :: items) =
  if py_bool v && Str.startswith "install_" k
  then Str.drop 8 k :: selected_lists items
  else selected_lists items.
Proof.
  unfold selected_lists. cbn [List.filter]. unfold is_selected at 1. cbn [fst snd].
  destruct (py_bool v && Str.startswith "install_" k); reflexivity.
Qed.

(** The loop of [package_lists_form_cb]. *)
Lemma package_lists_loop (items : list (string * PyVal)) (names : list string) (w : World) :
  for_fold items (Z.of_nat (length names))
    (fun i '(k, v) =>
       if py_bool v && Str.startswith "install_" k then
         add_new 3 (new_Value i (Str.drop 8 k)) >>
         ret (i + 1)%Z
       else ret i)
    (mkCbState (lists_heap names) w) =
  (Ok (Z.of_nat (length (names ++ selected_lists items))),
   mkCbState (lists_heap (names ++ selected_lists items)) w).
Proof.
  revert names. induction items as [|[k v] items IH]; intros names.
  - change (selected_lists []) with (@nil string). by rewrite app_nil_r.
  - rewrite selected_lists_cons.
    change (for_fold ((k, v) :: items) ?a ?b)
      with (bind (b a (k, v)) (fun acc' => for_fold items acc' b)).
    cbv beta iota.
    destruct (py_bool v && Str.startswith "install_" k).
    + unfold bind at 1, bind at 1, add_new, bind at 1, new_Value, new, alloc, add,
        modify, ret, on_heap.
      cbv beta iota zeta.
      change (cs_heap (mkCbState ?h ?x)) with h.
      change (cs_world (mkCbState ?h ?x)) with x.
      rewrite lists_heap_snoc.
      replace (Z.of_nat (length names) + 1)%Z
        with (Z.of_nat (length (names ++ [Str.drop 8 k])))
        by (rewrite length_app; simpl; lia).
      rewrite IH. by rewrite <- app_assoc.
    + unfold bind at 1, ret at 1. cbv beta iota. apply IH.
Qed.

(** Reading the [Value] objects back. *)
Lemma reify_value_objs (fuel : nat) (pre : Heap) (i : Z) (names : list string) :
  mapM (reify (S fuel) (pre ++ value_objs i names)) (seq (length pre) (length names)) =
  Some (value_trees i names).
Proof.
  revert pre i. induction names as [|n names IH]; intros pre i; [reflexivity|].
  simpl. rewrite list_lookup_middle by reflexivity. simpl.
  replace (pre ++ mkObj (KValue i n) None [] :: value_objs (i + 1) names)
    with ((pre ++ [mkObj (KValue i n) None []]) ++ value_objs (i + 1) names)
    by (by rewrite <- app_assoc).
  specialize (IH (pre ++ [mkObj (KValue i n) None []]) (i + 1)%Z).
  rewrite length_app, Nat.add_1_r in IH. simpl in IH. by rewrite IH.
Qed.

(** The patch read off the final heap. *)
Lemma lists_heap_patch (op : Operation) (names : list string) :
  let h := append_child 2 3 (set_operation 3 op (lists_heap names)) in
  reify (S (length h)) h 0 = Some (updater_patch op names).
Proof.
  unfold lists_heap, append_child, set_operation. simpl.
  rewrite value_objs_length.
  pose proof (reify_value_objs (length names)
    [mkObj KUci None [1];
     mkObj (KConfig "updater") None [2];
     mkObj (KSection (VStr "pkglists") "pkglists" false) None [3];
     mkObj (KList "lists") (Some op) (seq 4 (length names))] 0 names) as Hv.
  simpl in Hv. by rewrite Hv.
Qed.

Lemma selected_lists_elem (data : Data) (name : string) :
  name ∈ selected_lists (iteritems data) <->
  exists v, data !! ("install_" +:+ name) = Some v /\ py_bool v = true.
Proof.
  unfold selected_lists, iteritems. rewrite list_elem_of_fmap. split.
  - intros [[k v] [-> Hin]].
    apply list_elem_of_In, filter_In in Hin as [Hin Hsel].
    apply andb_prop in Hsel as [Hb Hk]. cbn [fst snd] in Hb, Hk.
    apply startswith_drop in Hk.
    apply list_elem_of_In, elem_of_map_to_list in Hin.
    exists v. split; [|done]. cbn [fst snd].
    change (String.length "install_") with 8 in Hk.
    by rewrite <- Hk.
  - intros [v [Hl Hb]]. exists ("install_" +:+ name, v). split; [reflexivity|].
    apply list_elem_of_In, filter_In. split.
    + by apply list_elem_of_In, elem_of_map_to_list.
    + unfold is_selected. cbn [fst snd]. by rewrite Hb, startswith_app.
Qed.

Lemma selected_lists_NoDup (data : Data) : NoDup (selected_lists (iteritems data)).
Proof.
  unfold selected_lists, iteritems. apply NoDup_fmap_2_strong.
  - intros [k1 v1] [k2 v2] H1 H2 Heq. cbn [fst snd] in Heq.
    apply list_elem_of_In, filter_In in H1 as [H1 S1].
    apply list_elem_of_In, filter_In in H2 as [H2 S2].
    apply andb_prop in S1 as [_ S1]. apply andb_prop in S2 as [_ S2].
    apply startswith_drop in S1, S2. cbn [fst snd] in S1, S2.
    change (String.length "install_") with 8 in S1, S2.
    assert (k1 = k2) as -> by congruence.
    apply list_elem_of_In, elem_of_map_to_list in H1, H2. congruence.
  - apply NoDup_ListNoDup, List.NoDup_filter, NoDup_ListNoDup, NoDup_map_to_list.
Qed.

(** C2.  The callback always returns an ["edit_config"] patch whose only
    operation is on the list [lists] of section [pkglists] of config
    [updater].  The names are exactly those whose [install_*] field is
    checked, each once, numbered from 0; with at least one name the whole
    list is replaced by them, with none the list is removed.  No option
    [lists] is ever set. *)
Theorem package_lists_patch (data : Data) (w : World) :
  exists payload s' names,
    package_lists_form_cb data (mkCbState [] w) = (Ok ("edit_config", payload), s') /\
    cs_world s' = w /\
    patch_view payload =
      Some (updater_patch (match names with [] => OpRemove | _ => OpReplace end) names) /\
    (forall name,
       name ∈ names <->
       exists v, data !! ("install_" +:+ name) = Some v /\ py_bool v = true) /\
    NoDup names /\
    ("lists" ∉ option_names
                 (updater_patch (match names with [] => OpRemove | _ => OpReplace end) names)).
Proof.
  pose (names := selected_lists (iteritems data)).
  pose (op := match names with [] => OpRemove | _ => OpReplace end).
  pose (h := append_child 2 3 (set_operation 3 op (lists_heap names))).
  exists (PPatch h 0), (mkCbState h w), names.
  split; [|split; [reflexivity|split; [apply lists_heap_patch|split;
    [apply selected_lists_elem|split; [apply selected_lists_NoDup|]]]]].
  - unfold package_lists_form_cb.
    do 6 (erewrite bind_eval by reflexivity; cbv beta).
    erewrite bind_eval by apply (package_lists_loop (iteritems data) [] w).
    cbv beta. change ([] ++ selected_lists (iteritems data)) with names.
    subst h op. destruct names; reflexivity.
  - unfold updater_patch. cbn [option_names fmap list_fmap concat app].
    assert (Hv : forall i l, concat (option_names <$> value_trees i l) = []).
    { intros i l. revert i. induction l as [|n l IH]; intros i; [reflexivity|].
      simpl. apply IH. }
    rewrite Hv. simpl. apply not_elem_of_nil.
Qed.

(** ** The forms the handlers build *)

(** C7 (the docstring of [get_form] asks for a single-section form).  The
    form of NotificationsHandler has three sections, whatever was submitted
    and whatever the backend holds. *)
Theorem notifications_form_has_three_sections (data : option Data) (w : World) :
  exists f,
    get_form (new_handler NotificationsHandler data false) w = Ok (Some f) /\
    sec_name <$> form_sections f = ["notifications"; "smtp"; "reboot"] /\
    length (form_sections f) = 3.
Proof.
  unfold get_form, new_handler, h_class, h_data, notifications_get_form.
  run_form. eexists. split; [reflexivity|]. split; reflexivity.
Qed.

(** Adding the check-boxes of the package lists changes neither the
    number of sections nor the callbacks. *)
Lemma add_fields_loop (pkg_list : list PkgItem) (sec : nat) (f : Form) :
  exists f',
    for_each pkg_list
      (fun pkg_list_item =>
         add_field sec WCheckbox ("install_" +:+ pkg_name pkg_list_item)
           [nuci_path "uci.updater.pkglists.lists"] >> ret tt) f = (Ok tt, f') /\
    length (form_sections f') = length (form_sections f) /\
    form_callbacks f' = form_callbacks f.
Proof.
  revert f. induction pkg_list as [|item pkg_list IH]; intros f.
  - exists f. repeat split.
  - change (for_each (item :: pkg_list) ?body)
      with (bind (body item) (fun _ => for_each pkg_list body)).
    cbv beta.
    erewrite bind_eval by reflexivity.
    match goal with
    | |- context [for_each pkg_list _ ?f1] => destruct (IH f1) as (f' & Hrun & Hlen & Hcb)
    end.
    exists f'. split; [exact Hrun|]. split.
    + rewrite Hlen. unfold on_section. cbn [form_sections]. apply length_alter.
    + rewrite Hcb. reflexivity.
Qed.

(** Every form a handler builds has one section, three for
    NotificationsHandler, and one callback, followed by the updater run for
    UpdaterHandler. *)
Lemma get_form_shape (h : Handler) (w : World) (f : Form) :
  get_form h w = Ok (Some f) ->
  length (form_sections f) =
    match h_class h with NotificationsHandler => 3 | _ => 1 end /\
  exists cb,
    form_callbacks f =
      match h_class h with
      | UpdaterHandler =>
          [cb; as_callback "package_lists_run_updater_cb" package_lists_run_updater_cb]
      | _ => [cb]
      end.
Proof.
  destruct h as [c data change cache].
  unfold get_form. cbn [h_class h_data h_change].
  destruct c.
  - intros ?; discriminate.
  - unfold password_get_form. destruct change; run_form;
      intros [= <-]; (split; [reflexivity|eexists; reflexivity]).
  - unfold wan_get_form. cbv zeta.
    generalize (bool_decide (is_Some (find_child
      (form_nuci_config
         (ForisForm "wan" data (create_config_filter ["network"; "smrtd"; "ucollect"]) w))
      "uci.smrtd"))).
    intros [|]; run_form; intros [= <-]; (split; [reflexivity|eexists; reflexivity]).
  - unfold dns_get_form. run_form.
    intros [= <-]; (split; [reflexivity|eexists; reflexivity]).
  - unfold time_get_form. run_form.
    intros [= <-]; (split; [reflexivity|eexists; reflexivity]).
  - unfold lan_get_form. run_form.
    intros [= <-]; (split; [reflexivity|eexists; reflexivity]).
  - unfold wifi_get_form.
    destruct (w_stats w) as [cards|]; [|intros ?; discriminate].
    destruct (length cards <? 1)%nat; [intros ?; discriminate|].
    destruct (split_channels _ _ _) as [c2 c5]. cbv zeta.
    destruct (1 <? length c2)%nat, (1 <? length c5)%nat; run_form;
      intros [= <-]; (split; [reflexivity|eexists; reflexivity]).
  - unfold system_password_get_form. run_form.
    intros [= <-]; (split; [reflexivity|eexists; reflexivity]).
  - unfold maintenance_get_form. run_form.
    intros [= <-]; (split; [reflexivity|eexists; reflexivity]).
  - unfold notifications_get_form. run_form.
    intros [= <-]; (split; [reflexivity|eexists; reflexivity]).
  - unfold updater_get_form.
    destruct (w_updater w) as [pkg_list|]; [|intros ?; discriminate].
    cbv zeta. unfold build.
    erewrite bind_eval by reflexivity. cbv beta.
    match goal with
    | |- context [bind (for_each pkg_list _) _ ?f1] =>
        destruct (add_fields_loop pkg_list 0 f1) as (f' & Hrun & Hlen & Hcb)
    end.
    erewrite bind_eval by exact Hrun. cbv beta.
    unfold bind, modify. cbv beta iota.
    intros [= <-]. unfold add_callback. cbn [form_sections form_callbacks].
    rewrite Hlen, Hcb. split; [reflexivity|eexists; reflexivity].
  - unfold ucollect_get_form. run_form.
    intros [= <-]; (split; [reflexivity|eexists; reflexivity]).
Qed.

(** C10.  With no wireless card in the stats, [get_form] of WifiHandler
    returns [None]: no form, hence no section and no callback.  With at
    least one card it returns a form, with its section and its callback. *)
Theorem wifi_get_form_needs_card (data : option Data) (w : World) (cards : list Card) :
  w_stats w = Some cards ->
  ((length cards < 1)%nat -> wifi_get_form data w = Ok None) /\
  ((1 <= length cards)%nat ->
   exists f,
     wifi_get_form data w = Ok (Some f) /\
     sec_name <$> form_sections f = ["set_wifi"] /\
     cb_name <$> form_callbacks f = ["wifi_form_cb"]).
Proof.
  intros Hs. unfold wifi_get_form. rewrite Hs. split; intros Hl.
  - by rewrite (proj2 (Nat.ltb_lt _ _) Hl).
  - rewrite (proj2 (Nat.ltb_ge _ _) Hl).
    destruct (split_channels _ _ _) as [c2 c5]. cbv zeta.
    destruct (1 <? length c2)%nat, (1 <? length c5)%nat; run_form;
      eexists; (split; [reflexivity|split; reflexivity]).
Qed.

(** ** Running the callbacks *)

Lemma process_callbacks_length (cbs : list Callback) (data : Data) (w : World) :
  (length (fst (process_callbacks cbs data w)) <= length cbs)%nat.
Proof.
  revert w. induction cbs as [|cb cbs IH]; intros w; [reflexivity|].
  cbn [process_callbacks].
  destruct (cb_run cb data w) as [[[action payload]|e] w1].
  - match goal with
    | |- context [process_callbacks cbs data ?w2] =>
        specialize (IH w2); destruct (process_callbacks cbs data w2) as [trace w3]
    end.
    cbn [fst length] in *. lia.
  - cbn [fst length]. lia.
Qed.

Lemma edit_configs_le_length (trace : list (string * outcome CbResult)) :
  (edit_configs trace <= length trace)%nat.
Proof. unfold edit_configs. apply List.filter_length_le. Qed.

(** C8.  Whatever form a handler builds and whatever data its callbacks
    are given, at most one of the registered callbacks returns
    ["edit_config"]: two positions whose callbacks both do are the same
    position. *)
Theorem at_most_one_edit_config (h : Handler) (w : World) (f : Form) :
  get_form h w = Ok (Some f) ->
  forall (data : Data) (i j : nat) (cb_i cb_j : Callback) (w_i w_j : World),
    form_callbacks f !! i = Some cb_i ->
    form_callbacks f !! j = Some cb_j ->
    returns_edit_config cb_i data w_i = true ->
    returns_edit_config cb_j data w_j = true ->
    i = j.
Proof.
  intros Hf data i j cb_i cb_j w_i w_j Hi Hj Ri Rj.
  destruct (get_form_shape h w f Hf) as (_ & cb & Hcb). rewrite Hcb in Hi, Hj.
  assert (Hone : forall (n : nat) (c : Callback), [cb] !! n = Some c -> n = 0%nat).
  { intros [|n] c Hn; [reflexivity|]. destruct n; discriminate. }
  destruct (h_class h); try (rewrite (Hone i cb_i Hi), (Hone j cb_j Hj); reflexivity).
  assert (Htwo : forall (n : nat) (c : Callback) (w0 : World),
    [cb; as_callback "package_lists_run_updater_cb" package_lists_run_updater_cb] !! n
      = Some c ->
    returns_edit_config c data w0 = true -> n = 0%nat).
  { intros [|[|n]] c w0 Hn Hr; [reflexivity| |destruct n; discriminate].
    injection Hn as <-. discriminate Hr. }
  by rewrite (Htwo i cb_i w_i Hi Ri), (Htwo j cb_j w_j Hj Rj).
Qed.

(** Hence a run of the callbacks of a form submits at most one patch. *)
Lemma at_most_one_patch_submitted (h : Handler) (w : World) (f : Form) :
  get_form h w = Ok (Some f) ->
  forall (data : Data) (w' : World),
    (edit_configs (fst (process_callbacks (form_callbacks f) data w')) <= 1)%nat.
Proof.
  intros Hf data w'.
  destruct (get_form_shape h w f Hf) as (_ & cb & Hcb). rewrite Hcb.
  assert (Hone : (edit_configs (fst (process_callbacks [cb] data w')) <= 1)%nat).
  { etrans; [apply edit_configs_le_length|]. apply (process_callbacks_length [cb]). }
  destruct (h_class h); try exact Hone.
  cbn [process_callbacks].
  destruct (cb_run cb data w') as [[[action payload]|e] w1]; [|cbn; lia].
  cbn [cb_run as_callback].
  unfold package_lists_run_updater_cb, edit_configs, is_edit_config.
  cbn. destruct (String.eqb action "edit_config"); cbn; lia.
Qed.

(** What the second callback of UpdaterHandler does: it asks for an update
    check and returns ["none"]. *)
Lemma package_lists_run_updater_none (data : Data) (w : World) :
  cb_run (as_callback "package_lists_run_updater_cb" package_lists_run_updater_cb) data w =
  (Ok ("none", PNone), emit EvCheckUpdates w).
Proof. reflexivity. Qed.

(** The callbacks are called first to last; a run stops at the first
    exception. *)
Lemma process_callbacks_order (cbs : list Callback) (data : Data) (w : World) :
  fst <$> fst (process_callbacks cbs data w) `prefix_of` cb_name <$> cbs.
Proof.
  revert w. induction cbs as [|cb cbs IH]; intros w; [reflexivity|].
  cbn [process_callbacks].
  destruct (cb_run cb data w) as [[[action payload]|e] w1].
  - match goal with
    | |- context [process_callbacks cbs data ?w2] =>
        specialize (IH w2); destruct (process_callbacks cbs data w2) as [trace w3]
    end.
    cbn [fst fmap list_fmap] in *. by apply prefix_cons.
  - cbn [fst fmap list_fmap]. apply prefix_cons, prefix_nil.
Qed.

Lemma process_callbacks_complete (cbs : list Callback) (data : Data) (w : World) :
  raised (fst (process_callbacks cbs data w)) = None ->
  fst <$> fst (process_callbacks cbs data w) = cb_name <$> cbs /\
  Forall (fun entry => returned entry = true) (fst (process_callbacks cbs data w)).
Proof.
  revert w. induction cbs as [|cb cbs IH]; intros w.
  - intros _. split; [reflexivity|constructor].
  - cbn [process_callbacks].
    destruct (cb_run cb data w) as [[[action payload]|e] w1].
    + match goal with
      | |- context [process_callbacks cbs data ?w2] =>
          specialize (IH w2); destruct (process_callbacks cbs data w2) as [trace w3]
      end.
      cbn [fst raised fmap list_fmap] in *. intros Hr.
      destruct (IH Hr) as [Hn Ha]. split; [by rewrite Hn|by constructor].
    + cbn [fst raised]. intros ?; discriminate.
Qed.

Lemma add_callbacks_callbacks (l : list Callback) (f : Form) :
  form_callbacks (foldl (fun f cb => add_callback cb f) f l) = form_callbacks f ++ l /\
  form_valid (foldl (fun f cb => add_callback cb f) f l) = form_valid f.
Proof.
  revert f. induction l as [|cb l IH]; intros f.
  - cbn [foldl]. by rewrite app_nil_r.
  - cbn [foldl]. destruct (IH (add_callback cb f)) as [-> ->].
    unfold add_callback. cbn [form_callbacks form_valid].
    by rewrite <- app_assoc.
Qed.

(** What a run records at a position: the callback registered at that
    position, with what it returned or raised on the data and the backend
    as the callbacks before it left it. *)
Lemma process_callbacks_entries (cbs : list Callback) (data : Data) (w : World)
    (i : nat) (entry : string * outcome CbResult) :
  fst (process_callbacks cbs data w) !! i = Some entry ->
  exists cb w_i,
    cbs !! i = Some cb /\
    entry = (cb_name cb, fst (cb_run cb data w_i)) /\
    (i = 0%nat -> w_i = w).
Proof.
  revert w i. induction cbs as [|cb cbs IH]; intros w i; [intros [=]|].
  cbn [process_callbacks].
  destruct (cb_run cb data w) as [[[action payload]|e] w1] eqn:Hrun.
  - match goal with
    | |- context [process_callbacks cbs data ?w2] =>
        specialize (IH w2); destruct (process_callbacks cbs data w2) as [trace w3]
    end.
    cbn [fst] in *. destruct i as [|i].
    + intros [= <-]. exists cb, w. rewrite Hrun. by repeat split.
    + intros Hl. destruct (IH i Hl) as (cb' & w' & Hcb & He & _).
      exists cb', w'. repeat split; [exact Hcb|exact He|intros [=]].
  - cbn [fst]. destruct i as [|i]; [|intros [=]].
    intros [= <-]. exists cb, w. rewrite Hrun. by repeat split.
Qed.

Lemma add_callbacks_data (l : list Callback) (f : Form) :
  validated_data (foldl (fun f cb => add_callback cb f) (validate f) l) = validated_data f.
Proof.
  assert (H : forall l g, validated_data (foldl (fun f cb => add_callback cb f) g l) =
                          validated_data g).
  { clear. induction l as [|cb l IH]; intros g; [reflexivity|].
    cbn [foldl]. by rewrite IH. }
  by rewrite H.
Qed.

(** C1.  [save] calls callbacks only when the validated form is valid.
    When it is not, [save] returns [False], no callback has been called and
    the backend is untouched.  When it is, what [save] leaves behind is the
    run of the registered callbacks (those of the form, then the extra
    ones) on the validated data against the backend: every recorded call is
    the callback registered at that position with the result of running it,
    the first one on the backend as [save] found it, and the backend is as
    the run left it.  The callbacks are called first to last; [save] returns
    [True] after all of them returned, and otherwise propagates the
    exception of the callback at which the run stopped. *)
Theorem save_calls_callbacks_only_when_valid (h : Handler)
    (extra_callbacks : option (list Callback)) (w : World) (f : Form) :
  fst (form h w) = Ok (Some f) ->
  let saved := save h extra_callbacks w in
  let registered := form_callbacks f ++ default [] extra_callbacks in
  let data := validated_data f in
  (form_valid (validate f) = false ->
   sv_return saved = Ok false /\ sv_called saved = [] /\ sv_world saved = w) /\
  (form_valid (validate f) = true ->
   (sv_called saved, sv_world saved) = process_callbacks registered data w /\
   (forall i entry,
      sv_called saved !! i = Some entry ->
      exists cb w_i,
        registered !! i = Some cb /\
        entry = (cb_name cb, fst (cb_run cb data w_i)) /\
        (i = 0%nat -> w_i = w)) /\
   fst <$> sv_called saved `prefix_of` cb_name <$> registered /\
   (sv_return saved = Ok true \/
    exists e, sv_return saved = Raise e /\ raised (sv_called saved) = Some e) /\
   (sv_return saved = Ok true ->
    fst <$> sv_called saved = cb_name <$> registered /\
    Forall (fun entry => returned entry = true) (sv_called saved))).
Proof.
  intros Hf saved registered data. subst saved. unfold save.
  destruct (form h w) as [o h']. cbn [fst] in Hf. subst o.
  set (f2 := match extra_callbacks with
             | Some (cb :: cbs) => foldl (fun f cb => add_callback cb f) (validate f) (cb :: cbs)
             | _ => validate f
             end).
  assert (Hf2 : form_callbacks f2 = registered /\ form_valid f2 = form_valid (validate f)).
  { subst f2 registered. destruct extra_callbacks as [[|cb cbs]|].
    - cbn [default]. by rewrite app_nil_r.
    - destruct (add_callbacks_callbacks (cb :: cbs) (validate f)) as [-> ->].
      split; reflexivity.
    - cbn [default]. by rewrite app_nil_r. }
  assert (Hvd : validated_data f2 = data).
  { subst f2 data. destruct extra_callbacks as [[|cb cbs]|]; try reflexivity.
    apply add_callbacks_data. }
  destruct Hf2 as [Hcbs Hvalid]. rewrite Hvalid. split; intros Hv; rewrite Hv.
  - by repeat split.
  - unfold form_save. rewrite Hcbs, Hvd.
    pose proof (process_callbacks_order registered data w) as Hord.
    pose proof (process_callbacks_complete registered data w) as Hall.
    pose proof (process_callbacks_entries registered data w) as Hent.
    destruct (process_callbacks registered data w) as [trace w1].
    cbn [fst] in *.
    destruct (raised trace) as [e|] eqn:Hr; cbn [sv_return sv_called sv_world].
    + split; [reflexivity|]. split; [exact Hent|].
      split; [exact Hord|]. split; [right; eauto|]. intros ?; discriminate.
    + split; [reflexivity|]. split; [exact Hent|].
      split; [exact Hord|]. split; [by left|]. intros _. by apply Hall.
Qed.
(** * Further properties of the callbacks *)

(** ** Callbacks that only build a patch *)

Lemma leaves_ret {A} (a : A) : leaves_backend (ret a).
Proof. intros s. reflexivity. Qed.

Lemma leaves_raise {A} (e : exn) : leaves_backend (@raise CbState A e).
Proof. intros s. reflexivity. Qed.

Lemma leaves_bind {A B} (m : M CbState A) (k : A -> M CbState B) :
  leaves_backend m -> (forall a, leaves_backend (k a)) -> leaves_backend (bind m k).
Proof.
  intros Hm Hk s. unfold bind. specialize (Hm s).
  destruct (m s) as [[a|e] s1]; cbn [snd] in *.
  - by rewrite Hk.
  - exact Hm.
Qed.

Lemma leaves_new (k : NodeKind) : leaves_backend (new k).
Proof. intros s. reflexivity. Qed.

Lemma leaves_on_heap (f : Heap -> Heap) : leaves_backend (modify (on_heap f)).
Proof. intros s. reflexivity. Qed.

Lemma leaves_getitem (data : Data) (k : string) : leaves_backend (getitem data k).
Proof. unfold getitem. destruct (data !! k); [apply leaves_ret|apply leaves_raise]. Qed.

Lemma leaves_return_patch (action : string) (root : nat) :
  leaves_backend (return_patch action root).
Proof. intros s. reflexivity. Qed.

Lemma leaves_for_each {A} (l : list A) (body : A -> M CbState unit) :
  (forall x, leaves_backend (body x)) -> leaves_backend (for_each l body).
Proof.
  intros Hb. induction l as [|x l IH]; [apply leaves_ret|].
  cbn [for_each]. apply leaves_bind; [apply Hb|intros _; exact IH].
Qed.

Lemma leaves_for_fold {A B} (l : list A) (acc : B) (body : B -> A -> M CbState B) :
  (forall b x, leaves_backend (body b x)) -> leaves_backend (for_fold l acc body).
Proof.
  intros Hb. revert acc. induction l as [|x l IH]; intros acc; [apply leaves_ret|].
  cbn [for_fold]. apply leaves_bind; [apply Hb|intros acc'; apply IH].
Qed.

(** Decompose a callback into the steps above. *)
Ltac leaves_step :=
  first
    [ apply leaves_ret
    | apply leaves_raise
    | apply leaves_new
    | apply leaves_on_heap
    | apply leaves_getitem
    | apply leaves_return_patch
    | apply leaves_bind; [|intros ?]
    | apply leaves_for_each; intros ?
    | apply leaves_for_fold; intros ? ?
    | match goal with
      | |- leaves_backend (if ?b then _ else _) => destruct b
      | |- leaves_backend (match ?x with _ => _ end) => destruct x
      | |- leaves_backend (let _ := _ in _) => cbv zeta
      end ].

Ltac leaves_all :=
  unfold add_new, add_removal_new, add, add_removal, add_replace, when,
    new_Uci, new_Config, new_Section, new_Option, new_List, new_Value,
    join_vals, str_add, py_in, py_split_space, attr_name, lift_outcome;
  repeat leaves_step.

(** X1.  The callbacks that build a patch out of the submitted data never
    call the backend: on any data, whether they return a patch or raise,
    the backend is as before. *)
Theorem patch_callbacks_leave_backend (data : Data) :
  (forall has_smrtd nuci_config, leaves_backend (wan_form_cb has_smrtd nuci_config data)) /\
  leaves_backend (dns_form_cb data) /\
  leaves_backend (lan_form_cb data) /\
  leaves_backend (wifi_form_cb data) /\
  leaves_backend (notifications_form_cb data) /\
  leaves_backend (package_lists_form_cb data) /\
  (forall nuci_config, leaves_backend (ucollect_form_cb nuci_config data)).
Proof.
  repeat split; intros.
  - unfold wan_form_cb. leaves_all.
  - unfold dns_form_cb. leaves_all.
  - unfold lan_form_cb. leaves_all.
  - unfold wifi_form_cb. leaves_all.
  - unfold notifications_form_cb. leaves_all.
  - unfold package_lists_form_cb. leaves_all.
  - unfold ucollect_form_cb. leaves_all.
    unfold SERVICES_OPTIONS. cbn [not_in_filter]. leaves_all.
Qed.

(** ** LanHandler *)

(** X2.  The LAN callback always replaces the DHCP option list by the one
    entry ["6,<router address>"] and sets the router address; with DHCP
    enabled it sets [ignore] to ["0"] with the submitted start and limit,
    with DHCP disabled it sets [ignore] to ["1"] and leaves start and limit
    alone. *)
Theorem lan_form_cb_patch (data : Data) (w : World) (ip : string) (dhcp_enabled : PyVal) :
  data !! "lan_ipaddr" = Some (VStr ip) ->
  data !! "dhcp_enabled" = Some dhcp_enabled ->
  (py_bool dhcp_enabled = true ->
   forall dhcp_min dhcp_max,
     data !! "dhcp_min" = Some dhcp_min ->
     data !! "dhcp_max" = Some dhcp_max ->
     exists payload s',
       lan_form_cb data (mkCbState [] w) = (Ok ("edit_config", payload), s') /\
       patch_view payload =
         Some (lan_patch ip [UNode (KOption "ignore" (VStr "0")) None [];
                             UNode (KOption "start" dhcp_min) None [];
                             UNode (KOption "limit" dhcp_max) None []])) /\
  (py_bool dhcp_enabled = false ->
   exists payload s',
     lan_form_cb data (mkCbState [] w) = (Ok ("edit_config", payload), s') /\
     patch_view payload =
       Some (lan_patch ip [UNode (KOption "ignore" (VStr "1")) None []])).
Proof.
  intros Hip Hen. split.
  - intros Hb dhcp_min dhcp_max Hmin Hmax. unfold lan_form_cb, getitem.
    abstract_data data. rewrite Hip, Hen, Hmin, Hmax. run_cb. rewrite Hb. finish_cb.
    eexists _, _. split; reflexivity.
  - intros Hb. unfold lan_form_cb, getitem.
    abstract_data data. rewrite Hip, Hen. run_cb. rewrite Hb. finish_cb.
    eexists _, _. split; reflexivity.
Qed.

(** X3.  The LAN callback needs the router address as a string: without the
    field it raises [KeyError], with a value that is not a string it raises
    [TypeError]; either way no patch is returned. *)
Theorem lan_form_cb_needs_address (data : Data) (w : World) :
  (data !! "lan_ipaddr" = None ->
   fst (lan_form_cb data (mkCbState [] w)) = Raise (KeyError "lan_ipaddr")) /\
  (forall v,
     data !! "lan_ipaddr" = Some v ->
     (forall s, v <> VStr s) ->
     exists what, fst (lan_form_cb data (mkCbState [] w)) = Raise (TypeError what)).
Proof.
  split.
  - intros Hip. unfold lan_form_cb, getitem. abstract_data data. rewrite Hip.
    reflexivity.
  - intros v Hip Hv. unfold lan_form_cb, getitem. abstract_data data. rewrite Hip.
    destruct v as [|b|z|s|l|c]; try (eexists; reflexivity).
    by destruct (Hv s).
Qed.

(** ** DNSHandler *)

(** X4.  The DNS callback sets [forward_upstream] of section [server] of
    config [unbound] to whatever was submitted, unchanged; without the field
    it raises [KeyError]. *)
Theorem dns_form_cb_patch (data : Data) (w : World) :
  (forall v,
     data !! "forward_upstream" = Some v ->
     exists payload s',
       dns_form_cb data (mkCbState [] w) = (Ok ("edit_config", payload), s') /\
       patch_view payload = Some (dns_patch v)) /\
  (data !! "forward_upstream" = None ->
   fst (dns_form_cb data (mkCbState [] w)) = Raise (KeyError "forward_upstream")).
Proof.
  split.
  - intros v Hv. unfold dns_form_cb, getitem. abstract_data data. rewrite Hv.
    eexists _, _. split; reflexivity.
  - intros Hv. unfold dns_form_cb, getitem. abstract_data data. rewrite Hv.
    reflexivity.
Qed.

(** ** TimeHandler, SystemPasswordHandler, MaintenanceHandler *)

(** X5.  The time and the system password callbacks build no patch: each
    makes exactly one backend call, [set_time] with the submitted time and
    [set_password] for user [root] with the submitted password, and returns
    [("none", None)]. *)
Theorem side_effect_callbacks (data : Data) (w : World) (v : PyVal) :
  (data !! "time" = Some v ->
   time_form_cb data (mkCbState [] w) =
     (Ok ("none", PNone), mkCbState [] (emit (EvSetTime v) w))) /\
  (data !! "password" = Some v ->
   system_pw_form_cb data (mkCbState [] w) =
     (Ok ("none", PNone), mkCbState [] (emit (EvSetPassword "root" v) w))).
Proof.
  split; intros Hv.
  - unfold time_form_cb, getitem. abstract_data data. by rewrite Hv.
  - unfold system_pw_form_cb, getitem. abstract_data data. by rewrite Hv.
Qed.

(** X6.  The maintenance callback hands the uploaded file to
    [load_config_backup] and passes the answer through as [new_ip] of a
    ["save_result"]; a [backup_file] that is not an upload raises
    [AttributeError] before the backend is called. *)
Theorem maintenance_form_cb_result (data : Data) (w : World) (v : PyVal) :
  data !! "backup_file" = Some v ->
  (forall content,
     v = VFile content ->
     maintenance_form_cb data (mkCbState [] w) =
       (Ok ("save_result", PDict [("new_ip", w_restore w content)]),
        mkCbState [] (emit (EvLoadConfigBackup content) w))) /\
  ((forall content, v <> VFile content) ->
   maintenance_form_cb data (mkCbState [] w) =
     (Raise (AttributeError "file"), mkCbState [] w)).
Proof.
  intros Hv. unfold maintenance_form_cb, getitem. abstract_data data. rewrite Hv.
  split.
  - intros content ->. reflexivity.
  - intros Hn. destruct v as [|b|z|s|l|c]; try reflexivity. by destruct (Hn c).
Qed.

(** ** PasswordHandler, outside "change" mode *)

(** X7.  Outside "change" mode the callback never looks at the stored hash
    nor at [old_password]: it always returns the patch with the hash of the
    new password.  The system password is set, for user [root] and with the
    plain password, exactly when [set_system_pw] is [True] itself; any other
    value, truthy or not, leaves it alone. *)
Theorem pw_form_cb_first_password (data : Data) (w : World)
    (password : string) (set_system_pw : PyVal) :
  data !! "password" = Some (VStr password) ->
  data !! "set_system_pw" = Some set_system_pw ->
  exists payload s',
    pw_form_cb false data (mkCbState [] w) = (Ok ("edit_config", payload), s') /\
    patch_view payload = Some (password_patch (crypt_fresh password 1000 (w_seed w))) /\
    (set_system_pw = VBool true ->
     w_events (cs_world s') = w_events w ++ [EvSetPassword "root" (VStr password)]) /\
    (set_system_pw <> VBool true -> w_events (cs_world s') = w_events w).
Proof.
  intros Hp Hs.
  destruct (pw_form_cb_sets_password false data w password set_system_pw Hp Hs)
    as (payload & s' & Hrun & Hview & Hw).
  { intros ?; discriminate. }
  exists payload, s'. split; [exact Hrun|]. split; [exact Hview|]. rewrite Hw.
  split.
  - intros ->. reflexivity.
  - intros Hne. destruct set_system_pw as [|[]| | | |]; try reflexivity. by destruct Hne.
Qed.

(** ** WifiHandler, Wi-Fi switched on *)

(** X8.  With [wifi_enabled] truthy the patch enables both sections, sets
    SSID, visibility, the fixed encryption ["psk2+tkip+aes"] and the key
    in the wifi-iface section, and sets [htmode] and the channel in the
    device section; the channel is the 2.4 GHz choice if there is one, else
    the 5 GHz choice, else ["auto"], and [hwmode] is written only when a
    choice was submitted. *)
Theorem wifi_enabled_patch (data : Data) (w : World)
    (iface_section wifi_enabled ssid ssid_hidden key htmode : PyVal) :
  data !! "iface_section" = Some iface_section ->
  data !! "wifi_enabled" = Some wifi_enabled ->
  py_bool wifi_enabled = true ->
  data !! "ssid" = Some ssid ->
  data !! "ssid_hidden" = Some ssid_hidden ->
  data !! "key" = Some key ->
  data !! "htmode" = Some htmode ->
  exists payload s',
    wifi_form_cb data (mkCbState [] w) = (Ok ("edit_config", payload), s') /\
    patch_view payload =
      Some (wifi_enabled_tree iface_section ssid ssid_hidden key
              (if py_bool (dict_get data "hwmode" VNone)
               then [UNode (KOption "hwmode" (dict_get data "hwmode" VNone)) None []]
               else [])
              htmode (wifi_channel data)).
Proof.
  intros Hi He Hb Hs Hh Hk Hm.
  unfold wifi_form_cb, wifi_channel, getitem, dict_get.
  abstract_data data. rewrite Hi, He, Hs, Hh, Hk, Hm.
  destruct (get "channel2g4") as [c2|], (get "channel5g") as [c5|],
    (get "hwmode") as [hw|];
    run_cb; rewrite Hb;
    repeat match goal with
           | |- context [py_bool ?v] => is_var v; destruct (py_bool v) eqn:?
           end;
    finish_cb; eexists _, _; (split; reflexivity).
Qed.

(** ** NotificationsHandler, notifications switched off *)

(** X9.  With [enable_smtp] falsy the patch only records the switch and
    the reboot time and delay: no recipient list, no server settings and no
    notifications section are written. *)
Theorem notifications_off_patch (data : Data) (w : World)
    (enable_smtp reboot_time delay : PyVal) :
  data !! "enable_smtp" = Some enable_smtp ->
  py_bool enable_smtp = false ->
  data !! "reboot_time" = Some reboot_time ->
  data !! "delay" = Some delay ->
  exists payload s',
    notifications_form_cb data (mkCbState [] w) = (Ok ("edit_config", payload), s') /\
    patch_view payload = Some (notifications_off_tree enable_smtp reboot_time delay).
Proof.
  intros He Hb Hr Hd. unfold notifications_form_cb, getitem.
  abstract_data data. rewrite He, Hr, Hd. run_cb. rewrite Hb. finish_cb.
  eexists _, _. split; reflexivity.
Qed.

(** ** WanHandler: PPPoE, other protocols and Modem Turris *)

Lemma ucollect_interface_name_run (nuci_config : UciTree) :
  (if truth (find_child nuci_config "uci.ucollect.@interface[0]")
   then attr_name (find_child nuci_config "uci.ucollect.@interface[0]")
   else ret VNone) = (ret (ucollect_interface_name nuci_config) : M CbState PyVal).
Proof.
  unfold ucollect_interface_name.
  destruct (find_child nuci_config "uci.ucollect.@interface[0]") as [t|] eqn:Hf;
    [|reflexivity].
  destruct (find_ucollect_interface0 _ _ Hf) as (n & a & op & cs & ->).
  unfold truth. destruct (node_bool _); reflexivity.
Qed.

(** The PPPoE run of the callback, for every setting of the modem fields:
    [vlan] is the VLAN after the default has been filled in. *)
Lemma wan_form_cb_pppoe (has_smrtd : bool) (nuci_config : UciTree) (data : Data)
    (w : World) (custom_mac macaddr username password ppp_ipv6 : PyVal) :
  data !! "proto" = Some (VStr "pppoe") ->
  data !! "custom_mac" = Some custom_mac ->
  (custom_mac = VBool true -> data !! "macaddr" = Some macaddr) ->
  data !! "username" = Some username ->
  data !! "password" = Some password ->
  data !! "ppp_ipv6" = Some ppp_ipv6 ->
  let use_smrt := dict_get data "use_smrt" (VBool false) in
  let smrt_vlan := dict_get data "smrt_vlan" VNone in
  let vpi := dict_get data "smrt_vpi" VNone in
  let vci := dict_get data "smrt_vci" VNone in
  let vlan := if py_bool use_smrt && negb (py_bool smrt_vlan)
              then VStr "848" else smrt_vlan in
  exists payload s',
    wan_form_cb has_smrtd nuci_config data (mkCbState [] w)
      = (Ok ("edit_config", payload), s') /\
    patch_view payload =
      Some (UNode KUci None
        (wan_network_tree
           (wan_pppoe_options custom_mac macaddr username password ppp_ipv6 ++
            if has_smrtd
            then [UNode (KOption "ifname"
                    (VStr (if py_bool use_smrt then "eth2" +:+ "." +:+ py_str vlan
                           else "eth2"))) None []]
            else []) ::
         (if has_smrtd
          then [wan_smrtd_tree
                  (if py_bool vpi && py_bool vci
                   then [UNode (KList "connections") None
                           [UNode (KValue 1 (py_str vlan +:+ " " +:+ py_str vpi
                                             +:+ " " +:+ py_str vci)) None []]]
                   else if py_bool use_smrt
                        then [UNode (KList "connections") (Some OpRemove) []]
                        else [])
                  use_smrt]
          else []) ++
         [wan_ucollect_tree nuci_config "pppoe-wan"])).
Proof.
  intros Hproto Hcm Hmac Hu Hp Hi.
  assert (Hmac' : py_is_True custom_mac = true -> data !! "macaddr" = Some macaddr).
  { intros E. apply Hmac. destruct custom_mac as [|[]| | | |]; done. }
  clear Hmac.
  unfold wan_form_cb, wan_ucollect_tree, wan_pppoe_options, wan_mac_option.
  rewrite ucollect_interface_name_run.
  cbv zeta.
  generalize (ucollect_interface_name nuci_config) as if_name.
  generalize (dict_get data "smrt_vlan" VNone) as smrt_vlan.
  generalize (dict_get data "use_smrt" (VBool false)) as use_smrt.
  generalize (dict_get data "smrt_vpi" VNone) as vpi.
  generalize (dict_get data "smrt_vci" VNone) as vci.
  intros vci vpi use_smrt smrt_vlan.
  generalize (if py_bool use_smrt && negb (py_bool smrt_vlan)
              then VStr "848" else smrt_vlan) as vlan.
  intros vlan.
  generalize (if py_bool use_smrt then "eth2" +:+ "." +:+ py_str vlan else "eth2")
    as wan_ifname.
  generalize (py_str vlan +:+ " " +:+ py_str vpi +:+ " " +:+ py_str vci) as connection.
  generalize (py_bool vpi && py_bool vci) as has_vpi_vci.
  generalize (py_bool use_smrt) as uses_smrt.
  intros uses_smrt has_vpi_vci connection wan_ifname if_name.
  unfold getitem. abstract_data data.
  rewrite Hproto, Hcm, Hu, Hp, Hi. run_cb.
  destruct (py_is_True custom_mac) eqn:Ecm.
  - rewrite (Hmac' eq_refl).
    destruct has_smrtd; [destruct has_vpi_vci; [|destruct uses_smrt]|];
      finish_cb; eexists _, _; (split; reflexivity).
  - destruct has_smrtd; [destruct has_vpi_vci; [|destruct uses_smrt]|];
      finish_cb; eexists _, _; (split; reflexivity).
Qed.

(** X10.  PPPoE on a router without the smrtd configuration: section [wan]
    gets the protocol, the MAC address operation, user name, password and
    the IPv6 switch, nothing else, and ucollect is told to listen on
    ["pppoe-wan"], in a section named after the first interface section of
    the snapshot. *)
Theorem wan_pppoe_patch (nuci_config : UciTree) (data : Data) (w : World)
    (custom_mac macaddr username password ppp_ipv6 : PyVal) :
  data !! "proto" = Some (VStr "pppoe") ->
  data !! "custom_mac" = Some custom_mac ->
  (custom_mac = VBool true -> data !! "macaddr" = Some macaddr) ->
  data !! "username" = Some username ->
  data !! "password" = Some password ->
  data !! "ppp_ipv6" = Some ppp_ipv6 ->
  exists payload s',
    wan_form_cb false nuci_config data (mkCbState [] w)
      = (Ok ("edit_config", payload), s') /\
    patch_view payload =
      Some (UNode KUci None
              [wan_network_tree
                 (wan_pppoe_options custom_mac macaddr username password ppp_ipv6);
               wan_ucollect_tree nuci_config "pppoe-wan"]).
Proof.
  intros Hproto Hcm Hmac Hu Hp Hi.
  destruct (wan_form_cb_pppoe false nuci_config data w _ _ _ _ _
              Hproto Hcm Hmac Hu Hp Hi) as (payload & s' & Hrun & Hview).
  exists payload, s'. split; [exact Hrun|].
  rewrite Hview, app_nil_r. reflexivity.
Qed.



(** X13.  A protocol other than PPPoE and static, on a router without the
    smrtd configuration: section [wan] gets only the protocol and the MAC
    address operation, and ucollect listens on ["eth2"]. *)
Theorem wan_other_proto_patch (nuci_config : UciTree) (data : Data) (w : World)
    (proto custom_mac macaddr : PyVal) :
  data !! "proto" = Some proto ->
  py_eq_str proto "pppoe" = false ->
  py_eq_str proto "static" = false ->
  data !! "custom_mac" = Some custom_mac ->
  (custom_mac = VBool true -> data !! "macaddr" = Some macaddr) ->
  exists payload s',
    wan_form_cb false nuci_config data (mkCbState [] w)
      = (Ok ("edit_config", payload), s') /\
    patch_view payload =
      Some (UNode KUci None
              [wan_network_tree
                 [UNode (KOption "proto" proto) None [];
                  wan_mac_option custom_mac macaddr];
               wan_ucollect_tree nuci_config "eth2"]).
Proof.
  intros Hproto Hpp Hst Hcm Hmac.
  assert (Hmac' : py_is_True custom_mac = true -> data !! "macaddr" = Some macaddr).
  { intros E. apply Hmac. destruct custom_mac as [|[]| | | |]; done. }
  clear Hmac.
  unfold wan_form_cb, wan_ucollect_tree, wan_mac_option.
  rewrite ucollect_interface_name_run.
  generalize (ucollect_interface_name nuci_config) as if_name. intros if_name.
  unfold getitem. abstract_data data.
  rewrite Hproto, Hcm.
  lazy -[py_bool py_is_True py_eq_str py_str String.append].
  rewrite Hpp, Hst.
  destruct (py_is_True custom_mac) eqn:Ecm.
  - rewrite (Hmac' eq_refl). finish_cb. eexists _, _. split; reflexivity.
  - finish_cb. eexists _, _. split; reflexivity.
Qed.

(** X14.  Static addressing with IPv6 switched on, on a router without the
    smrtd configuration: the two DNS servers are stored as one option, the
    two strings joined by a space and stripped of surrounding white space,
    and the three IPv6 options are set instead of removed. *)
Theorem wan_static_ipv6_patch (nuci_config : UciTree) (data : Data) (w : World)
    (custom_mac macaddr ipaddr netmask gateway ip6addr ip6gw ip6prefix : PyVal)
    (dns1 dns2 : string) :
  data !! "proto" = Some (VStr "static") ->
  data !! "custom_mac" = Some custom_mac ->
  (custom_mac = VBool true -> data !! "macaddr" = Some macaddr) ->
  data !! "ipaddr" = Some ipaddr ->
  data !! "netmask" = Some netmask ->
  data !! "gateway" = Some gateway ->
  dict_get data "dns1" (VStr "") = VStr dns1 ->
  dict_get data "dns2" (VStr "") = VStr dns2 ->
  data !! "static_ipv6" = Some (VBool true) ->
  data !! "ip6addr" = Some ip6addr ->
  data !! "ip6gw" = Some ip6gw ->
  data !! "ip6prefix" = Some ip6prefix ->
  exists payload s',
    wan_form_cb false nuci_config data (mkCbState [] w)
      = (Ok ("edit_config", payload), s') /\
    patch_view payload =
      Some (UNode KUci None
              [wan_network_tree
                 (UNode (KOption "proto" (VStr "static")) None [] ::
                  wan_mac_option custom_mac macaddr ::
                  wan_static_ipv6_options ipaddr netmask gateway
                    (Str.strip (dns1 +:+ " " +:+ dns2)) ip6addr ip6gw ip6prefix);
               wan_ucollect_tree nuci_config "eth2"]).
Proof.
  intros Hproto Hcm Hmac Hip Hnm Hgw Hd1 Hd2 Hv6 H6a H6g H6p.
  assert (Hmac' : py_is_True custom_mac = true -> data !! "macaddr" = Some macaddr).
  { intros E. apply Hmac. destruct custom_mac as [|[]| | | |]; done. }
  clear Hmac.
  unfold wan_form_cb, wan_ucollect_tree, wan_mac_option.
  rewrite ucollect_interface_name_run, Hd1, Hd2.
  generalize (ucollect_interface_name nuci_config) as if_name. intros if_name.
  unfold getitem, dict_get. abstract_data data.
  rewrite Hproto, Hcm, Hip, Hnm, Hgw, Hv6, H6a, H6g, H6p.
  lazy -[py_bool py_is_True py_str String.append Str.strip].
  generalize (Str.strip (dns1 +:+ String " " dns2)) as dns. intros dns.
  destruct (py_is_True custom_mac) eqn:Ecm.
  - rewrite (Hmac' eq_refl). finish_cb. eexists _, _. split; reflexivity.
  - finish_cb. eexists _, _. split; reflexivity.
Qed.

(** ** Strings: reversing, stripping, splitting and joining *)

Lemma append_nil_r (s : string) : s +:+ "" = s.
Proof.
  induction s as [|a s IH]; [reflexivity|].
  change (String a s +:+ "") with (String a (s +:+ "")). by rewrite IH.
Qed.

Lemma append_cons (a : ascii) (s t : string) : String a s +:+ t = String a (s +:+ t).
Proof. reflexivity. Qed.

Lemma append_assoc (s t u : string) : (s +:+ t) +:+ u = s +:+ (t +:+ u).
Proof.
  induction s as [|a s IH]; [reflexivity|].
  rewrite !append_cons. by rewrite IH.
Qed.

Lemma rev_app_append (s t u : string) :
  String.rev_app (s +:+ t) u = String.rev_app t (String.rev_app s u).
Proof.
  revert u. induction s as [|a s IH]; intros u; [reflexivity|].
  rewrite append_cons. simpl. apply IH.
Qed.

Lemma rev_app_rev_app (s t u : string) :
  String.rev_app (String.rev_app s t) u = String.rev_app t (s +:+ u).
Proof.
  revert t u. induction s as [|a s IH]; intros t u; [reflexivity|].
  simpl. rewrite IH. reflexivity.
Qed.

Lemma rev_app_spec (s x : string) : String.rev_app s x = String.rev s +:+ x.
Proof.
  revert x. induction s as [|a s IH]; intros x; [reflexivity|].
  unfold String.rev. simpl. rewrite (IH (String a x)), (IH (String a "")).
  by rewrite append_assoc.
Qed.

Lemma rev_involutive (s : string) : String.rev (String.rev s) = s.
Proof. unfold String.rev. rewrite rev_app_rev_app. simpl. apply append_nil_r. Qed.

Lemma lstrip_no_space (s : string) : no_space s = true -> Str.lstrip s = s.
Proof.
  destruct s as [|a s]; [reflexivity|]. unfold no_space. simpl.
  destruct (Ascii.is_space a); [discriminate|reflexivity].
Qed.

Lemma no_space_rev_app (s t : string) :
  no_space (String.rev_app s t) = no_space s && no_space t.
Proof.
  revert t. induction s as [|a s IH]; intros t; [reflexivity|].
  simpl. rewrite IH. unfold no_space. simpl.
  destruct (negb (Ascii.is_space a)), (str_all _ s), (str_all _ t); reflexivity.
Qed.

Lemma strip_no_space (s : string) : no_space s = true -> Str.strip s = s.
Proof.
  intros H. unfold Str.strip. rewrite (lstrip_no_space s H).
  rewrite lstrip_no_space, rev_involutive; [reflexivity|].
  unfold String.rev. rewrite no_space_rev_app, H. reflexivity.
Qed.

Lemma lstrip_head (a : ascii) (s : string) :
  Ascii.is_space a = false -> Str.lstrip (String a s) = String a s.
Proof. intros H. simpl. by rewrite H. Qed.

Lemma lstrip_spaces (l x : string) :
  str_all Ascii.is_space l = true -> Str.lstrip (l +:+ x) = Str.lstrip x.
Proof.
  induction l as [|a l IH]; intros H; [reflexivity|].
  simpl in H. apply andb_prop in H as [Ha H].
  rewrite append_cons. simpl. rewrite Ha. by apply IH.
Qed.

Lemma lstrip_rev_app_spaces (r x : string) :
  str_all Ascii.is_space r = true ->
  Str.lstrip (String.rev_app r x) = Str.lstrip x.
Proof.
  revert x. induction r as [|a r IH]; intros x H; [reflexivity|].
  simpl in H. apply andb_prop in H as [Ha H].
  simpl String.rev_app. rewrite IH by done. simpl. by rewrite Ha.
Qed.

Lemma lstrip_rev_app_no_space (b x : string) :
  no_space b = true -> b <> "" ->
  Str.lstrip (String.rev_app b x) = String.rev_app b x.
Proof.
  revert x. induction b as [|c b IH]; intros x H Hne; [done|].
  unfold no_space in H. simpl in H. apply andb_prop in H as [Hc H].
  apply negb_true_iff in Hc.
  simpl String.rev_app. destruct b as [|d b].
  - simpl String.rev_app. by apply lstrip_head.
  - apply IH; done.
Qed.

(** White space around a string without white space is stripped. *)
Lemma strip_padded (l s r : string) :
  str_all Ascii.is_space l = true -> str_all Ascii.is_space r = true ->
  no_space s = true ->
  Str.strip (l +:+ s +:+ r) = s.
Proof.
  intros Hl Hr Hs. unfold Str.strip. rewrite lstrip_spaces by done.
  destruct s as [|a s].
  - change ("" +:+ r) with r.
    replace (Str.lstrip r) with "".
    2:{ rewrite <- (append_nil_r r), lstrip_spaces by done. reflexivity. }
    reflexivity.
  - assert (Ha : Ascii.is_space a = false).
    { unfold no_space in Hs. simpl in Hs. apply andb_prop in Hs as [Ha _].
      by apply negb_true_iff in Ha. }
    rewrite append_cons, lstrip_head by done. rewrite <- append_cons.
    unfold String.rev at 2. rewrite rev_app_append, lstrip_rev_app_spaces by done.
    rewrite lstrip_rev_app_no_space by done.
    exact (rev_involutive (String a s)).
Qed.

(** Two words joined by a space have nothing to strip. *)
Lemma strip_two_words (a b : string) :
  no_space a = true -> no_space b = true -> a <> "" -> b <> "" ->
  Str.strip (a +:+ " " +:+ b) = a +:+ " " +:+ b.
Proof.
  intros Ha Hb Hane Hbne. unfold Str.strip.
  destruct a as [|c a]; [done|].
  assert (Hc : Ascii.is_space c = false).
  { unfold no_space in Ha. simpl in Ha. apply andb_prop in Ha as [Hc _].
    by apply negb_true_iff in Hc. }
  assert (Hrev : String.rev (String c a +:+ " " +:+ b) =
                 String.rev_app b (String " " (String.rev (String c a)))).
  { unfold String.rev. rewrite rev_app_append. reflexivity. }
  rewrite append_cons, lstrip_head by done. rewrite <- append_cons.
  rewrite Hrev, lstrip_rev_app_no_space by done. rewrite <- Hrev.
  apply rev_involutive.
Qed.

(** Splitting at a character. *)
Lemma split_go_word (sep : ascii) (cur a rest : string) :
  str_all (fun c => negb (Ascii.eqb c sep)) a = true ->
  Str.split_go sep cur (a +:+ rest) = Str.split_go sep (String.rev_app a cur) rest.
Proof.
  revert cur. induction a as [|c a IH]; intros cur H; [reflexivity|].
  simpl in H. apply andb_prop in H as [Hc H]. apply negb_true_iff in Hc.
  rewrite append_cons. simpl. rewrite Hc. by apply IH.
Qed.

Lemma split_word (sep : ascii) (a : string) :
  str_all (fun c => negb (Ascii.eqb c sep)) a = true ->
  Str.split sep a = [a].
Proof.
  intros H. unfold Str.split. rewrite <- (append_nil_r a) at 1.
  rewrite split_go_word by done. simpl. f_equal. exact (rev_involutive a).
Qed.

Lemma split_cons (sep : ascii) (a rest : string) :
  str_all (fun c => negb (Ascii.eqb c sep)) a = true ->
  Str.split sep (a +:+ String sep rest) = a :: Str.split sep rest.
Proof.
  intros H. unfold Str.split. rewrite split_go_word by done. simpl.
  rewrite Ascii.eqb_refl. f_equal. exact (rev_involutive a).
Qed.

Lemma no_space_no_blank (a : string) :
  no_space a = true -> str_all (fun c => negb (Ascii.eqb c " ")) a = true.
Proof.
  unfold no_space. induction a as [|c a IH]; [reflexivity|]. simpl.
  intros H. apply andb_prop in H as [Hc H]. rewrite IH by done.
  rewrite andb_true_r. destruct (Ascii.eqb_spec c " ") as [->|]; done.
Qed.

Lemma split_go_nonempty (sep : ascii) (cur s : string) : Str.split_go sep cur s <> [].
Proof.
  revert cur. induction s as [|a s IH]; intros cur; [done|].
  simpl. destruct (Ascii.eqb a sep); [done|apply IH].
Qed.

(** Joining the pieces of a split gives the string back. *)
Lemma join_split_go (sep : ascii) (cur s : string) :
  Str.join (String sep "") (Str.split_go sep cur s) = String.rev cur +:+ s.
Proof.
  revert cur. induction s as [|a s IH]; intros cur.
  - simpl. by rewrite append_nil_r.
  - simpl. destruct (Ascii.eqb_spec a sep) as [->|Hne].
    + change (Str.join (String sep "") (String.rev cur :: Str.split_go sep "" s))
        with (match Str.split_go sep "" s with
              | [] => String.rev cur
              | _ => String.rev cur +:+ String sep "" +:+
                     Str.join (String sep "") (Str.split_go sep "" s)
              end).
      destruct (Str.split_go sep "" s) eqn:E.
      * by apply split_go_nonempty in E.
      * rewrite <- E, IH. reflexivity.
    + rewrite IH. unfold String.rev. simpl.
      rewrite (rev_app_spec cur (String a "")), append_assoc. reflexivity.
Qed.

Lemma join_split (sep : ascii) (s : string) :
  Str.join (String sep "") (Str.split sep s) = s.
Proof. unfold Str.split. by rewrite join_split_go. Qed.

(** ** WanHandler: reading the stored values back *)

(** X15.  The DNS option written by the static branch reads back into the
    two fields: two servers come back as entered; a single server comes
    back in the first field, also when it was entered in the second one,
    and the other field stays empty ([None]). *)
Theorem wan_dns_round_trip (dns1 dns2 : string) :
  no_space dns1 = true -> no_space dns2 = true ->
  let stored :=
    UNode (KOption "dns" (VStr (Str.strip (dns1 +:+ " " +:+ dns2)))) None [] in
  (dns1 <> "" ->
   dns_preproc 0 stored = Ok (VStr dns1) /\
   dns_preproc 1 stored = Ok (if String.eqb dns2 "" then VNone else VStr dns2)) /\
  (dns1 = "" ->
   dns_preproc 0 stored = Ok (VStr dns2) /\
   dns_preproc 1 stored = Ok VNone).
Proof.
  intros H1 H2 stored. subst stored. unfold dns_preproc, extract_dns_item, kind.
  split.
  - intros Hne. destruct (String.eqb_spec dns2 "") as [->|Hne2].
    + replace (dns1 +:+ " " +:+ "") with ("" +:+ dns1 +:+ " ") by reflexivity.
      rewrite strip_padded, split_word by auto using no_space_no_blank.
      split; reflexivity.
    + rewrite strip_two_words by done.
      change (dns1 +:+ " " +:+ dns2) with (dns1 +:+ String " " dns2).
      rewrite split_cons, split_word by auto using no_space_no_blank.
      split; reflexivity.
  - intros ->. replace ("" +:+ " " +:+ dns2) with (" " +:+ dns2 +:+ "").
    2:{ by rewrite append_nil_r. }
    rewrite strip_padded, split_word by auto using no_space_no_blank.
    split; reflexivity.
Qed.


Lemma take_digits_all (s : string) : str_all is_digit s = true -> take_digits s = s.
Proof.
  induction s as [|a s IH]; [reflexivity|]. simpl.
  intros H. apply andb_prop in H as [Ha H]. rewrite Ha, IH by done. reflexivity.
Qed.

(** X17.  The VLAN number shown in the form is taken from the WAN interface
    name when that is ["eth2.<digits>"], as the callback writes it for an
    enabled modem, whatever the connections list holds; with the interface
    name ["eth2"], as written for a disabled modem, it is the VLAN of the
    first connection. *)
Theorem smrtd_vlan_round_trip (data : UciTree) (ifname : UciTree) (name : string)
    (op : option Operation) (cs : list UciTree) (vlan : string) :
  find_child data "uci.network.wan.ifname" = Some ifname ->
  node_bool ifname = true ->
  str_all is_digit vlan = true -> vlan <> "" ->
  (ifname = UNode (KOption name (VStr ("eth2." +:+ vlan))) op cs ->
   get_smrtd_vlan data = Got (Ok (VStr vlan))) /\
  (ifname = UNode (KOption name (VStr "eth2")) op cs ->
   get_smrtd_vlan data =
     get_smrtd_param "VLAN" (find_child data "uci.smrtd.eth2.connections")).
Proof.
  intros Hf Hb Hd Hne. split; intros ->; unfold get_smrtd_vlan; rewrite Hf, Hb.
  - cbn [kind]. unfold match_eth2_vlan.
    change (Str.startswith "eth2" ("eth2." +:+ vlan)) with true.
    change (Str.drop 4 ("eth2." +:+ vlan)) with (String "." vlan).
    cbv iota. change (Ascii.eqb "." "010") with false. cbv iota.
    rewrite take_digits_all by done. by destruct vlan.
  - reflexivity.
Qed.

(** ** UpdaterHandler: reading the lists back *)

Lemma contents_value_trees (i : Z) (names : list string) :
  contents (value_trees i names) = Ok names.
Proof.
  revert i. induction names as [|n names IH]; intros i; [reflexivity|].
  simpl. by rewrite IH.
Qed.

(** The run of the package lists callback and the heap it leaves. *)
Lemma package_lists_run (data : Data) (w : World) :
  let names := selected_lists (iteritems data) in
  let op := match names with [] => OpRemove | _ => OpReplace end in
  let h := append_child 2 3 (set_operation 3 op (lists_heap names)) in
  package_lists_form_cb data (mkCbState [] w) =
    (Ok ("edit_config", PPatch h 0), mkCbState h w).
Proof.
  intros names op h. unfold package_lists_form_cb.
  do 6 (erewrite bind_eval by reflexivity; cbv beta).
  erewrite bind_eval by apply (package_lists_loop (iteritems data) [] w).
  cbv beta. change ([] ++ selected_lists (iteritems data)) with names.
  subst h op. destruct names; reflexivity.
Qed.

(** X18.  What the package lists callback writes reads back into the
    check boxes: the pre-processing function of list [name], applied to
    the [lists] node of the patch, never raises and returns [True] exactly
    when the field [install_<name>] was submitted with a truthy value. *)
Theorem package_lists_round_trip (data : Data) (w : World) (name : string) :
  exists payload s' tree lists checked,
    package_lists_form_cb data (mkCbState [] w) = (Ok ("edit_config", payload), s') /\
    patch_view payload = Some tree /\
    find_child tree "uci.updater.pkglists.lists" = Some lists /\
    make_preproc name lists = Ok checked /\
    (checked = true <->
     exists v, data !! ("install_" +:+ name) = Some v /\ py_bool v = true).
Proof.
  pose (names := selected_lists (iteritems data)).
  pose (op := match names with [] => OpRemove | _ => OpReplace end).
  eexists _, _, (updater_patch op names),
    (UNode (KList "lists") (Some op) (value_trees 0 names)),
    (bool_decide (name ∈ names)).
  split; [apply package_lists_run|].
  split; [apply lists_heap_patch|].
  split; [reflexivity|].
  split.
  - unfold make_preproc. cbn [children]. by rewrite contents_value_trees.
  - rewrite bool_decide_eq_true. apply selected_lists_elem.
Qed.

(** ** NotificationsHandler: the recipients *)

Lemma bind_assoc {S A B C} (m : M S A) (k1 : A -> M S B) (k2 : B -> M S C) (s : S) :
  bind (bind m k1) k2 s = bind m (fun a => bind (k1 a) k2) s.
Proof. unfold bind. destruct (m s) as [[a|e] s']; reflexivity. Qed.

(** The loop over the recipients: the values are allocated after the
    objects that are there, and become children of the list [t]. *)
Lemma to_loop (t : nat) (A : Heap) (w : World) (items done : list (Z * string)) :
  t < length A ->
  for_each items
    (fun '(i, to_item) =>
       when (negb (String.eqb to_item "")) (add_new t (new_Value i to_item)))
    (mkCbState (alter (add_kids (seq (length A) (length done))) t A
                ++ (value_obj <$> done)) w) =
  (Ok tt,
   mkCbState (alter (add_kids (seq (length A) (length (done ++ nonempty_items items)))) t A
              ++ (value_obj <$> (done ++ nonempty_items items))) w).
Proof.
  intros Ht. revert done. induction items as [|[i x] items IH]; intros done.
  - simpl. by rewrite app_nil_r.
  - change (for_each ((i, x) :: items) ?b) with (bind (b (i, x)) (fun _ => for_each items b)).
    cbv beta iota. unfold nonempty_items. simpl List.filter.
    fold (nonempty_items items).
    destruct (String.eqb x "").
    + simpl negb. unfold when. erewrite bind_eval by reflexivity. apply IH.
    + simpl negb. unfold when, add_new, new_Value.
      rewrite bind_assoc. erewrite bind_eval by reflexivity. cbv beta.
      erewrite bind_eval by reflexivity.
      unfold on_heap, cs_heap, cs_world, append_child.
      rewrite length_app, length_alter, length_fmap.
      rewrite <- app_assoc, alter_app_l by (by rewrite length_alter).
      rewrite list_alter_alter_eq.
      specialize (IH (done ++ [(i, x)])).
      rewrite length_app, Nat.add_1_r, seq_S, fmap_app, <- !app_assoc in IH.
      simpl in IH.
      erewrite list_alter_ext; [exact IH|..]; try reflexivity.
      intros o _. unfold add_kids. simpl. by rewrite <- app_assoc.
Qed.

Lemma to_loop_start (t : nat) (A : Heap) (w : World) (items : list (Z * string)) :
  t < length A ->
  for_each items
    (fun '(i, to_item) =>
       when (negb (String.eqb to_item "")) (add_new t (new_Value i to_item)))
    (mkCbState A w) =
  (Ok tt,
   mkCbState (alter (add_kids (seq (length A) (length (nonempty_items items)))) t A
              ++ (value_obj <$> nonempty_items items) ++ []) w).
Proof.
  intros Ht. pose proof (to_loop t A w items [] Ht) as H.
  simpl in H. rewrite app_nil_r in H |- *.
  rewrite <- H. do 2 f_equal.
  symmetry. apply list_alter_id. intros [k op kids]. unfold add_kids. simpl.
  by rewrite app_nil_r.
Qed.

(** Objects allocated and attached around a run of values. *)
Lemma heap_new (a n b : nat) (A vals B : Heap) (k : NodeKind) (w : World) :
  a = length A -> n = length vals -> b = length B ->
  new k (mkCbState (A ++ vals ++ B) w) =
  (Ok (a + n + b), mkCbState (A ++ vals ++ (B ++ [mkObj k None []])) w).
Proof.
  intros -> -> ->. unfold new, alloc. simpl.
  by rewrite !length_app, <- !app_assoc, Nat.add_assoc.
Qed.

Lemma heap_add_l (p c : nat) (A vals B : Heap) (w : World) :
  p < length A ->
  add p c (mkCbState (A ++ vals ++ B) w) =
  (Ok tt, mkCbState (append_child p c A ++ vals ++ B) w).
Proof.
  intros Hp. unfold add, modify, on_heap, append_child. simpl.
  by rewrite alter_app_l.
Qed.

Lemma heap_add_r (a n j p c : nat) (A vals B : Heap) (w : World) :
  a = length A -> n = length vals -> p = a + n + j ->
  add p c (mkCbState (A ++ vals ++ B) w) =
  (Ok tt, mkCbState (A ++ vals ++ append_child j c B) w).
Proof.
  intros -> -> ->. unfold add, modify, on_heap, append_child. simpl.
  by rewrite <- Nat.add_assoc, !alter_app_r.
Qed.

Lemma heap_add_replace_l (p c : nat) (A vals B : Heap) (w : World) :
  p < length A -> c < length A ->
  add_replace p c (mkCbState (A ++ vals ++ B) w) =
  (Ok tt, mkCbState (append_child p c (set_operation c OpReplace A) ++ vals ++ B) w).
Proof.
  intros Hp Hc. unfold add_replace, modify, on_heap, append_child, set_operation. simpl.
  rewrite (alter_app_l _ A) by done.
  by rewrite alter_app_l by (by rewrite length_alter).
Qed.

(** Reading a patch off such a heap. *)
Lemma reify_node (fuel : nat) (h : Heap) (i : nat) (k : NodeKind)
    (op : option Operation) (kids : list nat) (cs : list UciTree) :
  h !! i = Some (mkObj k op kids) ->
  mapM (reify fuel h) kids = Some cs ->
  reify (S fuel) h i = Some (UNode k op cs).
Proof. intros Hl Hk. simpl. rewrite Hl. simpl. by rewrite Hk. Qed.

Lemma mapM_step {A B} (f : A -> option B) (x : A) (xs : list A) (y : B) (ys : list B) :
  f x = Some y -> mapM f xs = Some ys -> mapM f (x :: xs) = Some (y :: ys).
Proof. intros Hx Hxs. simpl. rewrite Hx. simpl. by rewrite Hxs. Qed.

Lemma heap_lookup_r (a n : nat) (A vals B : Heap) (i j : nat) :
  a = length A -> n = length vals -> i = a + n + j -> (A ++ vals ++ B) !! i = B !! j.
Proof.
  intros -> -> ->. rewrite <- Nat.add_assoc, lookup_app_r by lia.
  rewrite lookup_app_r by lia. f_equal. lia.
Qed.

Lemma reify_values (fuel a n : nat) (A B : Heap) (items : list (Z * string)) :
  a = length A -> n = length items ->
  mapM (reify (S fuel) (A ++ (value_obj <$> items) ++ B)) (seq a n) =
  Some (value_tree <$> items).
Proof.
  intros -> ->. revert A. induction items as [|item items IH]; intros A; [reflexivity|].
  change (seq (length A) (length (item :: items)))
    with (length A :: seq (S (length A)) (length items)).
  apply mapM_step.
  - apply reify_node with (kids := []); [|reflexivity].
    change ((value_obj <$> item :: items) ++ B)
      with (value_obj item :: (value_obj <$> items) ++ B).
    by rewrite list_lookup_middle.
  - specialize (IH (A ++ [value_obj item])).
    rewrite length_app, Nat.add_1_r, <- app_assoc in IH. exact IH.
Qed.

(** One statement of a callback, run on a state without unknowns. *)
Ltac cb_step :=
  lazymatch goal with
  | |- bind (bind ?m ?k1) ?k2 ?s = _ => rewrite (bind_assoc m k1 k2 s)
  | |- bind ?m ?k ?s = _ =>
      let r := eval lazy -[Str.split enumerate Nat.add] in (m s) in
      lazymatch r with
      | (Ok ?a, ?s') => rewrite (bind_eval m k s s' a eq_refl)
      end
  end; cbv beta.

(** One statement of a callback, run on a heap with a run of values in
    the middle. *)
Ltac heap_norm :=
  lazymatch goal with
  | |- context [mkCbState (?A ++ ?vals ++ ?B) _] =>
      let A' := eval lazy -[seq Nat.add] in A in
      let B' := eval lazy -[seq Nat.add] in B in
      change (A ++ vals ++ B) with (A' ++ vals ++ B')
  end.

Ltac heap_step n Hlen :=
  lazymatch goal with
  | |- bind (bind ?m ?k1) ?k2 ?s = _ => rewrite (bind_assoc m k1 k2 s)
  | |- bind (ret ?v) ?k ?s = _ => rewrite (bind_eval (ret v) k s s v eq_refl)
  | |- bind (new ?kd) ?k _ = _ =>
      erewrite (bind_eval (new kd) k)
        by (apply heap_new with (n := n); [lazy; reflexivity|exact Hlen|lazy; reflexivity])
  | |- bind (add_replace ?p ?c) ?k _ = _ =>
      erewrite (bind_eval (add_replace p c) k)
        by (apply heap_add_replace_l; lazy; lia)
  | |- bind (add ?p ?c) ?k _ = _ =>
      erewrite (bind_eval (add p c) k)
        by first [ apply heap_add_l; lazy; lia
                 | eapply heap_add_r with (n := n);
                   [lazy; reflexivity|exact Hlen|lazy -[Nat.add]; reflexivity] ]
  end; cbv beta; try heap_norm.

(** Reading the tree off such a heap, node by node. *)
Ltac heap_lookup n Hlen :=
  first [ rewrite lookup_app_l by (lazy; lia); reflexivity
        | erewrite heap_lookup_r
            by first [exact Hlen | lazy -[Nat.add]; reflexivity];
          reflexivity ].

Ltac reify_tree n Hlen Hn :=
  lazymatch goal with
  | |- reify _ _ _ = Some _ =>
      eapply reify_node; [heap_lookup n Hlen | reify_trees n Hlen Hn]
  end
with reify_trees n Hlen Hn :=
  lazymatch goal with
  | |- mapM _ [] = Some _ => reflexivity
  | |- mapM _ (seq _ _) = Some _ => apply reify_values; [lazy; reflexivity|exact Hn]
  | |- mapM _ (_ :: _) = Some _ =>
      eapply mapM_step; [reify_tree n Hlen Hn | reify_trees n Hlen Hn]
  end.

(** X19.  With [enable_smtp] truthy the patch holds, in section [smtp],
    the switch, the provider and then either the six settings of a custom
    server, when [use_turris_smtp] is the string ["0"], or the sender's
    name, for any other value; then the list [to], always replacing the
    stored one, with one value for every non-empty piece of the
    space-separated recipients, numbered by the position of the piece
    among all pieces.  Sections [reboot] and [notifications] follow. *)
Theorem notifications_on_patch (data : Data) (w : World)
    (enable_smtp reboot_time delay use_turris_smtp severity news : PyVal)
    (server port username password security from sender_name : PyVal) (to : string) :
  data !! "enable_smtp" = Some enable_smtp ->
  py_bool enable_smtp = true ->
  data !! "reboot_time" = Some reboot_time ->
  data !! "delay" = Some delay ->
  data !! "use_turris_smtp" = Some use_turris_smtp ->
  (py_eq_str use_turris_smtp "0" = true ->
   data !! "server" = Some server /\ data !! "port" = Some port /\
   data !! "username" = Some username /\ data !! "password" = Some password /\
   data !! "security" = Some security /\ data !! "from" = Some from) ->
  (py_eq_str use_turris_smtp "0" = false -> data !! "sender_name" = Some sender_name) ->
  data !! "to" = Some (VStr to) ->
  data !! "severity" = Some severity ->
  data !! "news" = Some news ->
  exists payload s',
    notifications_form_cb data (mkCbState [] w) = (Ok ("edit_config", payload), s') /\
    patch_view payload =
      Some (notifications_on_tree enable_smtp reboot_time delay
              (smtp_options use_turris_smtp server port username password security
                 from sender_name)
              to severity news).
Proof.
  intros He Hb Hr Hd Hu Hcustom Hturris Hto Hsev Hnews.
  unfold notifications_form_cb, getitem, py_split_space.
  abstract_data data. rewrite He, Hr, Hd, Hu, Hto, Hsev, Hnews.
  unfold smtp_options, notifications_on_tree, to_values.
  remember (nonempty_items (enumerate (Str.split " " to))) as ni eqn:Hni.
  remember (length ni) as n eqn:Hn.
  remember (value_obj <$> ni) as vals eqn:Hvals.
  assert (Hlen : n = length vals) by (subst; by rewrite length_fmap).
  assert (Hopts : if py_eq_str use_turris_smtp "0"
                  then get "server" = Some server /\ get "port" = Some port /\
                       get "username" = Some username /\
                       get "password" = Some password /\
                       get "security" = Some security /\ get "from" = Some from
                  else get "sender_name" = Some sender_name).
  { destruct (py_eq_str use_turris_smtp "0"); auto. }
  clear Hcustom Hturris.
  destruct (py_eq_str use_turris_smtp "0") eqn:Ec;
    [destruct Hopts as (Hs1 & Hs2 & Hs3 & Hs4 & Hs5 & Hs6);
     rewrite Hs1, Hs2, Hs3, Hs4, Hs5, Hs6
    |rewrite Hopts];
    (eexists _, _; split;
     [ repeat cb_step; rewrite Hb; repeat cb_step; rewrite Ec; repeat cb_step;
       erewrite bind_eval by (apply to_loop_start; simpl; lia);
       rewrite <- Hni, <- Hn, <- Hvals; heap_norm;
       unfold new_Section, new_Option, add_new;
       repeat heap_step n Hlen;
       reflexivity
     | unfold patch_view; cbn [cs_heap];
       match goal with
       | |- reify (S (length ?H)) _ _ = _ =>
           replace (length H) with (S (S (S (S (S (length H - 5))))))
             by (rewrite !length_app; cbn [length]; lia)
       end;
       cbv iota; subst vals;
       reify_tree n Hlen Hn ]).
Qed.

(** X20.  The recipients written by the callback read back into the
    field as the non-empty pieces joined by single spaces; when the
    submitted string has no empty piece (addresses separated by single
    spaces, none before or after), that is the string itself. *)
Theorem recipients_round_trip (to : string) (op : option Operation) :
  let stored := UNode (KList "to") op (to_values to) in
  to_preproc stored =
    Ok (Str.join " " (List.filter (fun x => negb (String.eqb x "")) (Str.split " " to))) /\
  (Forall (fun x => x <> "") (Str.split " " to) -> to_preproc stored = Ok to).
Proof.
  intros stored.
  assert (Hc : forall items, contents (value_tree <$> items) = Ok (snd <$> items)).
  { induction items as [|[i x] items IH]; [reflexivity|].
    change (value_tree <$> (i, x) :: items)
      with (value_tree (i, x) :: (value_tree <$> items)).
    cbn [contents value_tree kind]. by rewrite IH. }
  assert (Hf : forall (l : list string) (f : nat -> Z),
             snd <$> nonempty_items (imap (fun i x => (f i, x)) l) =
             List.filter (fun x => negb (String.eqb x "")) l).
  { induction l as [|x l IH]; intros f; [reflexivity|].
    unfold nonempty_items in *. simpl.
    destruct (String.eqb x ""); simpl; [|f_equal]; apply (IH (f ∘ S)). }
  assert (H1 : to_preproc stored =
               Ok (Str.join " " (List.filter (fun x => negb (String.eqb x ""))
                                   (Str.split " " to)))).
  { unfold to_preproc, stored, to_values, enumerate. cbn [children].
    by rewrite Hc, Hf. }
  split; [exact H1|].
  intros Hne. rewrite H1. f_equal.
  rewrite <- (join_split " " to) at 2. f_equal.
  revert Hne. generalize (Str.split " " to) as l.
  induction l as [|x l IH]; intros Hne; [reflexivity|].
  apply Forall_cons in Hne as [Hx Hl]. simpl.
  destruct (String.eqb_spec x ""); [done|]. simpl. f_equal. by apply IH.
Qed.

(** ** UcollectHandler: the workaround and reading the list back *)

(** X21.  With every service selected and no truthy [uci.ucollect.fakes]
    section in the snapshot, the patch does not touch the [disable] list at
    all: section [fakes] only sets [log_credentials]. *)
Theorem ucollect_without_fakes_section (nuci_config : UciTree) (data : Data) (w : World)
    (services : list string) (log_credentials : PyVal) :
  data !! "services" = Some (VList services) ->
  data !! "log_credentials" = Some log_credentials ->
  Forall (fun x => x ∈ services) SERVICES_OPTIONS ->
  truth (find_child nuci_config "uci.ucollect.fakes") = false ->
  exists payload s',
    ucollect_form_cb nuci_config data (mkCbState [] w) = (Ok ("edit_config", payload), s') /\
    patch_view payload = Some (ucollect_patch [] log_credentials).
Proof.
  intros Hs Hl Hall Ht. unfold ucollect_form_cb, getitem.
  abstract_data data. rewrite Hs, Hl.
  unfold SERVICES_OPTIONS in *. apply Forall_cons in Hall as [Hin _].
  run_cb. rewrite bool_decide_true by done. rewrite Ht. finish_cb.
  eexists _, _. split; reflexivity.
Qed.

(** X22.  The list of disabled services reads back as the selection: from
    the list the callback writes for a selection, the field gets exactly
    the available services that were selected. *)
Theorem ucollect_services_round_trip (services : list string) (op : option Operation) :
  let disabled_services := filter (fun x => x ∉ services) SERVICES_OPTIONS in
  get_enabled_services (UNode (KList "disable") op (value_trees 0 disabled_services)) =
  Ok (filter (fun x => x ∈ services) SERVICES_OPTIONS).
Proof.
  intros disabled_services. unfold get_enabled_services. cbn [children].
  rewrite contents_value_trees. f_equal. subst disabled_services.
  unfold SERVICES_OPTIONS. rewrite !filter_cons, !filter_nil.
  destruct (decide ("23tcp" ∈ services)) as [Hin|Hnin].
  - rewrite decide_False by tauto. reflexivity.
  - rewrite decide_True by tauto. reflexivity.
Qed.

(** ** WifiHandler: the channel fields of the form *)

Lemma split_channels_spec (channels : list Channel) (channels_2g4 channels_5g : list PyVal) :
  split_channels channels channels_2g4 channels_5g =
  (channels_2g4 ++ (channel_choice <$> enabled_2g4 channels),
   channels_5g ++ (channel_choice <$> enabled_5g channels)).
Proof.
  revert channels_2g4 channels_5g.
  induction channels as [|c channels IH]; intros l2 l5.
  - simpl. by rewrite !app_nil_r.
  - unfold enabled_2g4, enabled_5g in *. simpl.
    destruct (ch_disabled c); simpl; [apply IH|].
    destruct (ch_frequency c <? 2500)%Z; simpl; rewrite IH, <- app_assoc; reflexivity.
Qed.

Ltac solve_field_name :=
  unfold field_names; lazy -[elem_of pretty length];
  rewrite list_elem_of_In; cbn [In length];
  split; [intros H; repeat (destruct H as [H|H]; try discriminate H); try lia; try done
         |intros H; try lia; tauto].

(** X23.  The form offers a 2.4 GHz channel as soon as the first card has
    one enabled channel below 2500 MHz, the choices being ["auto"] and
    those channels, ["auto"] the default.  It offers a 5 GHz channel only
    when there are at least two enabled channels from 2500 MHz on, the
    first of them the default: a card with a single such channel gets no
    [channel5g] field.  The band switch [hwmode] is there exactly when both
    channel fields are. *)
Theorem wifi_form_channel_fields (data : option Data) (w : World)
    (card : Card) (cards : list Card) :
  w_stats w = Some (card :: cards) ->
  let c2 := enabled_2g4 (card_channels card) in
  let c5 := enabled_5g (card_channels card) in
  exists f,
    wifi_get_form data w = Ok (Some f) /\
    ("channel2g4" ∈ field_names f <-> 1 <= length c2) /\
    ("channel5g" ∈ field_names f <-> 2 <= length c5) /\
    ("hwmode" ∈ field_names f <-> 1 <= length c2 /\ 2 <= length c5) /\
    (1 <= length c2 ->
     exists fld, find_field f "channel2g4" = Some fld /\
       f_args fld = VStr "auto" :: (channel_choice <$> c2) /\
       f_default fld = VStr "auto") /\
    (2 <= length c5 ->
     exists fld, find_field f "channel5g" = Some fld /\
       f_args fld = channel_choice <$> c5 /\
       Some (f_default fld) = head (channel_choice <$> c5)).
Proof.
  intros Hs c2 c5. unfold wifi_get_form. rewrite Hs.
  change (length (card :: cards) <? 1)%nat with false. cbv iota.
  rewrite split_channels_spec. fold c2 c5.
  rewrite <- (length_fmap channel_choice c2), <- (length_fmap channel_choice c5).
  generalize (channel_choice <$> c2) as l2. generalize (channel_choice <$> c5) as l5.
  clear. intros l5 l2.
  destruct l2 as [|a2 l2]; destruct l5 as [|a5 [|b5 l5]];
    cbn [app length Nat.ltb Nat.leb andb];
    (eexists; split; [run_form; reflexivity|]).
  all: split; [solve_field_name|].
  all: split; [solve_field_name|].
  all: split; [solve_field_name|].
  all: split; intros Hlen;
    first [ cbn [length] in Hlen; lia
          | eexists; split;
            [unfold find_field; lazy; reflexivity|split; reflexivity] ].
Qed.

(** ** UpdaterHandler: the check boxes of the form *)

Lemma add_install_fields (pkg_list : list PkgItem) (f : Form) (name : string)
    (fields : list Field) :
  form_sections f = [mkSection name fields] ->
  exists f',
    for_each pkg_list
      (fun pkg_list_item =>
         add_field 0 WCheckbox ("install_" +:+ pkg_name pkg_list_item)
           [nuci_path "uci.updater.pkglists.lists"] >> ret tt) f = (Ok tt, f') /\
    form_sections f' =
      [mkSection name
         (fields ++
          ((fun item => mkField WCheckbox ("install_" +:+ pkg_name item) false VNone
                          (Some "uci.updater.pkglists.lists") [] [] []) <$> pkg_list))] /\
    form_callbacks f' = form_callbacks f /\
    form_data f' = form_data f.
Proof.
  revert f fields. induction pkg_list as [|item pkg_list IH]; intros f fields Hf.
  - exists f. rewrite app_nil_r. repeat split. exact Hf.
  - change (for_each (item :: pkg_list) ?body)
      with (bind (body item) (fun _ => for_each pkg_list body)).
    cbv beta.
    erewrite bind_eval by reflexivity.
    match goal with
    | |- context [for_each pkg_list _ ?f1] =>
        destruct (IH f1 (fields ++ [mkField WCheckbox ("install_" +:+ pkg_name item)
                                      false VNone (Some "uci.updater.pkglists.lists")
                                      [] [] []]))
          as (f' & Hrun & Hsec & Hcb & Hdata)
    end.
    { unfold on_section. cbn [form_sections]. rewrite Hf. reflexivity. }
    exists f'. split; [exact Hrun|]. split; [|split].
    + rewrite Hsec, <- app_assoc. reflexivity.
    + rewrite Hcb. reflexivity.
    + rewrite Hdata. reflexivity.
Qed.

(** X24.  The form of the updater has one check box per package list the
    backend offers, in the backend's order, named [install_<name>] and
    bound to the stored list of selected package lists; these are the keys the
    callback looks for.  Without the updater data of the backend, building
    the form raises [AttributeError]. *)
Theorem updater_form_fields (data : option Data) (w : World) :
  (forall pkg_list, w_updater w = Some pkg_list ->
   exists f,
     updater_get_form data w = Ok (Some f) /\
     field_names f = (fun item => "install_" +:+ pkg_name item) <$> pkg_list /\
     Forall (fun fld => f_widget fld = WCheckbox /\
                        f_nuci_path fld = Some "uci.updater.pkglists.lists" /\
                        f_requires fld = [])
            (concat (sec_fields <$> form_sections f))) /\
  (w_updater w = None -> updater_get_form data w = Raise (AttributeError "pkg_list")).
Proof.
  split.
  - intros pkg_list Hu. unfold updater_get_form. rewrite Hu. cbv zeta.
    unfold build. erewrite bind_eval by reflexivity.
    match goal with
    | |- context [bind (for_each pkg_list _) _ ?f1] =>
        destruct (add_install_fields pkg_list f1 "select_package_lists" [] eq_refl)
          as (f' & Hrun & Hsec & Hcb & _)
    end.
    erewrite bind_eval by exact Hrun.
    eexists. split; [reflexivity|].
    unfold field_names. cbn [form_sections add_callback]. rewrite Hsec.
    cbn [fmap list_fmap sec_fields concat app]. rewrite app_nil_r.
    split.
    + rewrite <- list_fmap_compose. reflexivity.
    + apply Forall_fmap, Forall_forall. intros item _. repeat split.
  - intros Hu. unfold updater_get_form. by rewrite Hu.
Qed.

(** ** WanHandler: the modem fields of the form *)

(** X25.  The five modem fields are in the WAN form exactly when the
    snapshot of the configuration has a [uci.smrtd] node, and the callback
    the form registers writes the modem settings in exactly that case. *)
Theorem wan_form_modem_fields (data : option Data) (w : World) :
  let nuci_config := client_get (create_config_filter ["network"; "smrtd"; "ucollect"]) w in
  let has_smrtd := is_Some (find_child nuci_config "uci.smrtd") in
  exists f,
    wan_get_form data w = Ok (Some f) /\
    (forall name, name ∈ ["has_smrtd"; "use_smrt"; "smrt_vlan"; "smrt_vpi"; "smrt_vci"] ->
       name ∈ field_names f <-> has_smrtd) /\
    form_callbacks f =
      [as_callback "wan_form_cb" (wan_form_cb (bool_decide has_smrtd) nuci_config)].
Proof.
  intros nuci_config has_smrtd. unfold wan_get_form. cbv zeta.
  change (form_nuci_config (ForisForm "wan" data
            (create_config_filter ["network"; "smrtd"; "ucollect"]) w))
    with nuci_config.
  fold has_smrtd.
  destruct (decide has_smrtd) as [Hh|Hh].
  - rewrite (bool_decide_true _ Hh).
    eexists. split; [run_form; reflexivity|]. split; [|reflexivity].
    intros name Hin. split; [done|]. intros _.
    unfold field_names. lazy -[elem_of] in Hin |- *.
    repeat (apply elem_of_cons in Hin as [->|Hin];
            [repeat first [apply list_elem_of_here | apply list_elem_of_further]|]).
    by apply elem_of_nil in Hin.
  - rewrite (bool_decide_false _ Hh).
    eexists. split; [run_form; reflexivity|]. split; [|reflexivity].
    intros name Hin. split; [|done]. intros Hf. exfalso.
    unfold field_names in Hf. lazy -[elem_of] in Hin, Hf.
    repeat (apply elem_of_cons in Hin as [->|Hin];
            [apply list_elem_of_In in Hf; cbn [In] in Hf;
             repeat (destruct Hf as [Hf|Hf]; try discriminate Hf); done|]).
    by apply elem_of_nil in Hin.
Qed.

(** ** BaseConfigHandler: saving *)

(** X26.  Without a form there is nothing to save: [save] on the base
    class raises [NotImplementedError], and on the Wi-Fi handler of a
    router without a wireless card, whose [get_form] returns [None], it
    raises [AttributeError].  No callback is called, the backend is
    untouched, and nothing is cached. *)
Theorem save_without_form (data : option Data) (change : bool)
    (extra_callbacks : option (list Callback)) (w : World) :
  (let saved := save (new_handler BaseConfigHandler data change) extra_callbacks w in
   sv_return saved = Raise NotImplementedError /\
   sv_called saved = [] /\ sv_world saved = w /\
   h_form_cache (sv_handler saved) = None) /\
  (w_stats w = Some [] ->
   let saved := save (new_handler WifiHandler data change) extra_callbacks w in
   sv_return saved = Raise (AttributeError "validate") /\
   sv_called saved = [] /\ sv_world saved = w /\
   h_form_cache (sv_handler saved) = None).
Proof.
  split.
  - repeat split.
  - intros Hs. unfold save, form, get_form, new_handler, wifi_get_form.
    cbn [h_form_cache h_class h_data]. rewrite Hs. repeat split.
Qed.

Lemma save_handler (h h' : Handler) (extra_callbacks : option (list Callback))
    (w : World) (f : Form) :
  form h w = (Ok (Some f), h') ->
  h_form_cache (sv_handler (save h extra_callbacks w)) =
  Some (match extra_callbacks with
        | Some (cb :: cbs) => foldl (fun f cb => add_callback cb f) (validate f) (cb :: cbs)
        | _ => validate f
        end).
Proof.
  intros Hf. unfold save. rewrite Hf.
  match goal with |- context [form_valid ?g] => destruct (form_valid g) end;
    [|reflexivity].
  match goal with |- context [form_save ?g ?w] => destruct (form_save g w) as [trace w'] end.
  destruct (raised trace); reflexivity.
Qed.

(** X27.  The form is built once and kept: a second [save] on the same
    handler works on the cached form, whatever the backend holds by then,
    and that form still has the extra callbacks of the first call.  Extra
    callbacks passed again are therefore registered twice. *)
Theorem save_twice_keeps_extra_callbacks (h : Handler) (w w2 : World) (f0 : Form)
    (cb : Callback) (cbs : list Callback) :
  h_form_cache h = None ->
  get_form h w = Ok (Some f0) ->
  let extra_callbacks := Some (cb :: cbs) in
  let first := save h extra_callbacks w in
  let second := save (sv_handler first) extra_callbacks w2 in
  (exists f1, h_form_cache (sv_handler first) = Some f1 /\
     form_sections f1 = form_sections f0 /\
     form_callbacks f1 = form_callbacks f0 ++ cb :: cbs) /\
  (exists f2, h_form_cache (sv_handler second) = Some f2 /\
     form_sections f2 = form_sections f0 /\
     form_callbacks f2 = form_callbacks f0 ++ (cb :: cbs) ++ (cb :: cbs)).
Proof.
  intros Hc Hg extra_callbacks first second.
  assert (Hsec : forall l g,
            form_sections (foldl (fun f cb => add_callback cb f) g l) = form_sections g).
  { induction l as [|c l IH]; intros g; [reflexivity|]. cbn [foldl]. by rewrite IH. }
  assert (H1 : form h w = (Ok (Some f0), set_form_cache h (Some f0))).
  { unfold form. by rewrite Hc, Hg. }
  pose proof (save_handler h _ extra_callbacks w f0 H1) as Hfirst.
  fold first in Hfirst. cbn iota in Hfirst.
  set (f1 := foldl (fun f cb => add_callback cb f) (validate f0) (cb :: cbs)) in *.
  assert (H2 : form (sv_handler first) w2 = (Ok (Some f1), sv_handler first)).
  { unfold form. by rewrite Hfirst. }
  pose proof (save_handler _ _ extra_callbacks w2 f1 H2) as Hsecond.
  fold second in Hsecond. cbn iota in Hsecond.
  split.
  - exists f1. split; [exact Hfirst|]. subst f1.
    rewrite Hsec. split; [reflexivity|].
    by destruct (add_callbacks_callbacks (cb :: cbs) (validate f0)) as [-> _].
  - eexists. split; [exact Hsecond|]. rewrite Hsec.
    destruct (add_callbacks_callbacks (cb :: cbs) (validate f1)) as [-> _].
    subst f1. cbn [validate form_sections form_callbacks]. rewrite Hsec.
    split; [reflexivity|].
    destruct (add_callbacks_callbacks (cb :: cbs) (validate f0)) as [-> _].
    cbn [validate form_callbacks]. by rewrite <- app_assoc.
Qed.

(** ** Missing keys *)


(** ** UpdaterHandler: saving the form *)

Lemma updater_form_shape (data : option Data) (w : World) (pkg_list : list PkgItem) :
  w_updater w = Some pkg_list ->
  exists f,
    updater_get_form data w = Ok (Some f) /\
    form_data f = data /\
    form_sections f =
      [mkSection "select_package_lists"
         ((fun item => mkField WCheckbox ("install_" +:+ pkg_name item) false VNone
                         (Some "uci.updater.pkglists.lists") [] [] []) <$> pkg_list)] /\
    form_callbacks f =
      [as_callback "package_lists_form_cb" package_lists_form_cb;
       as_callback "package_lists_run_updater_cb" package_lists_run_updater_cb].
Proof.
  intros Hu. unfold updater_get_form. rewrite Hu. cbv zeta.
  unfold build. erewrite bind_eval by reflexivity.
  match goal with
  | |- context [bind (for_each pkg_list _) _ ?f1] =>
      destruct (add_install_fields pkg_list f1 "select_package_lists" [] eq_refl)
        as (f' & Hrun & Hsec & Hcb & Hdata)
  end.
  erewrite bind_eval by exact Hrun.
  eexists. split; [reflexivity|].
  cbn [form_sections form_callbacks form_data add_callback]. rewrite Hsec, Hcb, Hdata.
  repeat split.
Qed.

(** X29.  Saving the updater form always goes through: the form has no
    required field and no validator, so whatever was submitted [save]
    returns [True] after exactly two backend calls, first the patch with
    the package lists whose check box is truthy in the validated data,
    then the update check. *)
Theorem updater_save_end_to_end (data : option Data) (change : bool) (w : World)
    (pkg_list : list PkgItem) :
  w_updater w = Some pkg_list ->
  let saved := save (new_handler UpdaterHandler data change) None w in
  exists f names,
    updater_get_form data w = Ok (Some f) /\
    sv_return saved = Ok true /\
    fst <$> sv_called saved = ["package_lists_form_cb"; "package_lists_run_updater_cb"] /\
    sv_world saved =
      emit EvCheckUpdates
        (emit (EvEditConfig
                 (Some (updater_patch
                          (match names with [] => OpRemove | _ => OpReplace end) names)))
           w) /\
    (forall name,
       name ∈ names <->
       exists v, validated_data (validate f) !! ("install_" +:+ name) = Some v /\
                 py_bool v = true).
Proof.
  intros Hu saved.
  destruct (updater_form_shape data w pkg_list Hu) as (f & Hf & Hdata & Hsec & Hcbs).
  set (fields := (fun item => mkField WCheckbox ("install_" +:+ pkg_name item) false VNone
                    (Some "uci.updater.pkglists.lists") [] [] []) <$> pkg_list) in Hsec.
  assert (Hall : all_fields f = fields).
  { unfold all_fields. rewrite Hsec. cbn. apply app_nil_r. }
  assert (Herr : form_field_errors f = []).
  { unfold form_field_errors. rewrite Hall. subst fields.
    clear. induction pkg_list as [|item l IH]; [reflexivity|].
    cbn [fmap list_fmap omap list_omap]. unfold field_error at 1, visible.
    cbn [f_requires f_required f_validators forallb andb List.find]. exact IH. }
  assert (Hvalid : form_valid (validate f) = true).
  { unfold validate. cbn [form_valid]. by rewrite Herr. }
  set (vd := validated_data (validate f)).
  exists f, (selected_lists (iteritems vd)).
  split; [exact Hf|].
  subst saved. unfold save, form, get_form, new_handler.
  cbn [h_form_cache h_class h_data]. rewrite Hf. cbv zeta.
  rewrite Hvalid. unfold form_save.
  change (form_callbacks (validate f)) with (form_callbacks f). rewrite Hcbs.
  fold vd. cbn [process_callbacks].
  assert (Hrun : cb_run (as_callback "package_lists_form_cb" package_lists_form_cb) vd w =
                 (Ok ("edit_config",
                      PPatch (append_child 2 3
                                (set_operation 3
                                   (match selected_lists (iteritems vd) with
                                    | [] => OpRemove | _ => OpReplace end)
                                   (lists_heap (selected_lists (iteritems vd))))) 0), w)).
  { cbn [cb_run as_callback]. by rewrite package_lists_run. }
  rewrite Hrun. change (String.eqb "edit_config" "edit_config") with true. cbv iota.
  rewrite package_lists_run_updater_none.
  change (String.eqb "none" "edit_config") with false. cbv iota.
  cbn [raised sv_return sv_called sv_world fmap list_fmap fst cb_name as_callback].
  unfold patch_view. rewrite lists_heap_patch.
  repeat split; try apply selected_lists_elem.
Qed.
End Handlers.

(** * The properties at the sample inputs *)

Lemma wifi_disabled_patch_witness :
  ex_wifi_off !! "iface_section" = Some (VStr "cfg033579") /\
  ex_wifi_off !! "wifi_enabled" = Some (VBool false) /\
  exists payload s',
    wifi_form_cb ex_wifi_off (mkCbState [] ex_world) = (Ok ("edit_config", payload), s') /\
    cs_world s' = ex_world /\
    patch_view payload = Some (wifi_disabled_tree (VStr "cfg033579")) /\
    Forall (fun n => n ∉ option_names (wifi_disabled_tree (VStr "cfg033579")))
           ["ssid"; "hidden"; "encryption"; "key"; "hwmode"; "htmode"; "channel"].
Proof.
  split; [vm_compute; reflexivity|]. split; [vm_compute; reflexivity|].
  apply (wifi_disabled_patch ex_wifi_off ex_world (VStr "cfg033579") (VBool false));
    vm_compute; reflexivity.
Defined.

Lemma password_change_checks_old_password_witness :
  (pw_form_cb ex_node_bool ex_crypt_salted ex_crypt_fresh true (ex_pw_data "guess")
     (mkCbState [] ex_world) =
   (Ok ("save_result", PDict [("wrong_old_password", VBool true)]),
    mkCbState [] ex_world)) /\
  (exists payload s',
     pw_form_cb ex_node_bool ex_crypt_salted ex_crypt_fresh true (ex_pw_data "secret")
       (mkCbState [] ex_world) = (Ok ("edit_config", payload), s') /\
     patch_view payload = Some (password_patch (ex_crypt_fresh "abcdef" 1000 0))).
Proof.
  split.
  - refine (proj1 (password_change_checks_old_password
                     ex_node_bool ex_crypt_salted ex_crypt_fresh (ex_pw_data "guess")
                     ex_world "password" "x1$secret" None [] "guess" "x1$guess"
                     _ _ _ _) _);
      try (vm_compute; reflexivity).
    discriminate.
  - refine (proj2 (password_change_checks_old_password
                     ex_node_bool ex_crypt_salted ex_crypt_fresh (ex_pw_data "secret")
                     ex_world "password" "x1$secret" None [] "secret" "x1$secret"
                     _ _ _ _) _ "abcdef" (VBool false) _ _);
      vm_compute; reflexivity.
Defined.


(** The stored hash is there and empty, every object tests true, and the
    old password is checked all the same: the callback does not return a
    patch. *)
Lemma password_change_empty_hash_is_checked :
  find_child (client_get foris_config ex_world_empty_hash) "uci.foris.auth.password" =
    Some (UNode (KOption "password" (VStr "")) None []) /\
  pw_form_cb ex_node_bool ex_crypt_salted ex_crypt_fresh true (ex_pw_data "anything")
    (mkCbState [] ex_world_empty_hash) =
    (Ok ("save_result", PDict [("wrong_old_password", VBool true)]),
     mkCbState [] ex_world_empty_hash) /\
  ~ (exists payload s',
       pw_form_cb ex_node_bool ex_crypt_salted ex_crypt_fresh true (ex_pw_data "anything")
         (mkCbState [] ex_world_empty_hash) = (Ok ("edit_config", payload), s')).
Proof.
  assert (Hrun : pw_form_cb ex_node_bool ex_crypt_salted ex_crypt_fresh true
                   (ex_pw_data "anything") (mkCbState [] ex_world_empty_hash) =
                 (Ok ("save_result", PDict [("wrong_old_password", VBool true)]),
                  mkCbState [] ex_world_empty_hash)) by (vm_compute; reflexivity).
  split; [vm_compute; reflexivity|]. split; [exact Hrun|].
  intros (payload & s' & H). rewrite Hrun in H. discriminate H.
Qed.

Lemma wan_static_patch_witness :
  ex_wan_static !! "proto" = Some (VStr "static") /\
  dict_get ex_wan_static "dns1" (VStr "") = VStr "" /\
  dict_get ex_wan_static "dns2" (VStr "") = VStr "" /\
  dict_get ex_wan_static "static_ipv6" VNone <> VBool true /\
  exists payload s' mac rest others,
    wan_form_cb ex_node_bool false ex_uci ex_wan_static (mkCbState [] ex_world) =
      (Ok ("edit_config", payload), s') /\
    cs_world s' = ex_world /\
    patch_view payload =
      Some (UNode KUci None
              (UNode (KConfig "network") None
                 [UNode (KSection (VStr "wan") "interface" false) None
                    (UNode (KOption "proto" (VStr "static")) None [] :: mac ::
                     wan_static_options (VStr "192.0.2.1") (VStr "255.255.255.0")
                       (VStr "192.0.2.254") ++ rest)]
               :: others)) /\
    (exists v op, mac = UNode (KOption "macaddr" v) op []) /\
    Forall (fun t => exists v, t = UNode (KOption "ifname" v) None []) rest.
Proof.
  split; [vm_compute; reflexivity|]. split; [vm_compute; reflexivity|].
  split; [vm_compute; reflexivity|]. split; [vm_compute; discriminate|].
  apply (wan_static_patch ex_node_bool false ex_uci ex_wan_static ex_world
           (VStr "192.0.2.1") (VStr "255.255.255.0") (VStr "192.0.2.254") (VBool false));
    try (vm_compute; reflexivity).
  - intros ?; discriminate.
  - vm_compute; discriminate.
Defined.

Lemma ucollect_disable_list_patch_witness :
  (truth ex_node_bool (find_child ex_uci "uci.ucollect.fakes") = true /\
   exists payload s',
     ucollect_form_cb ex_node_bool ex_uci ex_ucollect_all (mkCbState [] ex_world) =
       (Ok ("edit_config", payload), s') /\
     patch_view payload =
       Some (ucollect_patch [UNode (KList "disable") (Some OpRemove) []] (VBool false))) /\
  (exists payload s',
     ucollect_form_cb ex_node_bool ex_uci ex_ucollect_none (mkCbState [] ex_world) =
       (Ok ("edit_config", payload), s') /\
     patch_view payload =
       Some (ucollect_patch
               [UNode (KList "disable") (Some OpReplace) [UNode (KValue 0 "23tcp") None []]]
               (VBool false))).
Proof.
  split; [split; [vm_compute; reflexivity|]|].
  - destruct (ucollect_disable_list_patch ex_node_bool ex_uci ex_ucollect_all ex_world
                ["23tcp"] (VBool false))
      as (payload & s' & patch & Hrun & _ & Hview & _ & Hall & _);
      try (vm_compute; reflexivity).
    exists payload, s'. split; [exact Hrun|]. rewrite Hview. f_equal.
    apply Hall; vm_compute; reflexivity.
  - destruct (ucollect_disable_list_patch ex_node_bool ex_uci ex_ucollect_none ex_world
                [] (VBool false))
      as (payload & s' & patch & Hrun & _ & Hview & _ & _ & Hsome);
      try (vm_compute; reflexivity).
    exists payload, s'. split; [exact Hrun|]. rewrite Hview. f_equal.
    apply Hsome. vm_compute. discriminate.
Defined.

Lemma wifi_get_form_needs_card_witness :
  (w_stats ex_world_no_card = Some [] /\
   wifi_get_form None ex_world_no_card = Ok None) /\
  (w_stats ex_world = Some [ex_card] /\
   exists f,
     wifi_get_form None ex_world = Ok (Some f) /\
     sec_name <$> form_sections f = ["set_wifi"] /\
     cb_name <$> form_callbacks f = ["wifi_form_cb"]).
Proof.
  split; (split; [reflexivity|]).
  - apply (proj1 (wifi_get_form_needs_card None ex_world_no_card [] eq_refl)).
    vm_compute. lia.
  - apply (proj2 (wifi_get_form_needs_card None ex_world [ex_card] eq_refl)).
    vm_compute. lia.
Defined.

Lemma at_most_one_edit_config_witness :
  get_form ex_node_bool ex_crypt_salted ex_crypt_fresh
    (new_handler UpdaterHandler (Some ex_packages) false) ex_world =
    Ok (Some ex_updater_form) /\
  form_callbacks ex_updater_form !! 0%nat =
    Some (as_callback "package_lists_form_cb" package_lists_form_cb) /\
  form_callbacks ex_updater_form !! 1%nat =
    Some (as_callback "package_lists_run_updater_cb" package_lists_run_updater_cb) /\
  returns_edit_config (as_callback "package_lists_form_cb" package_lists_form_cb)
    ex_packages ex_world = true /\
  returns_edit_config
    (as_callback "package_lists_run_updater_cb" package_lists_run_updater_cb)
    ex_packages ex_world = false.
Proof.
  assert (Hf : get_form ex_node_bool ex_crypt_salted ex_crypt_fresh
                 (new_handler UpdaterHandler (Some ex_packages) false) ex_world =
               Ok (Some ex_updater_form)) by reflexivity.
  split; [exact Hf|]. split; [reflexivity|]. split; [reflexivity|].
  split; [vm_compute; reflexivity|].
  destruct (returns_edit_config
              (as_callback "package_lists_run_updater_cb" package_lists_run_updater_cb)
              ex_packages ex_world) eqn:Hsecond; [|reflexivity].
  pose proof (at_most_one_edit_config ex_node_bool ex_crypt_salted ex_crypt_fresh
                (new_handler UpdaterHandler (Some ex_packages) false) ex_world
                ex_updater_form Hf ex_packages 0%nat 1%nat
                (as_callback "package_lists_form_cb" package_lists_form_cb)
                (as_callback "package_lists_run_updater_cb" package_lists_run_updater_cb)
                ex_world ex_world eq_refl eq_refl) as Hsame.
  discriminate Hsame; [vm_compute; reflexivity|exact Hsecond].
Defined.

Lemma save_calls_callbacks_only_when_valid_witness :
  (form_valid (validate ex_check
                 (ex_password_form ex_node_bool ex_crypt_salted ex_crypt_fresh)) = false /\
   let saved := save ex_node_bool ex_crypt_salted ex_crypt_fresh ex_check
                  (new_handler PasswordHandler (Some ex_pw_empty) false) None ex_world in
   sv_return saved = Ok false /\ sv_called saved = [] /\ sv_world saved = ex_world) /\
  (form_valid (validate ex_check ex_dns_form) = true /\
   let saved := save ex_node_bool ex_crypt_salted ex_crypt_fresh ex_check
                  (new_handler DNSHandler (Some ex_dns_data) false) None ex_world in
   let registered := form_callbacks ex_dns_form ++ default [] None in
   (sv_called saved, sv_world saved) =
     process_callbacks registered (validated_data ex_dns_form) ex_world /\
   w_events (sv_world saved) = [EvEditConfig (Some (dns_patch (VBool true)))] /\
   sv_return saved = Ok true /\
   fst <$> sv_called saved = cb_name <$> registered).
Proof.
  split.
  - assert (Hv : form_valid (validate ex_check
                   (ex_password_form ex_node_bool ex_crypt_salted ex_crypt_fresh)) = false)
      by (vm_compute; reflexivity).
    split; [exact Hv|].
    exact (proj1 (save_calls_callbacks_only_when_valid ex_node_bool ex_crypt_salted
                    ex_crypt_fresh ex_check
                    (new_handler PasswordHandler (Some ex_pw_empty) false) None ex_world
                    (ex_password_form ex_node_bool ex_crypt_salted ex_crypt_fresh)
                    eq_refl) Hv).
  - assert (Hv : form_valid (validate ex_check ex_dns_form) = true)
      by (vm_compute; reflexivity).
    split; [exact Hv|].
    destruct (proj2 (save_calls_callbacks_only_when_valid ex_node_bool ex_crypt_salted
                       ex_crypt_fresh ex_check
                       (new_handler DNSHandler (Some ex_dns_data) false) None ex_world
                       ex_dns_form eq_refl) Hv)
      as (Hrun & _ & _ & _ & Hall).
    split; [exact Hrun|]. split; [vm_compute; reflexivity|].
    assert (Hret : sv_return (save ex_node_bool ex_crypt_salted ex_crypt_fresh ex_check
                                (new_handler DNSHandler (Some ex_dns_data) false) None
                                ex_world) = Ok true) by (vm_compute; reflexivity).
    split; [exact Hret|]. exact (proj1 (Hall Hret)).
Defined.

(** * The further properties at sample inputs *)

Lemma lan_form_cb_patch_witness :
  (exists payload s',
     lan_form_cb ex_lan (mkCbState [] ex_world) = (Ok ("edit_config", payload), s') /\
     patch_view payload =
       Some (lan_patch "192.168.1.1"
               [UNode (KOption "ignore" (VStr "0")) None [];
                UNode (KOption "start" (VStr "100")) None [];
                UNode (KOption "limit" (VStr "150")) None []])) /\
  (exists payload s',
     lan_form_cb ex_lan_no_dhcp (mkCbState [] ex_world) =
       (Ok ("edit_config", payload), s') /\
     patch_view payload =
       Some (lan_patch "192.168.1.1" [UNode (KOption "ignore" (VStr "1")) None []])).
Proof.
  split.
  - refine (proj1 (lan_form_cb_patch ex_lan ex_world "192.168.1.1" (VBool true) _ _)
              _ (VStr "100") (VStr "150") _ _);
      vm_compute; reflexivity.
  - refine (proj2 (lan_form_cb_patch ex_lan_no_dhcp ex_world "192.168.1.1" (VBool false)
                     _ _) _);
      vm_compute; reflexivity.
Defined.

Lemma lan_form_cb_needs_address_witness :
  fst (lan_form_cb ∅ (mkCbState [] ex_world)) = Raise (KeyError "lan_ipaddr") /\
  exists what,
    fst (lan_form_cb ex_lan_bad_address (mkCbState [] ex_world)) = Raise (TypeError what).
Proof.
  split.
  - apply (proj1 (lan_form_cb_needs_address ∅ ex_world)). vm_compute; reflexivity.
  - apply (proj2 (lan_form_cb_needs_address ex_lan_bad_address ex_world) (VInt 1)).
    + vm_compute; reflexivity.
    + intros s; discriminate.
Defined.

Lemma dns_form_cb_patch_witness :
  (exists payload s',
     dns_form_cb ex_dns_data (mkCbState [] ex_world) = (Ok ("edit_config", payload), s') /\
     patch_view payload = Some (dns_patch (VBool true))) /\
  fst (dns_form_cb ∅ (mkCbState [] ex_world)) = Raise (KeyError "forward_upstream").
Proof.
  split.
  - apply (proj1 (dns_form_cb_patch ex_dns_data ex_world) (VBool true)).
    vm_compute; reflexivity.
  - apply (proj2 (dns_form_cb_patch ∅ ex_world)). vm_compute; reflexivity.
Defined.

Lemma side_effect_callbacks_witness :
  time_form_cb ex_time (mkCbState [] ex_world) =
    (Ok ("none", PNone),
     mkCbState [] (emit (EvSetTime (VStr "2014-05-06T07:08:09")) ex_world)) /\
  system_pw_form_cb ex_system_password (mkCbState [] ex_world) =
    (Ok ("none", PNone),
     mkCbState [] (emit (EvSetPassword "root" (VStr "abcdef")) ex_world)).
Proof.
  split.
  - apply (proj1 (side_effect_callbacks ex_time ex_world (VStr "2014-05-06T07:08:09"))).
    vm_compute; reflexivity.
  - apply (proj2 (side_effect_callbacks ex_system_password ex_world (VStr "abcdef"))).
    vm_compute; reflexivity.
Defined.

Lemma maintenance_form_cb_result_witness :
  maintenance_form_cb ex_backup (mkCbState [] ex_world) =
    (Ok ("save_result", PDict [("new_ip", w_restore ex_world "backup.tar.bz2")]),
     mkCbState [] (emit (EvLoadConfigBackup "backup.tar.bz2") ex_world)) /\
  maintenance_form_cb ex_backup_no_upload (mkCbState [] ex_world) =
    (Raise (AttributeError "file"), mkCbState [] ex_world).
Proof.
  split.
  - apply (proj1 (maintenance_form_cb_result ex_backup ex_world (VFile "backup.tar.bz2")
                    eq_refl) "backup.tar.bz2").
    reflexivity.
  - apply (proj2 (maintenance_form_cb_result ex_backup_no_upload ex_world (VStr "")
                    eq_refl)).
    intros content; discriminate.
Defined.

Lemma pw_form_cb_first_password_witness :
  exists payload s',
    pw_form_cb ex_node_bool ex_crypt_salted ex_crypt_fresh false ex_pw_system
      (mkCbState [] ex_world_no_hash) = (Ok ("edit_config", payload), s') /\
    patch_view payload = Some (password_patch (ex_crypt_fresh "abcdef" 1000 0)) /\
    w_events (cs_world s') = [EvSetPassword "root" (VStr "abcdef")].
Proof.
  destruct (pw_form_cb_first_password ex_node_bool ex_crypt_salted ex_crypt_fresh
              ex_pw_system ex_world_no_hash "abcdef" (VBool true))
    as (payload & s' & Hrun & Hview & Hset & _);
    try (vm_compute; reflexivity).
  exists payload, s'. split; [exact Hrun|]. split; [exact Hview|].
  apply Hset. reflexivity.
Defined.

Lemma wifi_enabled_patch_witness :
  py_bool (VBool true) = true /\
  exists payload s',
    wifi_form_cb ex_wifi_on (mkCbState [] ex_world) = (Ok ("edit_config", payload), s') /\
    patch_view payload =
      Some (wifi_enabled_tree (VStr "cfg033579") (VStr "Turris") (VBool false)
              (VStr "12345678")
              (if py_bool (dict_get ex_wifi_on "hwmode" VNone)
               then [UNode (KOption "hwmode" (dict_get ex_wifi_on "hwmode" VNone)) None []]
               else [])
              (VStr "HT20") (wifi_channel ex_wifi_on)).
Proof.
  split; [reflexivity|].
  apply (wifi_enabled_patch ex_wifi_on ex_world (VStr "cfg033579") (VBool true)
           (VStr "Turris") (VBool false) (VStr "12345678") (VStr "HT20"));
    vm_compute; reflexivity.
Defined.

Lemma notifications_off_patch_witness :
  py_bool (VBool false) = false /\
  exists payload s',
    notifications_form_cb ex_notifications_off (mkCbState [] ex_world) =
      (Ok ("edit_config", payload), s') /\
    patch_view payload =
      Some (notifications_off_tree (VBool false) (VStr "03:30") (VStr "3")).
Proof.
  split; [reflexivity|].
  apply (notifications_off_patch ex_notifications_off ex_world
           (VBool false) (VStr "03:30") (VStr "3"));
    vm_compute; reflexivity.
Defined.

Lemma wan_pppoe_patch_witness :
  exists payload s',
    wan_form_cb ex_node_bool false ex_uci ex_wan_pppoe (mkCbState [] ex_world) =
      (Ok ("edit_config", payload), s') /\
    patch_view payload =
      Some (UNode KUci None
              [wan_network_tree
                 (wan_pppoe_options (VBool false) VNone (VStr "user") (VStr "pass")
                    (VBool false));
               wan_ucollect_tree ex_node_bool ex_uci "pppoe-wan"]).
Proof.
  apply (wan_pppoe_patch ex_node_bool ex_uci ex_wan_pppoe ex_world
           (VBool false) VNone (VStr "user") (VStr "pass") (VBool false));
    try (vm_compute; reflexivity).
  intros ?; discriminate.
Defined.



Lemma wan_other_proto_patch_witness :
  py_eq_str (VStr "dhcp") "pppoe" = false /\
  py_eq_str (VStr "dhcp") "static" = false /\
  exists payload s',
    wan_form_cb ex_node_bool false ex_uci ex_wan_dhcp (mkCbState [] ex_world) =
      (Ok ("edit_config", payload), s') /\
    patch_view payload =
      Some (UNode KUci None
              [wan_network_tree
                 [UNode (KOption "proto" (VStr "dhcp")) None [];
                  wan_mac_option (VBool true) (VStr "00:11:22:33:44:55")];
               wan_ucollect_tree ex_node_bool ex_uci "eth2"]).
Proof.
  split; [reflexivity|]. split; [reflexivity|].
  apply (wan_other_proto_patch ex_node_bool ex_uci ex_wan_dhcp ex_world
           (VStr "dhcp") (VBool true) (VStr "00:11:22:33:44:55"));
    vm_compute; reflexivity.
Defined.

Lemma wan_static_ipv6_patch_witness :
  exists payload s',
    wan_form_cb ex_node_bool false ex_uci ex_wan_static_ipv6 (mkCbState [] ex_world) =
      (Ok ("edit_config", payload), s') /\
    patch_view payload =
      Some (UNode KUci None
              [wan_network_tree
                 (UNode (KOption "proto" (VStr "static")) None [] ::
                  wan_mac_option (VBool false) VNone ::
                  wan_static_ipv6_options (VStr "192.0.2.1") (VStr "255.255.255.0")
                    (VStr "192.0.2.254") (Str.strip ("" +:+ " " +:+ "192.0.2.53"))
                    (VStr "2001:db8::1/64") (VStr "2001:db8::fe")
                    (VStr "2001:db8:1::/64"));
               wan_ucollect_tree ex_node_bool ex_uci "eth2"]).
Proof.
  apply (wan_static_ipv6_patch ex_node_bool ex_uci ex_wan_static_ipv6 ex_world
           (VBool false) VNone (VStr "192.0.2.1") (VStr "255.255.255.0")
           (VStr "192.0.2.254") (VStr "2001:db8::1/64") (VStr "2001:db8::fe")
           (VStr "2001:db8:1::/64") "" "192.0.2.53");
    try (vm_compute; reflexivity).
  intros ?; discriminate.
Defined.

Lemma wan_dns_round_trip_witness :
  (dns_preproc 0
     (UNode (KOption "dns" (VStr (Str.strip ("192.0.2.53" +:+ " " +:+ "192.0.2.54"))))
        None []) = Ok (VStr "192.0.2.53") /\
   dns_preproc 1
     (UNode (KOption "dns" (VStr (Str.strip ("192.0.2.53" +:+ " " +:+ "192.0.2.54"))))
        None []) = Ok (VStr "192.0.2.54")) /\
  (dns_preproc 0
     (UNode (KOption "dns" (VStr (Str.strip ("" +:+ " " +:+ "192.0.2.53")))) None []) =
     Ok (VStr "192.0.2.53") /\
   dns_preproc 1
     (UNode (KOption "dns" (VStr (Str.strip ("" +:+ " " +:+ "192.0.2.53")))) None []) =
     Ok VNone).
Proof.
  split.
  - apply (proj1 (wan_dns_round_trip "192.0.2.53" "192.0.2.54" eq_refl eq_refl)).
    discriminate.
  - apply (proj2 (wan_dns_round_trip "" "192.0.2.53" eq_refl eq_refl)).
    reflexivity.
Defined.


Lemma smrtd_vlan_round_trip_witness :
  exists payload s' tree,
    wan_form_cb ex_node_bool true ex_uci ex_wan_modem (mkCbState [] ex_world) =
      (Ok ("edit_config", payload), s') /\
    patch_view payload = Some tree /\
    get_smrtd_vlan ex_node_bool tree = Got (Ok (VStr "848")).
Proof.
  eexists _, _, _. split; [vm_compute; reflexivity|]. split; [vm_compute; reflexivity|].
  refine (proj1 (smrtd_vlan_round_trip ex_node_bool _
                   (UNode (KOption "ifname" (VStr "eth2.848")) None [])
                   "ifname" None [] "848" _ _ _ _) eq_refl);
    try (vm_compute; reflexivity).
  discriminate.
Defined.

Lemma notifications_on_patch_witness :
  py_bool (VBool true) = true /\
  to_values "a@example.org  b@example.org" =
    [UNode (KValue 0 "a@example.org") None []; UNode (KValue 2 "b@example.org") None []] /\
  exists payload s',
    notifications_form_cb ex_notifications_on (mkCbState [] ex_world) =
      (Ok ("edit_config", payload), s') /\
    patch_view payload =
      Some (notifications_on_tree (VBool true) (VStr "03:30") (VStr "3")
              (smtp_options (VStr "1") VNone VNone VNone VNone VNone VNone (VStr "turris"))
              "a@example.org  b@example.org" (VInt 1) (VBool false)).
Proof.
  split; [reflexivity|]. split; [vm_compute; reflexivity|].
  apply (notifications_on_patch ex_notifications_on ex_world
           (VBool true) (VStr "03:30") (VStr "3") (VStr "1") (VInt 1) (VBool false)
           VNone VNone VNone VNone VNone VNone (VStr "turris")
           "a@example.org  b@example.org");
    try (vm_compute; reflexivity).
  intros ?; discriminate.
Defined.

Lemma recipients_round_trip_witness :
  Forall (fun x => x <> "") (Str.split " " "a@example.org b@example.org") /\
  to_preproc (UNode (KList "to") (Some OpReplace)
                (to_values "a@example.org b@example.org")) =
    Ok "a@example.org b@example.org".
Proof.
  assert (H : Forall (fun x => x <> "") (Str.split " " "a@example.org b@example.org")).
  { vm_compute. repeat constructor; discriminate. }
  split; [exact H|].
  exact (proj2 (recipients_round_trip "a@example.org b@example.org" (Some OpReplace)) H).
Defined.

Lemma ucollect_without_fakes_section_witness :
  truth ex_node_bool (find_child (UNode KUci None []) "uci.ucollect.fakes") = false /\
  exists payload s',
    ucollect_form_cb ex_node_bool (UNode KUci None []) ex_ucollect_all
      (mkCbState [] ex_world) = (Ok ("edit_config", payload), s') /\
    patch_view payload = Some (ucollect_patch [] (VBool false)).
Proof.
  split; [vm_compute; reflexivity|].
  apply (ucollect_without_fakes_section ex_node_bool (UNode KUci None []) ex_ucollect_all
           ex_world ["23tcp"] (VBool false));
    try (vm_compute; reflexivity).
  repeat constructor.
Defined.

Lemma wifi_form_channel_fields_witness :
  length (enabled_2g4 (card_channels ex_card_single_5g)) = 1 /\
  length (enabled_5g (card_channels ex_card_single_5g)) = 1 /\
  exists f,
    wifi_get_form None ex_world_single_5g = Ok (Some f) /\
    "channel2g4" ∈ field_names f /\
    ~ "channel5g" ∈ field_names f /\
    ~ "hwmode" ∈ field_names f.
Proof.
  split; [reflexivity|]. split; [reflexivity|].
  destruct (wifi_form_channel_fields None ex_world_single_5g ex_card_single_5g [] eq_refl)
    as (f & Hf & H2 & H5 & Hhw & _).
  exists f. split; [exact Hf|]. split; [|split].
  - apply H2. vm_compute. lia.
  - intros Hin. apply H5 in Hin. vm_compute in Hin. lia.
  - intros Hin. apply Hhw in Hin. destruct Hin as [_ Hin]. vm_compute in Hin. lia.
Defined.

Lemma updater_form_fields_witness :
  (exists f,
     updater_get_form None ex_world = Ok (Some f) /\
     field_names f = ["install_luci"; "install_nas"]) /\
  updater_get_form None ex_world_no_updater = Raise (AttributeError "pkg_list").
Proof.
  split.
  - destruct (proj1 (updater_form_fields None ex_world) _ eq_refl) as (f & Hf & Hn & _).
    exists f. split; [exact Hf|exact Hn].
  - apply (proj2 (updater_form_fields None ex_world_no_updater)). reflexivity.
Defined.

Lemma wan_form_modem_fields_witness :
  ~ is_Some (find_child
               (client_get (create_config_filter ["network"; "smrtd"; "ucollect"]) ex_world)
               "uci.smrtd") /\
  exists f,
    wan_get_form ex_node_bool None ex_world = Ok (Some f) /\
    ~ "use_smrt" ∈ field_names f.
Proof.
  assert (Hn : ~ is_Some (find_child
                 (client_get (create_config_filter ["network"; "smrtd"; "ucollect"])
                    ex_world) "uci.smrtd")).
  { vm_compute. intros [x Hx]. discriminate Hx. }
  split; [exact Hn|].
  destruct (wan_form_modem_fields ex_node_bool None ex_world) as (f & Hf & Hnames & _).
  exists f. split; [exact Hf|].
  intros Hin. apply Hn. apply (Hnames "use_smrt"); [|exact Hin].
  apply list_elem_of_further, list_elem_of_here.
Defined.

Lemma save_without_form_witness :
  w_stats ex_world_no_card = Some [] /\
  sv_return (save ex_node_bool ex_crypt_salted ex_crypt_fresh ex_check
               (new_handler WifiHandler (Some ex_wifi_on) false) None ex_world_no_card) =
    Raise (AttributeError "validate").
Proof.
  split; [reflexivity|].
  apply (proj2 (save_without_form ex_node_bool ex_crypt_salted ex_crypt_fresh ex_check
                  (Some ex_wifi_on) false None ex_world_no_card) eq_refl).
Defined.

Lemma save_twice_keeps_extra_callbacks_witness :
  let first := save ex_node_bool ex_crypt_salted ex_crypt_fresh ex_check
                 (new_handler DNSHandler (Some ex_dns_data) false)
                 (Some [ex_extra_callback]) ex_world in
  let second := save ex_node_bool ex_crypt_salted ex_crypt_fresh ex_check
                  (sv_handler first) (Some [ex_extra_callback]) ex_world_no_card in
  exists f2,
    h_form_cache (sv_handler second) = Some f2 /\
    cb_name <$> form_callbacks f2 = ["dns_form_cb"; "extra"; "extra"] /\
    fst <$> sv_called second = ["dns_form_cb"; "extra"; "extra"].
Proof.
  intros first second.
  destruct (save_twice_keeps_extra_callbacks ex_node_bool ex_crypt_salted ex_crypt_fresh
              ex_check (new_handler DNSHandler (Some ex_dns_data) false)
              ex_world ex_world_no_card ex_dns_form ex_extra_callback [] eq_refl eq_refl)
    as (_ & f2 & Hcache & _ & Hcbs).
  exists f2. split; [exact Hcache|]. split.
  - rewrite Hcbs. reflexivity.
  - vm_compute. reflexivity.
Defined.


Lemma updater_save_end_to_end_witness :
  w_updater ex_world = Some [mkPkg "luci" "LuCI" "Web interface"; mkPkg "nas" "NAS" "Storage"] /\
  let saved := save ex_node_bool ex_crypt_salted ex_crypt_fresh ex_check
                 (new_handler UpdaterHandler (Some ex_packages) false) None ex_world in
  sv_return saved = Ok true /\
  fst <$> sv_called saved = ["package_lists_form_cb"; "package_lists_run_updater_cb"].
Proof.
  split; [reflexivity|].
  destruct (updater_save_end_to_end ex_node_bool ex_crypt_salted ex_crypt_fresh ex_check
              (Some ex_packages) false ex_world _ eq_refl)
    as (f & names & _ & Hret & Hcalled & _).
  split; [exact Hret|exact Hcalled].
Defined.
